(** * network-okidata: the Okidata MICROLINE keystroke printer (oki.py)

    A shallow embedding of [oki.py]: the command dictionary
    [OKIDATA_COMMANDS], the handlers of [LiveKeystrokeEditor] that encode
    and transmit printer commands, the timer-driven commit sequence of
    [handle_return], and the line-length projection of
    [update_line_length_display].

    Python values are modelled as follows.
    - [bytes] is [list byte]; [bytes([n])] raises [ValueError] outside
      [range(256)].
    - [str] held by a Tk variable or an entry is [string]; the content of the
      text widget is a list of Unicode code points, so that
      [str.encode('utf-8')] is a real encoding.
    - [float] is IEEE 754 binary64, as [spec_float] with [prec = 53] and
      [emax = 1024]; [int] is [Z].
    - the dictionary is a [gmap string command].
    - a handler is a computation in a state-and-exception monad over the
      application's world (Tk variables, text widget, debug panel, message
      boxes, socket, Tk timers). *)

From Stdlib Require Import ZArith NArith List Bool Ascii String Strings.Byte Lia.
From Stdlib Require Import DecimalString Floats.SpecFloat.
From stdpp Require Import base option list strings gmap.

Import ListNotations.
Local Open Scope string_scope.
Local Open Scope list_scope.
Local Open Scope Z_scope.

(** ** Python exceptions and results *)

Inductive exn : Type :=
| ValueError
| OverflowError
| ZeroDivisionError
| UnicodeEncodeError
| TypeError.

Inductive outcome (A : Type) : Type :=
| Returned (a : A)
| Raised (e : exn).
Arguments Returned {A} a.
Arguments Raised {A} e.

(** ** Bytes *)

Abbreviation bytes := (list byte).

(** [bytes([n])]: one byte, [ValueError] unless [0 <= n < 256]. *)
Definition bytes_of_int (n : Z) : outcome bytes :=
  if (0 <=? n) && (n <? 256)
  then match Byte.of_N (Z.to_N n) with
       | Some b => Returned [b]
       | None => Raised ValueError
       end
  else Raised ValueError.

Definition int_of_byte (b : byte) : Z := Z.of_N (Byte.to_N b).

(** ** The command dictionary *)

(** A dictionary value is either a [bytes] literal or a one-argument
    [lambda]. *)
Inductive command : Type :=
| Fixed (code : bytes)
| Parametric (encode : Z -> outcome bytes).

(** The double quote of the two spacing keys. *)
Definition dquote : string := String (ascii_of_nat 34) EmptyString.

(** [lambda n: b"\x1B\x25\x39" + bytes([n])] *)
Definition set_spacing_n144 (n : Z) : outcome bytes :=
  match bytes_of_int n with
  | Returned b => Returned ([x1b; x25; x39] ++ b)
  | Raised e => Raised e
  end.

(** [lambda n: b"\x1B\x25\x53\x30" if n == 0
               else b"\x1B\x47" + bytes([n]) + bytes([n])] *)
Definition skip_over_perforation (n : Z) : outcome bytes :=
  if n =? 0 then Returned [x1b; x25; x53; x30]
  else match bytes_of_int n with
       | Returned b => Returned (([x1b; x47] ++ b) ++ b)
       | Raised e => Raised e
       end.

Definition OKIDATA_COMMANDS : gmap string command :=
  list_to_map [
    ("Backspace", Fixed [x08]);
    ("Carriage Return", Fixed [x0d]);
    ("Select 10 cpi", Fixed [x1e]);
    ("Select 12 cpi", Fixed [x1c]);
    ("Select 15 cpi", Fixed [x1b; x67]);
    ("Select 17.1 cpi", Fixed [x1d]);
    ("Select 20 cpi", Fixed [x1b; x23; x33]);
    ("Standard Character Set", Fixed [x1b; x21; x30]);
    ("Block Graphic Set", Fixed [x1b; x21; x31]);
    ("Publisher Set", Fixed [x1b; x21; x5a]);
    ("Line Graphics Set", Fixed [x1b; x21; x32]);
    ("Select Utility", Fixed [x1b; x30]);
    ("Slashed Zero", Fixed [x1b; x21; x40]);
    ("Unslashed Zero", Fixed [x1b; x21; x41]);
    ("Double Height On", Fixed [x1b; x1f; x31]);
    ("Double Height Off", Fixed [x1b; x1f; x30]);
    ("Double Width On", Fixed [x1f]);
    ("Double Width Off", Fixed [x1b; x21; x30]);
    ("Emphasized Printing On", Fixed [x1b; x54]);
    ("Emphasized Printing Off", Fixed [x1b; x49]);
    ("Enhanced Printing On", Fixed [x1b; x48]);
    ("Enhanced Printing Off", Fixed [x1b; x49]);
    ("Underline Printing On", Fixed [x1b; x2d; x01]);
    ("Underline Printing Off", Fixed [x1b; x2d; x00]);
    ("Unidirectional Printing On", Fixed [x1b; x2d; x02]);
    ("Unidirectional Printing Off", Fixed [x1b; x2d; x00]);
    ("Form Feed", Fixed [x0c]);
    ("Horizontal Tab", Fixed [x09]);
    ("Vertical Tab", Fixed [x0b]);
    ("Line Feed", Fixed [x0a]);
    ("Line Feed w/o CR", Fixed [x1b; x12]);
    ("Reverse Line Feed", Fixed [x1b; x0a]);
    ("Set Spacing to 1/6" +:+ dquote, Fixed [x1b; x36]);
    ("Set Spacing to 1/8" +:+ dquote, Fixed [x1b; x38]);
    ("Set Spacing to n/144", Parametric set_spacing_n144);
    ("Print Quality Select HSD/SSD", Fixed [x1b; x23; x30]);
    ("Select NLQ Courier", Fixed [x1b; x31]);
    ("Select NLQ Gothic", Fixed [x1b; x33]);
    ("Print Speed Set to Full", Fixed [x1b; x3e]);
    ("Print Speed Set to Half", Fixed [x1b; x3c]);
    ("Proportional Printing On", Fixed [x1b; x59]);
    ("Proportional Printing Off", Fixed [x1b; x5a]);
    ("Reset (Clear Print Buffer)", Fixed [x18]);
    ("Skip Over Perforation", Parametric skip_over_perforation);
    ("Shift In", Fixed [x0f]);
    ("Shift Out", Fixed [x0e])
  ].

(** [OKIDATA_COMMANDS.get(name, default)] *)
Definition commands_get (name : string) (dflt : command) : command :=
  default dflt (OKIDATA_COMMANDS !! name).


(** [OKIDATA_COMMANDS.get(name, dflt)] used as [bytes]: a [lambda] found
    there fails with [TypeError] as soon as it is iterated or concatenated,
    before anything else is done with it. *)
Definition get (name : string) (dflt : bytes) : outcome bytes :=
  match commands_get name (Fixed dflt) with
  | Fixed code => Returned code
  | Parametric _ => Raised TypeError
  end.

(** [OKIDATA_COMMANDS.get(name, lambda n: b"")(n)]: calling a [bytes] value
    found there fails with [TypeError]. *)
Definition get_call (name : string) (n : Z) : outcome bytes :=
  match commands_get name (Parametric (fun _ => Returned [])) with
  | Parametric encode => encode n
  | Fixed _ => Raised TypeError
  end.

(** ** Python text primitives *)

Definition ascii_code (c : ascii) : Z := Z.of_nat (nat_of_ascii c).

(** [str(n)] for a non-negative [int]. *)
Definition str_of_nonneg (n : Z) : string :=
  DecimalString.NilZero.string_of_uint (N.to_uint (Z.to_N n)).

(** [" ".join(str(b) for b in command_bytes)] *)
Definition dec_str (command_bytes : bytes) : string :=
  String.concat " " (map (fun b => str_of_nonneg (int_of_byte b)) command_bytes).

(** The text of a Tk variable or entry is a [string] of code points below
    256; text with other characters is not covered. *)

(** White space as [str.isspace] and [str.split] see it, among the code
    points below 256: the C white space, U+001C to U+001F, U+0085 and
    U+00A0. *)
Definition is_space (c : ascii) : bool :=
  let n := ascii_code c in
  ((9 <=? n) && (n <=? 13)) || ((28 <=? n) && (n <=? 32)) || (n =? 0x85) || (n =? 0xA0).

(** The white space [int] and [float] skip around a number: the C white
    space and, read as blanks, the white space above U+007F; U+001C to
    U+001F are not skipped. *)
Definition is_number_space (c : ascii) : bool :=
  let n := ascii_code c in
  ((9 <=? n) && (n <=? 13)) || (n =? 32) || (n =? 0x85) || (n =? 0xA0).

Definition digit_val (c : ascii) : option Z :=
  let n := ascii_code c in
  if (48 <=? n) && (n <=? 57) then Some (n - 48) else None.

(** The rest of a [digitpart ::= digit (["_"] digit)*]: the value read so
    far, the number of digits read so far, and the input; returns them at the
    first character that does not continue the digit part. *)
Fixpoint digitpart_rest (value count : Z) (cs : list ascii) : Z * Z * list ascii :=
  match cs with
  | c :: cs' =>
      match digit_val c with
      | Some d => digitpart_rest (10 * value + d) (count + 1) cs'
      | None =>
          if Ascii.eqb c "_"%char then
            match cs' with
            | c2 :: cs'' =>
                match digit_val c2 with
                | Some d => digitpart_rest (10 * value + d) (count + 1) cs''
                | None => (value, count, cs)
                end
            | [] => (value, count, cs)
            end
          else (value, count, cs)
      end
  | [] => (value, count, [])
  end.

(** A digit part continuing the digits already read ([value], [count]). *)
Definition digitpart_from (value count : Z) (cs : list ascii) : option (Z * Z * list ascii) :=
  match cs with
  | c :: cs' =>
      match digit_val c with
      | Some d => Some (digitpart_rest (10 * value + d) (count + 1) cs')
      | None => None
      end
  | [] => None
  end.

Definition sign_of (cs : list ascii) : bool * list ascii :=
  match cs with
  | c :: cs' =>
      if Ascii.eqb c "-"%char then (true, cs')
      else if Ascii.eqb c "+"%char then (false, cs')
      else (false, cs)
  | [] => (false, [])
  end.

Fixpoint dropwhile {A : Type} (p : A -> bool) (l : list A) : list A :=
  match l with
  | x :: l' => if p x then dropwhile p l' else l
  | [] => []
  end.

Fixpoint takewhile {A : Type} (p : A -> bool) (l : list A) : list A :=
  match l with
  | x :: l' => if p x then x :: takewhile p l' else []
  | [] => []
  end.

(** The input of [int] and [float] without the white space they skip at
    both ends. *)
Definition trim (cs : list ascii) : list ascii :=
  rev (dropwhile is_number_space (rev (dropwhile is_number_space cs))).

(** [sys.get_int_max_str_digits()], which the program leaves as the
    interpreter sets it. *)
Definition int_max_str_digits : Z := 4300.

(** [int(s)]: [None] is [ValueError].  The digits are counted without the
    underscores and with the leading zeros, as the limit counts them. *)
Definition py_int (s : string) : option Z :=
  let '(neg, cs) := sign_of (trim (list_ascii_of_string s)) in
  match digitpart_from 0 0 cs with
  | Some (v, digits, []) =>
      if digits <=? int_max_str_digits then Some (if neg then - v else v) else None
  | _ => None
  end.

(** [s.split()[0]]: the first maximal run of characters that are not white
    space; [None] is [IndexError]. *)
Definition first_word (s : string) : option (list ascii) :=
  match dropwhile is_space (list_ascii_of_string s) with
  | [] => None
  | cs => Some (takewhile (fun c => negb (is_space c)) cs)
  end.

(** ** Floats: IEEE 754 binary64 *)

Abbreviation float := spec_float.

Definition prec : Z := 53.
Definition emax : Z := 1024.

Definition fadd : float -> float -> float := SFadd prec emax.
Definition fsub : float -> float -> float := SFsub prec emax.
Definition fmul : float -> float -> float := SFmul prec emax.
Definition fdiv : float -> float -> float := SFdiv prec emax.
Definition fle (x y : float) : bool := SFleb x y.
Definition flt (x y : float) : bool := SFltb x y.
Definition feq (x y : float) : bool := SFeqb x y.

Definition fzero : float := S754_zero false.

(** The float nearest to the integer [n], ties to even; an infinity when
    [n] is beyond the largest float. *)
Definition float_round_int (n : Z) : float := binary_normalize prec emax n 0 false.

(** Conversion of an [int] operand of a float operation: [OverflowError]
    when the integer is too large for a float. *)
Definition float_of_int (n : Z) : outcome float :=
  match float_round_int n with
  | S754_infinity _ => Raised OverflowError
  | x => Returned x
  end.

(** Float true division [x / y]: [ZeroDivisionError] when [y == 0.0]. *)
Definition py_truediv (x y : float) : outcome float :=
  if feq y fzero then Raised ZeroDivisionError else Returned (fdiv x y).

(** The float nearest to [(-1)^neg * m * 10^k], as [float(s)] rounds a
    decimal literal. *)
Definition float_of_decimal (neg : bool) (m : Z) (k : Z) : float :=
  match m with
  | Zpos p =>
      if 0 <=? k then binary_normalize prec emax ((if neg then - m else m) * 10 ^ k) 0 false
      else fdiv (S754_finite neg p 0) (S754_finite false (Z.to_pos (10 ^ (- k))) 0)
  | _ => S754_zero neg
  end.

Definition lower (c : ascii) : ascii :=
  let n := ascii_code c in
  if (65 <=? n) && (n <=? 90) then ascii_of_nat (Z.to_nat (n + 32)) else c.

(** [exponent ::= ("e" | "E") [sign] digitpart]; absent when the input
    ends. *)
Definition exponent_of (cs : list ascii) : option Z :=
  match cs with
  | [] => Some 0
  | c :: cs' =>
      if Ascii.eqb (lower c) "e"%char then
        let '(neg, cs'') := sign_of cs' in
        match digitpart_from 0 0 cs'' with
        | Some (v, _, []) => Some (if neg then - v else v)
        | _ => None
        end
      else None
  end.

(** [floatnumber ::= number [exponent]] with
    [number ::= [digitpart] "." digitpart | digitpart ["."]]. *)
Definition floatnumber (neg : bool) (cs : list ascii) : option float :=
  match digitpart_from 0 0 cs with
  | Some (ip, _, rest) =>
      match rest with
      | c :: rest' =>
          if Ascii.eqb c "."%char then
            match digitpart_from ip 0 rest' with
            | Some (m, nfrac, rest'') =>
                match exponent_of rest'' with
                | Some e => Some (float_of_decimal neg m (e - nfrac))
                | None => None
                end
            | None =>
                match exponent_of rest' with
                | Some e => Some (float_of_decimal neg ip e)
                | None => None
                end
            end
          else
            match exponent_of rest with
            | Some e => Some (float_of_decimal neg ip e)
            | None => None
            end
      | [] => Some (float_of_decimal neg ip 0)
      end
  | None =>
      match cs with
      | c :: rest' =>
          if Ascii.eqb c "."%char then
            match digitpart_from 0 0 rest' with
            | Some (m, nfrac, rest'') =>
                match exponent_of rest'' with
                | Some e => Some (float_of_decimal neg m (e - nfrac))
                | None => None
                end
            | None => None
            end
          else None
      | [] => None
      end
  end.

(** [float(s)]: [None] is [ValueError]. *)
Definition py_float (cs : list ascii) : option float :=
  let '(neg, body) := sign_of (trim cs) in
  let word := string_of_list_ascii (map lower body) in
  if String.eqb word "inf" || String.eqb word "infinity" then Some (S754_infinity neg)
  else if String.eqb word "nan" then Some S754_nan
  else floatnumber neg body.

Definition float_lit (s : string) : float :=
  default S754_nan (py_float (list_ascii_of_string s)).

Definition f_half : float := float_lit "0.5".
Definition f_two : float := float_lit "2.0".
Definition f_seven_half : float := float_lit "7.5".
Definition f_eight : float := float_lit "8.0".
Definition f_ten : float := float_lit "10.0".

(** ** Python strings of the text widget and their UTF-8 encoding *)

(** A [str] is a sequence of code points. *)
Abbreviation str := (list Z).

Definition str_of_string (s : string) : str := map ascii_code (list_ascii_of_string s).

Definition byte_of_int (n : Z) : byte := default x00 (Byte.of_N (Z.to_N n)).

(** The UTF-8 encoding of one code point; surrogates (and integers that are
    not code points) have none. *)
Definition utf8_char (c : Z) : outcome bytes :=
  if c <? 0 then Raised UnicodeEncodeError
  else if c <? 0x80 then Returned [byte_of_int c]
  else if c <? 0x800 then
    Returned [byte_of_int (Z.lor 0xC0 (Z.shiftr c 6));
              byte_of_int (Z.lor 0x80 (Z.land c 0x3F))]
  else if c <? 0x10000 then
    if (0xD800 <=? c) && (c <=? 0xDFFF) then Raised UnicodeEncodeError
    else Returned [byte_of_int (Z.lor 0xE0 (Z.shiftr c 12));
                   byte_of_int (Z.lor 0x80 (Z.land (Z.shiftr c 6) 0x3F));
                   byte_of_int (Z.lor 0x80 (Z.land c 0x3F))]
  else if c <? 0x110000 then
    Returned [byte_of_int (Z.lor 0xF0 (Z.shiftr c 18));
              byte_of_int (Z.lor 0x80 (Z.land (Z.shiftr c 12) 0x3F));
              byte_of_int (Z.lor 0x80 (Z.land (Z.shiftr c 6) 0x3F));
              byte_of_int (Z.lor 0x80 (Z.land c 0x3F))]
  else Raised UnicodeEncodeError.

(** [s.encode('utf-8')] *)
Fixpoint encode_utf8 (s : str) : outcome bytes :=
  match s with
  | [] => Returned []
  | c :: s' =>
      match utf8_char c with
      | Returned b =>
          match encode_utf8 s' with
          | Returned bs => Returned (b ++ bs)
          | Raised e => Raised e
          end
      | Raised e => Raised e
      end
  end.

(** ** The application's world *)

(** The Tk variables and entry widgets the handlers read.  The handlers
    never write them: Tk sets them when the user operates a control.
    [right_margin_var] is the result of [DoubleVar.get()], [None] when Tk
    cannot read the entry as a number; the [IntVar]s hold integers. *)
Record TkVars : Type := {
  debug_mode : bool;
  option_italic : bool;
  option_emphasized : bool;
  underline_printing : bool;
  unidirectional : bool;
  enhanced_state : bool;
  double_height : bool;
  double_wide : bool;
  proportional : bool;
  cpi_var : string;
  font_var : string;
  spacing_var : string;
  spacing_n : Z;
  quality_var : string;
  speed_var : string;
  skip_perforation : Z;
  left_margin_count : Z;
  mode_var : string;
  right_margin_var : option float;
  zero_mode : string;
  shift_state : bool;
  ip_entry : string;
  port_entry : string
}.

(** What the program does to its surroundings. *)
Inductive event : Type :=
| DebugInsert (line : string)
    (** [self.debug_text.insert(tk.END, line)] *)
| ShowError (title message : string)
    (** [messagebox.showerror(title, message)]; the box is taken to be
        closed at once: no timer fires while it is open *)
| SocketSend (host : string) (port : Z) (data : bytes) (error : option string)
    (** [socket.create_connection((host, port), timeout=5)] followed by
        [sendall(data)]; [error] is the text of the exception, if any; the
        connection is taken to use no time of the clock *)
| Traceback (e : exn)
    (** an exception that escaped a Tk callback *).

(** The callables handed to [master.after]. *)
Inductive callback : Type :=
| SendLive (command_bytes : bytes)
    (** [lambda: self.send_live_command(lf)] *)
| SendLeftMargin
    (** [self.send_left_margin] *)
| SendLineText (line_text : str)
    (** [lambda: self.send_live_command(line_text.encode('utf-8'))] *)
| SendAllDefaults
    (** [self.send_all_defaults] *).

Inductive colour : Type := white | green | yellow | red.

Record World : Type := {
  vars : TkVars;
  (** the text widget: its content and the index of the insert mark *)
  text : str;
  insert_mark : nat;
  (** the label: the line length it shows, and its background *)
  shown_length : float;
  shown_bg : colour;
  (** everything done so far, each entry with the time it happened at *)
  journal : list (Z * event);
  (** the clock in milliseconds, and the timers of [after], soonest first *)
  now : Z;
  timers : list (Z * callback);
  (** the printer's side: given what happened so far, how the next
      connection ends *)
  network : list (Z * event) -> string -> Z -> bytes -> option string
}.

Definition set_journal (j : list (Z * event)) (w : World) : World :=
  {| vars := vars w; text := text w; insert_mark := insert_mark w;
     shown_length := shown_length w; shown_bg := shown_bg w;
     journal := j; now := now w; timers := timers w; network := network w |}.

Definition set_text (t : str) (i : nat) (w : World) : World :=
  {| vars := vars w; text := t; insert_mark := i;
     shown_length := shown_length w; shown_bg := shown_bg w;
     journal := journal w; now := now w; timers := timers w; network := network w |}.

Definition set_shown_length (x : float) (w : World) : World :=
  {| vars := vars w; text := text w; insert_mark := insert_mark w;
     shown_length := x; shown_bg := shown_bg w;
     journal := journal w; now := now w; timers := timers w; network := network w |}.

Definition set_shown_bg (c : colour) (w : World) : World :=
  {| vars := vars w; text := text w; insert_mark := insert_mark w;
     shown_length := shown_length w; shown_bg := c;
     journal := journal w; now := now w; timers := timers w; network := network w |}.

Definition set_timers (now' : Z) (ts : list (Z * callback)) (w : World) : World :=
  {| vars := vars w; text := text w; insert_mark := insert_mark w;
     shown_length := shown_length w; shown_bg := shown_bg w;
     journal := journal w; now := now'; timers := ts; network := network w |}.

(** ** Handlers as computations *)

Definition M (A : Type) : Type := World -> outcome A * World.

Definition ret {A : Type} (a : A) : M A := fun w => (Returned a, w).

Definition bind {A B : Type} (m : M A) (k : A -> M B) : M B :=
  fun w =>
    match m w with
    | (Returned a, w') => k a w'
    | (Raised e, w') => (Raised e, w')
    end.

Notation "x <- m ;; k" := (bind m (fun x => k))
  (at level 100, m at next level, right associativity).
Notation "m ;;; k" := (bind m (fun _ => k))
  (at level 100, right associativity).

(** A pure Python expression that may raise. *)
Definition lift {A : Type} (o : outcome A) : M A := fun w => (o, w).

(** Reading a Tk variable or entry. *)
Definition var {A : Type} (field : TkVars -> A) : M A := fun w => (Returned (field (vars w)), w).

Definition emit (e : event) : M unit :=
  fun w => (Returned tt, set_journal (journal w ++ [(now w, e)]) w).

Definition when (b : bool) (m : M unit) : M unit := if b then m else ret tt.

Definition nl : string := String (ascii_of_nat 10) EmptyString.

(** [with socket.create_connection((ip, port), timeout=5) as s:
       s.sendall(data)], returning the text of the exception, if any. *)
Definition connect_and_send (ip : string) (port : Z) (data : bytes) : M (option string) :=
  fun w =>
    let error := network w (journal w) ip port data in
    (Returned error, set_journal (journal w ++ [(now w, SocketSend ip port data error)]) w).

(** [if command:] for [bytes]. *)
Definition nonempty (command : bytes) : bool :=
  match command with [] => false | _ => true end.

Definition send_command_immediately (command_bytes : bytes) (tag : string) : M unit :=
  let dec := dec_str command_bytes in
  debug <- var debug_mode ;;
  when debug (emit (DebugInsert (tag +:+ " " +:+ dec +:+ nl))) ;;;
  printer_ip <- var ip_entry ;;
  port_text <- var port_entry ;;
  match py_int port_text with
  | None => emit (ShowError "Error" "Invalid port number.")
  | Some printer_port =>
      error <- connect_and_send printer_ip printer_port command_bytes ;;
      match error with
      | None => ret tt
      | Some e => emit (DebugInsert (tag +:+ " Error: " +:+ e +:+ nl))
      end
  end.

Definition send_live_command (command_bytes : bytes) : M unit :=
  let dec := dec_str command_bytes in
  debug <- var debug_mode ;;
  when debug (emit (DebugInsert ("[Live Keystroke] " +:+ dec +:+ nl))) ;;;
  printer_ip <- var ip_entry ;;
  port_text <- var port_entry ;;
  match py_int port_text with
  | None => emit (ShowError "Error" "Invalid port number.")
  | Some printer_port =>
      error <- connect_and_send printer_ip printer_port command_bytes ;;
      match error with
      | None => ret tt
      | Some e => emit (DebugInsert ("[Live Keystroke] Error: " +:+ e +:+ nl))
      end
  end.

(** ** Line metrics ([update_line_length_display]) *)

Definition obind {A B : Type} (o : outcome A) (k : A -> outcome B) : outcome B :=
  match o with
  | Returned a => k a
  | Raised e => Raised e
  end.

(** [try: numeric_cpi = float(self.cpi_var.get().split()[0])
    except: numeric_cpi = 10.0], given what the [try] body yields. *)
Definition parse_cpi (cpi : string) : option float :=
  match first_word cpi with
  | Some word => py_float word
  | None => None
  end.

Definition effective_cpi (numeric_cpi : float) (double_wide : bool) : float :=
  if double_wide then fdiv numeric_cpi f_two else numeric_cpi.

(** [((8.0 * left_margin) / numeric_cpi) + (char_count / effective_cpi)] *)
Definition line_length_expr (char_count left_margin : Z) (numeric_cpi effective : float)
  : outcome float :=
  obind (float_of_int left_margin) (fun margin =>
  obind (py_truediv (fmul f_eight margin) numeric_cpi) (fun indent =>
  obind (float_of_int char_count) (fun count =>
  obind (py_truediv count effective) (fun body =>
  Returned (fadd indent body))))).

(** [try: line_length = ... except ZeroDivisionError: line_length = 0.0] *)
Definition line_length (char_count left_margin : Z) (numeric_cpi effective : float)
  : outcome float :=
  match line_length_expr char_count left_margin numeric_cpi effective with
  | Raised ZeroDivisionError => Returned fzero
  | r => r
  end.

(** The background chosen from [gap]. *)
Definition bg_of_gap (gap : float) : colour :=
  if fle f_half gap then green
  else if fle fzero gap && flt gap f_half then yellow
  else red.

(** The body of [update_line_length_display] after it has read the widgets:
    [numericCpi] and [rightMarginInches] are [None] when reading them
    raised. *)
Definition LineMetrics_compute (charCount leftMarginTabs : Z) (numericCpi : option float)
    (doubleWide : bool) (rightMarginInches : option float) : outcome (float * colour) :=
  let numeric_cpi := default f_ten numericCpi in
  let effective := effective_cpi numeric_cpi doubleWide in
  obind (line_length charCount leftMarginTabs numeric_cpi effective) (fun length =>
  let right_margin := default f_seven_half rightMarginInches in
  let gap := fsub right_margin length in
  Returned (length, bg_of_gap gap)).

(** ** The text widget *)

Definition is_newline (c : Z) : bool := c =? 10.

(** [self.text.get("insert linestart", "insert lineend")] *)
Definition current_line (t : str) (i : nat) : str :=
  rev (takewhile (fun c => negb (is_newline c)) (rev (take i t)))
  ++ takewhile (fun c => negb (is_newline c)) (drop i t).

(** [self.text.insert("insert", "\n")] *)
Definition insert_newline : M unit :=
  fun w =>
    (Returned tt,
     set_text (take (insert_mark w) (text w) ++ [10] ++ drop (insert_mark w) (text w))
              (S (insert_mark w)) w).

Definition update_line_length_display : M unit :=
  fun w =>
    let line_text := current_line (text w) (insert_mark w) in
    let char_count := Z.of_nat (length line_text) in
    match LineMetrics_compute char_count (left_margin_count (vars w))
            (parse_cpi (cpi_var (vars w))) (double_wide (vars w))
            (right_margin_var (vars w)) with
    | Returned (line_length, bg) =>
        (Returned tt, set_shown_bg bg (set_shown_length line_length w))
    | Raised e => (Raised e, w)
    end.

(** ** Timers *)

(** A timer joins the queue behind those that are due no later. *)
Fixpoint enqueue (due : Z) (cb : callback) (ts : list (Z * callback)) : list (Z * callback) :=
  match ts with
  | [] => [(due, cb)]
  | (d, c) :: ts' =>
      if d <=? due then (d, c) :: enqueue due cb ts' else (due, cb) :: ts
  end.

(** [self.master.after(ms, cb)] *)
Definition after (ms : Z) (cb : callback) : M unit :=
  fun w => (Returned tt, set_timers (now w) (enqueue (now w + ms) cb (timers w)) w).

(** ** The handlers of [LiveKeystrokeEditor] *)

Definition send_manual_command (cmd_name : string) : M unit :=
  command <- lift (get cmd_name []) ;;
  when (nonempty command) (send_live_command command).

Definition send_shift : M unit :=
  shift <- var shift_state ;;
  command <- lift (if shift then get "Shift In" [] else get "Shift Out" []) ;;
  when (nonempty command) (send_live_command command).

(** [OKIDATA_COMMANDS.get(f"Select {cpi}", b"")] *)
Definition cpi_command (cpi : string) : outcome bytes := get ("Select " +:+ cpi) [].

Definition restore_defaults : M unit :=
  printer_ip <- var ip_entry ;;
  port_text <- var port_entry ;;
  match py_int port_text with
  | None => emit (ShowError "Error" "Invalid port number.")
  | Some printer_port =>
      reset_cmd <- lift (get "Reset (Clear Print Buffer)" []) ;;
      cpi <- var cpi_var ;;
      cpi_cmd <- lift (cpi_command cpi) ;;
      skip_val <- var skip_perforation ;;
      skip_cmd <- lift (get_call "Skip Over Perforation" skip_val) ;;
      let full_cmd := (reset_cmd ++ cpi_cmd) ++ skip_cmd in
      debug <- var debug_mode ;;
      when debug (emit (DebugInsert ("[Restore Defaults] " +:+ dec_str full_cmd +:+ nl))) ;;;
      error <- connect_and_send printer_ip printer_port full_cmd ;;
      match error with
      | None => ret tt
      | Some e => emit (ShowError "Error" ("Failed to send default commands: " +:+ e))
      end
  end.

(** The [if]/[elif] chain of [apply_font]. *)
Definition font_command (font : string) : outcome bytes :=
  if String.eqb font "Block Graphic Set" then get "Block Graphic Set" []
  else if String.eqb font "Publisher Set" then get "Publisher Set" []
  else if String.eqb font "Line Graphics Set" then get "Line Graphics Set" []
  else if String.eqb font "Standard Character Set" then get "Standard Character Set" []
  else Returned [].

Definition apply_font : M unit :=
  font <- var font_var ;;
  command <- lift (font_command font) ;;
  when (nonempty command) (send_command_immediately command "[Character Set]").

Definition apply_cpi : M unit :=
  cpi <- var cpi_var ;;
  if negb (String.eqb cpi "Double Wide") then
    command <- lift (cpi_command cpi) ;;
    when (nonempty command) (send_command_immediately command "[CPI]")
  else ret tt.

(** The [if]/[elif] chain of [apply_spacing]; [n_val] is read in its third
    branch only. *)
Definition spacing_command (spacing : string) (n_val : Z) : outcome bytes :=
  if String.eqb spacing "1/6" then get ("Set Spacing to 1/6" +:+ dquote) []
  else if String.eqb spacing "1/8" then get ("Set Spacing to 1/8" +:+ dquote) []
  else if String.eqb spacing "n/144" then get_call "Set Spacing to n/144" n_val
  else Returned [].

Definition apply_spacing : M unit :=
  spacing <- var spacing_var ;;
  n_val <- var spacing_n ;;
  command <- lift (spacing_command spacing n_val) ;;
  when (nonempty command) (send_command_immediately command "[Spacing]").

(** The [if]/[elif] chain of [apply_quality]. *)
Definition quality_command (quality : string) : outcome bytes :=
  if String.eqb quality "HSD/SSD" then get "Print Quality Select HSD/SSD" []
  else if String.eqb quality "NLQ Courier" then get "Select NLQ Courier" []
  else if String.eqb quality "NLQ Gothic" then get "Select NLQ Gothic" []
  else if String.eqb quality "Utility" then get "Select Utility" []
  else Returned [].

Definition apply_quality : M unit :=
  quality <- var quality_var ;;
  command <- lift (quality_command quality) ;;
  when (nonempty command) (send_command_immediately command "[Quality]").

(** The [if]/[elif] chain of [apply_speed]. *)
Definition speed_command (speed : string) : outcome bytes :=
  if String.eqb speed "Full" then get "Print Speed Set to Full" []
  else if String.eqb speed "Half" then get "Print Speed Set to Half" []
  else Returned [].

Definition apply_speed : M unit :=
  speed <- var speed_var ;;
  command <- lift (speed_command speed) ;;
  when (nonempty command) (send_command_immediately command "[Speed]").

Definition double_height_command (on : bool) : outcome bytes :=
  if on then get "Double Height On" [] else get "Double Height Off" [].

Definition apply_double_height : M unit :=
  on <- var double_height ;;
  command <- lift (double_height_command on) ;;
  when (nonempty command) (send_command_immediately command "[Double Height]").

Definition proportional_command (on : bool) : outcome bytes :=
  if on then get "Proportional Printing On" [] else get "Proportional Printing Off" [].

Definition apply_proportional : M unit :=
  on <- var proportional ;;
  command <- lift (proportional_command on) ;;
  when (nonempty command) (send_command_immediately command "[Proportional]").

Definition apply_skip_over_perforation : M unit :=
  value <- var skip_perforation ;;
  command <- lift (get_call "Skip Over Perforation" value) ;;
  send_command_immediately command "[Skip Over Perforation]".

Definition apply_underline : M unit :=
  on <- var underline_printing ;;
  command <- lift (if on then get "Underline Printing On" []
                   else get "Underline Printing Off" []) ;;
  when (nonempty command) (send_command_immediately command "[Underline Printing]").

Definition apply_unidirectional : M unit :=
  on <- var unidirectional ;;
  command <- lift (if on then get "Unidirectional Printing On" []
                   else get "Unidirectional Printing Off" []) ;;
  when (nonempty command) (send_command_immediately command "[Unidirectional Printing]").

Definition toggle_italic : M unit :=
  on <- var option_italic ;;
  let command := if on then [x1b; x21; x2f] else [x1b; x21; x2a] in
  when (nonempty command) (send_command_immediately command "[Italic]").

Definition toggle_emphasized : M unit :=
  on <- var option_emphasized ;;
  command <- lift (if on then get "Emphasized Printing On" []
                   else get "Emphasized Printing Off" []) ;;
  when (nonempty command) (send_command_immediately command "[Emphasized]").

Definition toggle_enhanced : M unit :=
  on <- var enhanced_state ;;
  command <- lift (if on then get "Enhanced Printing On" []
                   else get "Enhanced Printing Off" []) ;;
  when (nonempty command) (send_command_immediately command "[Enhanced Printing]").

Definition toggle_double_wide : M unit :=
  on <- var double_wide ;;
  (if on then
     command <- lift (get "Double Width On" []) ;;
     when (nonempty command) (send_command_immediately command "[Double Wide ON]")
   else apply_cpi) ;;;
  update_line_length_display.

Definition apply_zero : M unit :=
  zero <- var zero_mode ;;
  if String.eqb zero "Slashed Zero" then
    command <- lift (get "Slashed Zero" []) ;;
    when (nonempty command) (send_command_immediately command "[Slashed Zero]")
  else
    command <- lift (get "Unslashed Zero" []) ;;
    when (nonempty command) (send_command_immediately command "[Unslashed Zero]").

Definition send_all_defaults : M unit :=
  restore_defaults ;;;
  apply_font ;;;
  apply_cpi ;;;
  apply_spacing ;;;
  apply_quality ;;;
  apply_speed ;;;
  apply_double_height ;;;
  apply_proportional ;;;
  apply_skip_over_perforation.

(** A key press: its [keysym] and its [char] (at most one code point). *)
Record KeyEvent : Type := { keysym : string; char : option Z }.

Definition handle_key (ev : KeyEvent) : M unit :=
  if String.eqb (keysym ev) "Return" then ret tt
  else
    mode <- var mode_var ;;
    if String.eqb mode "Live" then
      command <- lift (
        if String.eqb (keysym ev) "Tab" then get "Horizontal Tab" [x09]
        else if String.eqb (keysym ev) "BackSpace" then get "Backspace" [x08]
        else match char ev with
             | Some c => if 32 <=? c then encode_utf8 [c] else Returned []
             | None => Returned []
             end) ;;
      when (nonempty command) (send_live_command command)
    else ret tt.

Fixpoint for_range (count : nat) (body : M unit) : M unit :=
  match count with
  | O => ret tt
  | S count' => body ;;; for_range count' body
  end.

Definition send_left_margin : M unit :=
  count <- var left_margin_count ;;
  for_range (Z.to_nat count)
    (tab <- lift (get "Horizontal Tab" [x09]) ;; send_live_command tab).

Definition handle_return : M unit :=
  mode <- var mode_var ;;
  if String.eqb mode "Line-by-Line" then
    line_text <- (fun w => (Returned (current_line (text w) (insert_mark w)), w)) ;;
    cr <- lift (get "Carriage Return" [x0d]) ;;
    lf <- lift (get "Line Feed" [x0a]) ;;
    send_live_command cr ;;;
    after 10 (SendLive lf) ;;;
    after 20 SendLeftMargin ;;;
    after 30 (SendLineText line_text) ;;;
    insert_newline ;;;
    update_line_length_display
  else
    cr <- lift (get "Carriage Return" [x0d]) ;;
    lf <- lift (get "Line Feed" [x0a]) ;;
    send_live_command cr ;;;
    after 10 (SendLive lf) ;;;
    after 20 SendLeftMargin ;;;
    update_line_length_display.

(** ** The event loop: firing the timers *)

Definition run_callback (cb : callback) : M unit :=
  match cb with
  | SendLive command_bytes => send_live_command command_bytes
  | SendLeftMargin => send_left_margin
  | SendLineText line_text =>
      command_bytes <- lift (encode_utf8 line_text) ;;
      send_live_command command_bytes
  | SendAllDefaults => send_all_defaults
  end.

(** The soonest timer fires, at its time or now if that has passed; an
    exception that escapes the callback is reported and the loop goes on. *)
Definition fire_next (w : World) : option World :=
  match timers w with
  | [] => None
  | (due, cb) :: ts =>
      match run_callback cb (set_timers (Z.max (now w) due) ts w) with
      | (Returned _, w') => Some w'
      | (Raised e, w') => Some (set_journal (journal w' ++ [(now w', Traceback e)]) w')
      end
  end.

Fixpoint run_timers (fuel : nat) (w : World) : World :=
  match fuel with
  | O => w
  | S fuel' =>
      match fire_next w with
      | Some w' => run_timers fuel' w'
      | None => w
      end
  end.

(** ** Observations on the journal *)

(** The data of every connection made, with the time it was made at. *)
Definition transmissions (j : list (Z * event)) : list (Z * bytes) :=
  omap (fun te => match te.2 with
                  | SocketSend _ _ data _ => Some (te.1, data)
                  | _ => None
                  end) j.

Definition payloads (j : list (Z * event)) : list bytes := map snd (transmissions j).

(** What a computation adds to the journal. *)
Definition added (before after : World) : list (Z * event) :=
  drop (length (journal before)) (journal after).

(** ** The world [__init__] builds *)

Definition initial_vars : TkVars :=
  {| debug_mode := true;
     option_italic := false; option_emphasized := false; underline_printing := false;
     unidirectional := false; enhanced_state := false;
     double_height := false; double_wide := false; proportional := false;
     cpi_var := "10 cpi"; font_var := "Block Graphic Set";
     spacing_var := "1/6"; spacing_n := 9;
     quality_var := "HSD/SSD"; speed_var := "Full";
     skip_perforation := 0; left_margin_count := 0;
     mode_var := "Line-by-Line"; right_margin_var := Some f_seven_half;
     zero_mode := "Slashed Zero"; shift_state := false;
     ip_entry := "192.168.4.28"; port_entry := "9100" |}.

Definition initial_world (net : list (Z * event) -> string -> Z -> bytes -> option string)
  : World :=
  {| vars := initial_vars; text := []; insert_mark := O;
     shown_length := fzero; shown_bg := white;
     journal := []; now := 0; timers := [(500, SendAllDefaults)]; network := net |}.

(** A printer that accepts every connection. *)
Definition reachable : list (Z * event) -> string -> Z -> bytes -> option string :=
  fun _ _ _ _ => None.

(** ** Vocabulary of the statements *)

(** Journal entries made at the time [t]. *)
Definition stamp (t : Z) (es : list event) : list (Z * event) := map (pair t) es.

(** The events of one call of [send_command_immediately]: the debug line
    when debug mode is on, then either the error box for the port or the
    connection, followed by the error line when the connection failed. *)
Definition send_trace (tag : string) (data : bytes) (w : World) : list event :=
  let log :=
    if debug_mode (vars w) then [DebugInsert (tag +:+ " " +:+ dec_str data +:+ nl)] else [] in
  log ++
  match py_int (port_entry (vars w)) with
  | None => [ShowError "Error" "Invalid port number."]
  | Some port =>
      let error :=
        network w (journal w ++ stamp (now w) log) (ip_entry (vars w)) port data in
      SocketSend (ip_entry (vars w)) port data error ::
      match error with
      | None => []
      | Some e => [DebugInsert (tag +:+ " Error: " +:+ e +:+ nl)]
      end
  end.

(** [emits m w T]: run in [w], the computation [m] returns, changes nothing
    but the journal, and makes exactly the connections [T]. *)
Definition emits (m : M unit) (w : World) (T : list (Z * bytes)) : Prop :=
  exists l, m w = (Returned tt, set_journal (journal w ++ l) w) /\ transmissions l = T.

(** What [if command: send(command)] transmits. *)
Definition sent (command : bytes) : list bytes :=
  if nonempty command then [command] else [].

(** Connections made at the time [t]. *)
Definition at_time (t : Z) (L : list bytes) : list (Z * bytes) := map (pair t) L.

(** What comes of the connections [T] a sender is asked for: all of them
    when the port entry reads as an integer, none when it does not. *)
Definition through_port (w : World) (T : list (Z * bytes)) : list (Z * bytes) :=
  match py_int (port_entry (vars w)) with
  | Some _ => T
  | None => []
  end.


(** The world [handle_return] hands to [update_line_length_display] in
    Line-by-Line mode. *)
Definition committed (w : World) : World :=
  set_text (take (insert_mark w) (text w) ++ [10] ++ drop (insert_mark w) (text w))
    (S (insert_mark w))
    (set_timers (now w)
       (enqueue (now w + 30) (SendLineText (current_line (text w) (insert_mark w)))
          (enqueue (now w + 20) SendLeftMargin
             (enqueue (now w + 10) (SendLive [x0a]) (timers w))))
       (set_journal
          (journal w ++ stamp (now w) (send_trace "[Live Keystroke]" [x0d] w)) w)).

(** Floats of sign plus that are numbers: [+0.0], the positive finite
    floats and [+inf]. *)
Definition plus_signed (x : float) : bool :=
  match x with
  | S754_zero false | S754_finite false _ _ | S754_infinity false => true
  | _ => false
  end.

(** A CPI that is a number, not negative and not infinite. *)
Definition nonneg_finite (c : float) : bool :=
  match c with
  | S754_zero _ | S754_finite false _ _ => true
  | _ => false
  end.

(** The length as the specification words it, in float arithmetic:
    [effectiveCpi = doubleWide ? numericCpi / 2 : numericCpi] and
    [lengthInches = (8 * leftMarginTabs / numericCpi) + (charCount / effectiveCpi)]. *)
Definition stated_length (charCount leftMarginTabs : Z) (numericCpi : float)
    (doubleWide : bool) : float :=
  let effectiveCpi := if doubleWide then fdiv numericCpi f_two else numericCpi in
  fadd (fdiv (fmul f_eight (float_round_int leftMarginTabs)) numericCpi)
       (fdiv (float_round_int charCount) effectiveCpi).

(** ** Worlds used in the examples *)

(** A printer that refuses every connection. *)
Definition unreachable : list (Z * event) -> string -> Z -> bytes -> option string :=
  fun _ _ _ _ => Some "[Errno 111] Connection refused".

(** The Tk variables of [__init__] with another text in the port entry. *)
Definition vars_with_port (port : string) : TkVars :=
  {| debug_mode := true;
     option_italic := false; option_emphasized := false; underline_printing := false;
     unidirectional := false; enhanced_state := false;
     double_height := false; double_wide := false; proportional := false;
     cpi_var := "10 cpi"; font_var := "Block Graphic Set";
     spacing_var := "1/6"; spacing_n := 9;
     quality_var := "HSD/SSD"; speed_var := "Full";
     skip_perforation := 0; left_margin_count := 0;
     mode_var := "Line-by-Line"; right_margin_var := Some f_seven_half;
     zero_mode := "Slashed Zero"; shift_state := false;
     ip_entry := "192.168.4.28"; port_entry := port |}.

Definition set_vars (v : TkVars) (w : World) : World :=
  {| vars := v; text := text w; insert_mark := insert_mark w;
     shown_length := shown_length w; shown_bg := shown_bg w;
     journal := journal w; now := now w; timers := timers w; network := network w |}.

(** The Tk variables of [__init__] with Double Wide ticked. *)
Definition vars_double_wide : TkVars :=
  {| debug_mode := true;
     option_italic := false; option_emphasized := false; underline_printing := false;
     unidirectional := false; enhanced_state := false;
     double_height := false; double_wide := true; proportional := false;
     cpi_var := "10 cpi"; font_var := "Block Graphic Set";
     spacing_var := "1/6"; spacing_n := 9;
     quality_var := "HSD/SSD"; speed_var := "Full";
     skip_perforation := 0; left_margin_count := 0;
     mode_var := "Line-by-Line"; right_margin_var := Some f_seven_half;
     zero_mode := "Slashed Zero"; shift_state := false;
     ip_entry := "192.168.4.28"; port_entry := "9100" |}.

(** The line HELLO, the insert mark at its end, a left margin of 2. *)
Definition hello_world : World :=
  {| vars :=
       {| debug_mode := true;
          option_italic := false; option_emphasized := false; underline_printing := false;
          unidirectional := false; enhanced_state := false;
          double_height := false; double_wide := false; proportional := false;
          cpi_var := "10 cpi"; font_var := "Block Graphic Set";
          spacing_var := "1/6"; spacing_n := 9;
          quality_var := "HSD/SSD"; speed_var := "Full";
          skip_perforation := 0; left_margin_count := 2;
          mode_var := "Line-by-Line"; right_margin_var := Some f_seven_half;
          zero_mode := "Slashed Zero"; shift_state := false;
          ip_entry := "192.168.4.28"; port_entry := "9100" |};
     text := str_of_string "HELLO"; insert_mark := 5%nat;
     shown_length := fzero; shown_bg := white;
     journal := []; now := 1000; timers := []; network := reachable |}.

(** Three lines, AB, HELLO and CD, the insert mark in the second one after
    HE; a left margin of 2. *)
Definition page_world : World :=
  {| vars :=
       {| debug_mode := true;
          option_italic := false; option_emphasized := false; underline_printing := false;
          unidirectional := false; enhanced_state := false;
          double_height := false; double_wide := false; proportional := false;
          cpi_var := "10 cpi"; font_var := "Block Graphic Set";
          spacing_var := "1/6"; spacing_n := 9;
          quality_var := "HSD/SSD"; speed_var := "Full";
          skip_perforation := 0; left_margin_count := 2;
          mode_var := "Line-by-Line"; right_margin_var := Some f_seven_half;
          zero_mode := "Slashed Zero"; shift_state := false;
          ip_entry := "192.168.4.28"; port_entry := "9100" |};
     text := str_of_string "AB" ++ [10] ++ str_of_string "HELLO" ++ [10] ++ str_of_string "CD";
     insert_mark := 5%nat;
     shown_length := fzero; shown_bg := white;
     journal := []; now := 1000; timers := []; network := reachable |}.

(** ** The second table and the values the widgets offer *)

(** [FORMAT_COMMANDS]: per emulation, the (on, off) pair of a format. *)
Definition FORMAT_COMMANDS : gmap string (gmap string (bytes * bytes)) :=
  {[ "Okidata" :=
       list_to_map [
         ("italic", ([x1b; x21; x2f], [x1b; x21; x2a]));
         ("emphasized", ([x1b; x54], [x1b; x49]))
       ] ]}.

(** The values of the radio buttons of [__init__], group by group. *)
Definition cpi_values : list string := ["10 cpi"; "12 cpi"; "15 cpi"; "17.1 cpi"; "20 cpi"].

Definition font_values : list string :=
  ["Block Graphic Set"; "Publisher Set"; "Line Graphics Set"; "Standard Character Set"].

Definition spacing_values : list string := ["1/6"; "1/8"; "n/144"].

Definition quality_values : list string := ["HSD/SSD"; "NLQ Courier"; "NLQ Gothic"; "Utility"].

Definition speed_values : list string := ["Full"; "Half"].

(** The names the manual command buttons of [__init__] pass to
    [send_manual_command]. *)
Definition manual_buttons : list string :=
  ["Line Feed"; "Carriage Return"; "Form Feed"; "Horizontal Tab"; "Backspace";
   "Vertical Tab"; "Reverse Line Feed"; "Reset (Clear Print Buffer)"].

(** The callables [__init__] hands to its controls as [command=]. *)
Definition control_commands : list (M unit) :=
  [toggle_italic; toggle_emphasized; apply_underline; apply_unidirectional;
   toggle_enhanced; apply_double_height; apply_proportional; apply_cpi;
   toggle_double_wide; apply_zero; apply_font; apply_spacing; apply_quality;
   apply_speed; apply_skip_over_perforation]
  ++ map send_manual_command manual_buttons
  ++ [send_shift; send_all_defaults].

(** Key presses, one after the other. *)
Fixpoint handle_keys (evs : list KeyEvent) : M unit :=
  match evs with
  | [] => ret tt
  | ev :: evs' => handle_key ev ;;; handle_keys evs'
  end.

(** A key that is none of Return, Tab and BackSpace. *)
Definition typing_key (ev : KeyEvent) : bool :=
  negb (String.eqb (keysym ev) "Return")
  && negb (String.eqb (keysym ev) "Tab")
  && negb (String.eqb (keysym ev) "BackSpace").

(** The checkboxes that switch one format on or off: the callable of each
    with the variable it is bound to. *)
Definition checkboxes : list (M unit * (TkVars -> bool)) :=
  [(toggle_italic, option_italic); (toggle_emphasized, option_emphasized);
   (apply_underline, underline_printing); (apply_unidirectional, unidirectional);
   (toggle_enhanced, enhanced_state); (apply_double_height, double_height);
   (apply_proportional, proportional); (send_shift, shift_state)].

(** The Tk variables of [__init__] with other values in the spacing group
    and in the skip spinbox. *)
Definition vars_with_numbers (spacing : string) (n skip : Z) : TkVars :=
  {| debug_mode := true;
     option_italic := false; option_emphasized := false; underline_printing := false;
     unidirectional := false; enhanced_state := false;
     double_height := false; double_wide := false; proportional := false;
     cpi_var := "10 cpi"; font_var := "Block Graphic Set";
     spacing_var := spacing; spacing_n := n;
     quality_var := "HSD/SSD"; speed_var := "Full";
     skip_perforation := skip; left_margin_count := 0;
     mode_var := "Line-by-Line"; right_margin_var := Some f_seven_half;
     zero_mode := "Slashed Zero"; shift_state := false;
     ip_entry := "192.168.4.28"; port_entry := "9100" |}.

(** The line HELLO in Live mode, the insert mark at its end, a left margin
    of 2. *)
Definition live_world : World :=
  {| vars :=
       {| debug_mode := true;
          option_italic := false; option_emphasized := false; underline_printing := false;
          unidirectional := false; enhanced_state := false;
          double_height := false; double_wide := false; proportional := false;
          cpi_var := "10 cpi"; font_var := "Block Graphic Set";
          spacing_var := "1/6"; spacing_n := 9;
          quality_var := "HSD/SSD"; speed_var := "Full";
          skip_perforation := 0; left_margin_count := 2;
          mode_var := "Live"; right_margin_var := Some f_seven_half;
          zero_mode := "Slashed Zero"; shift_state := false;
          ip_entry := "192.168.4.28"; port_entry := "9100" |};
     text := str_of_string "HELLO"; insert_mark := 5%nat;
     shown_length := fzero; shown_bg := white;
     journal := []; now := 1000; timers := []; network := reachable |}.

(** ** The world before and after a computation *)

(** [logged w w']: the journal has only grown and the label may have
    changed; the Tk variables, the text, the clock, the timers and the
    printer's side are the same. *)
Definition logged (w w' : World) : Prop :=
  vars w' = vars w /\ text w' = text w /\ insert_mark w' = insert_mark w
  /\ now w' = now w /\ timers w' = timers w /\ network w' = network w
  /\ journal w `prefix_of` journal w'.

(** [muted w w']: the Tk variables are the same and, if the port entry is
    not an integer, no connection has been made. *)
Definition muted (w w' : World) : Prop :=
  vars w' = vars w
  /\ (py_int (port_entry (vars w)) = None ->
      transmissions (journal w') = transmissions (journal w)).

(** [filled w w']: the Tk variables are the same, the journal has grown,
    and no connection made in between carries an empty byte sequence. *)
Definition filled (w w' : World) : Prop :=
  vars w' = vars w
  /\ exists l, journal w' = journal w ++ l
               /\ Forall (fun made : Z * bytes => made.2 <> []) (transmissions l).

(** A computation whose runs, returning or raising, all stay within [R]. *)
Definition respects (R : World -> World -> Prop) {A : Type} (m : M A) : Prop :=
  forall w, R w (m w).2.

(** Bytes are compared as the constructors they are. *)
#[local] Instance byte_eq_decision : EqDecision byte := byte_eq_dec.

(** * Properties *)

(** ** The primitives on examples *)

Example py_float_17_1 :
  py_float (list_ascii_of_string "17.1") = Some (S754_finite false 4813222101752218 (-48)).
Proof. vm_compute. reflexivity. Qed.

Example py_float_tenth :
  py_float (list_ascii_of_string "0.1") = Some (S754_finite false 7205759403792794 (-56)).
Proof. vm_compute. reflexivity. Qed.

Example py_float_min_subnormal :
  py_float (list_ascii_of_string "5e-324") = Some (S754_finite false 1 (-1074))
  /\ py_float (list_ascii_of_string "2.5e-324") = Some (S754_finite false 1 (-1074))
  /\ py_float (list_ascii_of_string "2.4e-324") = Some (S754_zero false)
  /\ py_float (list_ascii_of_string "1e309") = Some (S754_infinity false)
  /\ py_float (list_ascii_of_string "1_0.") = Some (S754_finite false 5629499534213120 (-49))
  /\ py_float (list_ascii_of_string "cpi") = None
  /\ py_float (list_ascii_of_string "1__0") = None
  /\ py_float (list_ascii_of_string ".") = None.
Proof. vm_compute. repeat split. Qed.

Example py_int_examples :
  py_int "9100" = Some 9100 /\ py_int " 91_00 " = Some 9100 /\ py_int "-1" = Some (-1)
  /\ py_int "9100a" = None /\ py_int EmptyString = None /\ py_int "91 00" = None.
Proof. vm_compute. repeat split. Qed.

(** [int] skips a tab, a newline or U+00A0 after the digits, but not U+001F,
    which [str.split] takes for white space; and it refuses 4301 digits. *)
Example py_int_white_space_and_limit :
  py_int ("9100" +:+ String (ascii_of_nat 9) (String (ascii_of_nat 10) EmptyString))
  = Some 9100
  /\ py_int ("9100" +:+ String (ascii_of_nat 160) EmptyString) = Some 9100
  /\ py_int ("9100" +:+ String (ascii_of_nat 31) EmptyString) = None
  /\ first_word ("9100" +:+ String (ascii_of_nat 31) EmptyString)
     = Some (list_ascii_of_string "9100")
  /\ py_int (string_of_list_ascii (repeat "0"%char 4300)) = Some 0
  /\ py_int (string_of_list_ascii (repeat "0"%char 4301)) = None.
Proof. vm_compute. repeat split. Qed.

(** Which single character [int], [float] and [str.split] put up with
    after a number, among the 256 the model has: the digits and, for
    [float], the point, apart from the white space. *)
Example characters_after_a_number :
  List.filter (fun n => match py_int ("9100" +:+ String (ascii_of_nat n) EmptyString) with
                   | Some _ => true
                   | None => false
                   end) (seq 0 256)
  = [9; 10; 11; 12; 13; 32; 48; 49; 50; 51; 52; 53; 54; 55; 56; 57; 133; 160]%nat
  /\ List.filter (fun n => match py_float (list_ascii_of_string "10" ++ [ascii_of_nat n]) with
                      | Some _ => true
                      | None => false
                      end) (seq 0 256)
     = [9; 10; 11; 12; 13; 32; 46; 48; 49; 50; 51; 52; 53; 54; 55; 56; 57; 133; 160]%nat
  /\ List.filter (fun n => is_space (ascii_of_nat n)) (seq 0 256)
     = [9; 10; 11; 12; 13; 28; 29; 30; 31; 32; 133; 160]%nat.
Proof. vm_compute. repeat split. Qed.

Example encode_hello :
  encode_utf8 (str_of_string "HELLO") = Returned [x48; x45; x4c; x4c; x4f].
Proof. reflexivity. Qed.

Example encode_euro_and_emoji :
  encode_utf8 [0x20AC; 0x1F600] = Returned [xe2; x82; xac; xf0; x9f; x98; x80]
  /\ encode_utf8 [0xE9] = Returned [xc3; xa9]
  /\ encode_utf8 [0xD800] = Raised UnicodeEncodeError.
Proof. repeat split. Qed.

Example startup_transmissions :
  payloads (journal (run_timers 1 (initial_world reachable)))
  = [ [x18; x1e; x1b; x25; x53; x30];
      [x1b; x21; x31]; [x1e]; [x1b; x36]; [x1b; x23; x30]; [x1b; x3e];
      [x1b; x1f; x30]; [x1b; x5a]; [x1b; x25; x53; x30] ].
Proof. vm_compute. reflexivity. Qed.

(** ** The dictionary *)

Arguments get : simpl never.
Arguments get_call : simpl never.

(** Every entry of the dictionary is one of the listed pairs. *)
Lemma commands_lookup_listed (name : string) (c : command) :
  OKIDATA_COMMANDS !! name = Some c ->
  (name, c) ∈ map_to_list OKIDATA_COMMANDS.
Proof. intros H. by apply elem_of_map_to_list. Qed.

Ltac entries H :=
  apply commands_lookup_listed in H;
  let l := eval vm_compute in (map_to_list OKIDATA_COMMANDS) in
  change (map_to_list OKIDATA_COMMANDS) with l in H;
  repeat (apply elem_of_cons in H; destruct H as [H | H]);
  [ .. | by apply elem_of_nil in H ].

(** A key that begins with ["Select "] holds a [bytes] literal, which is
    neither empty nor the code of ["Double Width Off"]. *)
Lemma select_entry (x : string) (c : command) :
  OKIDATA_COMMANDS !! ("Select " +:+ x) = Some c ->
  exists code, c = Fixed code /\ code <> [] /\ code <> [x1b; x21; x30].
Proof.
  intros H. entries H; cbn in H; simplify_eq; eexists; (split; [reflexivity | split; discriminate]).
Qed.

(** ** What a transmission adds to the journal *)

Ltac run_monad :=
  repeat (progress (
    cbv beta delta [bind var lift ret when emit connect_and_send after insert_newline];
    cbn [set_journal set_text set_timers set_shown_length set_shown_bg
         vars text insert_mark shown_length shown_bg journal now timers network
         fst snd])).

Lemma send_command_immediately_run (data : bytes) (tag : string) (w : World) :
  send_command_immediately data tag w
  = (Returned tt, set_journal (journal w ++ stamp (now w) (send_trace tag data w)) w).
Proof.
  unfold send_command_immediately, send_trace. run_monad.
  destruct (debug_mode (vars w)); run_monad;
    (destruct (py_int (port_entry (vars w))) as [port |]; run_monad;
     cbn [stamp map app]; rewrite ?app_nil_r;
     [ match goal with |- context [network w ?j ?h ?p ?d] =>
         destruct (network w j h p d) as [e |] end; run_monad | ]);
    cbn [stamp map app]; rewrite <- ?app_assoc, ?app_nil_r; reflexivity.
Qed.

Lemma send_live_command_run (data : bytes) (w : World) :
  send_live_command data w = send_command_immediately data "[Live Keystroke]" w.
Proof. reflexivity. Qed.

Lemma transmissions_app (j1 j2 : list (Z * event)) :
  transmissions (j1 ++ j2) = transmissions j1 ++ transmissions j2.
Proof. apply omap_app. Qed.

Lemma payloads_app (j1 j2 : list (Z * event)) :
  payloads (j1 ++ j2) = payloads j1 ++ payloads j2.
Proof. unfold payloads. rewrite transmissions_app. apply map_app. Qed.

Lemma transmissions_send_trace (t : Z) (tag : string) (data : bytes) (w : World) :
  transmissions (stamp t (send_trace tag data w))
  = match py_int (port_entry (vars w)) with
    | Some _ => [(t, data)]
    | None => []
    end.
Proof.
  unfold send_trace.
  destruct (debug_mode (vars w)), (py_int (port_entry (vars w))) as [port |]; cbn;
    try reflexivity;
    match goal with |- context [network w ?j ?h ?p ?d] =>
      destruct (network w j h p d) end; reflexivity.
Qed.

Lemma added_set_journal (l : list (Z * event)) (w : World) :
  added w (set_journal (journal w ++ l) w) = l.
Proof. unfold added. cbn. apply drop_app_length. Qed.

Lemma added_refl (w : World) : added w w = [].
Proof. unfold added. apply drop_all. Qed.

Lemma update_line_length_display_journal (w : World) :
  journal (update_line_length_display w).2 = journal w.
Proof.
  unfold update_line_length_display.
  destruct (LineMetrics_compute _ _ _ _ _) as [[len bg] | e]; reflexivity.
Qed.

Lemma update_line_length_display_vars (w : World) :
  vars (update_line_length_display w).2 = vars w.
Proof.
  unfold update_line_length_display.
  destruct (LineMetrics_compute _ _ _ _ _) as [[len bg] | e]; reflexivity.
Qed.

(** The code selected for a CPI value is a [bytes] value, empty when the
    dictionary has no such key, and never the code of ["Double Width Off"]. *)
Lemma cpi_command_returned (cpi : string) :
  exists code, cpi_command cpi = Returned code /\ code <> [x1b; x21; x30].
Proof.
  unfold cpi_command, get, commands_get.
  destruct (OKIDATA_COMMANDS !! ("Select " +:+ cpi)) as [c |] eqn:E; cbn.
  - apply select_entry in E as (code & -> & _ & Hne). eauto.
  - eexists; split; [reflexivity | discriminate].
Qed.

(** ** C6: the encoding of Skip Over Perforation *)

(** C6. Skip Over Perforation encodes parameter 0 as the fixed disable
    sequence 1B 25 53 30 and every parameter [n] from 1 to 9 as the general
    sequence 1B 47 n n, in which the parameter byte occurs exactly twice. *)
Theorem skip_over_perforation_encoding (n : Z) :
  0 <= n <= 9 ->
  get_call "Skip Over Perforation" n
  = Returned (if n =? 0 then [x1b; x25; x53; x30]
              else [x1b; x47; byte_of_int n; byte_of_int n])
  /\ (n <> 0 ->
      int_of_byte (byte_of_int n) = n
      /\ count_occ byte_eq_dec [x1b; x47; byte_of_int n; byte_of_int n] (byte_of_int n)
         = 2%nat).
Proof.
  intros Hn. rewrite <- (Z2Nat.id n) by lia.
  assert (Z.to_nat n <= 9)%nat as Hk by lia.
  generalize dependent (Z.to_nat n). intros k Hk.
  do 10 (destruct k as [| k];
         [split; [vm_compute; reflexivity | intros _; split; vm_compute; reflexivity] |]).
  lia.
Qed.

Lemma skip_over_perforation_encoding_witness :
  0 <= 5 <= 9
  /\ get_call "Skip Over Perforation" 5 = Returned [x1b; x47; x05; x05]
  /\ int_of_byte x05 = 5
  /\ count_occ byte_eq_dec [x1b; x47; x05; x05] x05 = 2%nat.
Proof.
  split; [lia |].
  destruct (skip_over_perforation_encoding 5 ltac:(lia)) as [Hcode Hcount].
  split; [exact Hcode | exact (Hcount ltac:(discriminate))].
Defined.

(** ** C8: unknown command names *)

(** C8. For a name the dictionary does not hold, the lookup yields the
    empty byte sequence (and the empty-sequence encoder where an encoder is
    asked for), and the manual command for that name leaves the world as it
    was: nothing is logged, shown, or transmitted, and nothing is raised.
    The same holds for the CPI command when the selected CPI names no key. *)
Theorem unknown_command_is_noop (name : string) (w : World) :
  OKIDATA_COMMANDS !! name = None ->
  get name [] = Returned []
  /\ (forall n, get_call name n = Returned [])
  /\ send_manual_command name w = (Returned tt, w)
  /\ (name = "Select " +:+ cpi_var (vars w) -> apply_cpi w = (Returned tt, w)).
Proof.
  intros Hnone.
  assert (get name [] = Returned []) as Hget
    by (unfold get, commands_get; rewrite Hnone; reflexivity).
  split; [exact Hget |].
  split; [intros n; unfold get_call, commands_get; rewrite Hnone; reflexivity |].
  split.
  - unfold send_manual_command. run_monad. rewrite Hget. reflexivity.
  - intros ->. unfold apply_cpi, cpi_command. run_monad.
    destruct (negb _); [| reflexivity]. rewrite Hget. reflexivity.
Qed.

Lemma unknown_command_is_noop_witness :
  OKIDATA_COMMANDS !! "Bell" = None
  /\ get "Bell" [] = Returned []
  /\ send_manual_command "Bell" (initial_world reachable)
     = (Returned tt, initial_world reachable).
Proof.
  assert (OKIDATA_COMMANDS !! "Bell" = None) as H by (vm_compute; reflexivity).
  split; [exact H |].
  destruct (unknown_command_is_noop "Bell" (initial_world reachable) H) as (H1 & _ & H3 & _).
  split; [exact H1 | exact H3].
Defined.

(** ** C9: shared off-codes *)

Lemma apply_unidirectional_off (w : World) :
  unidirectional (vars w) = false ->
  apply_unidirectional w
  = send_command_immediately [x1b; x2d; x00] "[Unidirectional Printing]" w.
Proof. intros H. unfold apply_unidirectional. run_monad. rewrite H. reflexivity. Qed.

Lemma apply_underline_off (w : World) :
  underline_printing (vars w) = false ->
  apply_underline w = send_command_immediately [x1b; x2d; x00] "[Underline Printing]" w.
Proof. intros H. unfold apply_underline. run_monad. rewrite H. reflexivity. Qed.

(** C9. "Underline Printing Off" and "Unidirectional Printing Off" are both
    1B 2D 00 (as "Emphasized Printing Off" and "Enhanced Printing Off" are
    both 1B 49); so switching unidirectional printing off transmits exactly
    what switching underline printing off transmits. *)
Theorem unidirectional_off_same_bytes_as_underline_off (w : World) :
  unidirectional (vars w) = false ->
  underline_printing (vars w) = false ->
  get "Underline Printing Off" [] = Returned [x1b; x2d; x00]
  /\ get "Unidirectional Printing Off" [] = Returned [x1b; x2d; x00]
  /\ get "Emphasized Printing Off" [] = Returned [x1b; x49]
  /\ get "Enhanced Printing Off" [] = Returned [x1b; x49]
  /\ transmissions (added w (apply_unidirectional w).2)
     = transmissions (added w (apply_underline w).2)
  /\ transmissions (added w (apply_unidirectional w).2)
     = match py_int (port_entry (vars w)) with
       | Some _ => [(now w, [x1b; x2d; x00])]
       | None => []
       end.
Proof.
  intros Huni Hund.
  do 4 (split; [vm_compute; reflexivity |]).
  rewrite (apply_unidirectional_off w Huni), (apply_underline_off w Hund).
  rewrite !send_command_immediately_run. cbn [snd].
  rewrite !added_set_journal, !transmissions_send_trace. split; reflexivity.
Qed.

Lemma unidirectional_off_same_bytes_as_underline_off_witness :
  payloads (added (initial_world reachable)
                  (apply_unidirectional (initial_world reachable)).2)
  = [[x1b; x2d; x00]]
  /\ transmissions (added (initial_world reachable)
                          (apply_unidirectional (initial_world reachable)).2)
     = transmissions (added (initial_world reachable)
                            (apply_underline (initial_world reachable)).2).
Proof.
  destruct (unidirectional_off_same_bytes_as_underline_off (initial_world reachable)
              eq_refl eq_refl) as (_ & _ & _ & _ & Hsame & _).
  split; [vm_compute; reflexivity | exact Hsame].
Defined.

(** ** C7: the Double Wide checkbox *)

Lemma payloads_send_trace (t : Z) (tag : string) (data : bytes) (w : World) (port : Z) :
  py_int (port_entry (vars w)) = Some port ->
  payloads (stamp t (send_trace tag data w)) = [data].
Proof. intros H. unfold payloads. rewrite transmissions_send_trace, H. reflexivity. Qed.

(** What a handler adds is not changed by refreshing the label after it. *)
Lemma added_then_update (m : M unit) (w : World) :
  added w ((m ;;; update_line_length_display) w).2 = added w (m w).2.
Proof.
  unfold bind, added. destruct (m w) as [[[] | e] w']; cbn [snd]; [| reflexivity].
  rewrite update_line_length_display_journal. reflexivity.
Qed.

Lemma toggle_double_wide_unfold (w : World) :
  toggle_double_wide w
  = ((if double_wide (vars w) then
        command <- lift (get "Double Width On" []) ;;
        when (nonempty command) (send_command_immediately command "[Double Wide ON]")
      else apply_cpi) ;;;
     update_line_length_display) w.
Proof. reflexivity. Qed.

(** C7. Ticking Double Wide sends exactly the dictionary's Double Width On
    code, 1F.  Unticking it sends the dictionary's entry for the CPI now
    selected, ["Select <cpi>"], under the tag of a CPI change, and nothing
    when the dictionary has no such entry; that entry is never the Double
    Width Off code 1B 21 30, which no part of the handler asks for.  What
    is sent is one call of the sender: one connection when the port entry
    reads as an integer, the error box and no connection when it does
    not. *)
Theorem double_wide_toggle (w : World) :
  let done := added w (toggle_double_wide w).2 in
  OKIDATA_COMMANDS !! "Double Width On" = Some (Fixed [x1f])
  /\ OKIDATA_COMMANDS !! "Double Width Off" = Some (Fixed [x1b; x21; x30])
  /\ if double_wide (vars w) then
       done = stamp (now w) (send_trace "[Double Wide ON]" [x1f] w)
       /\ transmissions done = through_port w [(now w, [x1f])]
     else
       match OKIDATA_COMMANDS !! ("Select " +:+ cpi_var (vars w)) with
       | Some (Fixed code) =>
           done = stamp (now w) (send_trace "[CPI]" code w)
           /\ transmissions done = through_port w [(now w, code)]
           /\ code <> [x1b; x21; x30]
       | Some (Parametric _) => False
       | None => done = []
       end.
Proof.
  intros done. subst done.
  split; [vm_compute; reflexivity |]. split; [vm_compute; reflexivity |].
  rewrite toggle_double_wide_unfold, added_then_update.
  destruct (double_wide (vars w)).
  - change (get "Double Width On" []) with (Returned [x1f]).
    run_monad. cbn [nonempty]. rewrite send_command_immediately_run. cbn [snd].
    rewrite added_set_journal. split; [reflexivity |]. apply transmissions_send_trace.
  - unfold apply_cpi, cpi_command, get, commands_get. run_monad.
    destruct (OKIDATA_COMMANDS !! ("Select " +:+ cpi_var (vars w))) as [c |] eqn:Hentry;
      cbn [from_option id].
    + pose proof Hentry as Hcode. apply select_entry in Hcode as (code & -> & Hne & Hoff).
      destruct (negb (cpi_var (vars w) =? "Double Wide")%string) eqn:Hdw.
      * destruct code as [| b code]; [contradiction |]. cbn [nonempty].
        rewrite send_command_immediately_run. cbn [snd]. rewrite added_set_journal.
        split; [reflexivity |]. split; [apply transmissions_send_trace | exact Hoff].
      * apply negb_false_iff, String.eqb_eq in Hdw. rewrite Hdw in Hentry.
        vm_compute in Hentry. discriminate Hentry.
    + destruct (negb _); cbn [nonempty]; apply added_refl.
Qed.

Lemma double_wide_toggle_witness :
  transmissions (added (set_vars vars_double_wide (initial_world reachable))
                   (toggle_double_wide (set_vars vars_double_wide (initial_world reachable))).2)
  = [(0, [x1f])]
  /\ transmissions (added (initial_world reachable)
                      (toggle_double_wide (initial_world reachable)).2)
     = [(0, [x1e])].
Proof.
  split.
  - exact (proj2 (proj2 (proj2
      (double_wide_toggle (set_vars vars_double_wide (initial_world reachable)))))).
  - pose proof (proj2 (proj2 (double_wide_toggle (initial_world reachable)))) as H.
    vm_compute in H. destruct H as (_ & H & _). exact H.
Defined.

Example untick_double_wide_at_10_cpi :
  payloads (added (initial_world reachable)
                  (toggle_double_wide (initial_world reachable)).2) = [[x1e]].
Proof. vm_compute. reflexivity. Qed.

(** ** Sequences of transmissions *)

Lemma set_journal_same (w : World) : set_journal (journal w ++ []) w = w.
Proof. destruct w. unfold set_journal. cbn. rewrite app_nil_r. reflexivity. Qed.

Lemma emits_ret (w : World) : emits (ret tt) w [].
Proof. exists []. split; [unfold ret; rewrite set_journal_same |]; reflexivity. Qed.

Lemma emits_bind (m1 m2 : M unit) (w : World) (T1 T2 : list (Z * bytes)) :
  emits m1 w T1 ->
  (forall l, emits m2 (set_journal (journal w ++ l) w) T2) ->
  emits (m1 ;;; m2) w (T1 ++ T2).
Proof.
  intros (l1 & E1 & H1) H2. destruct (H2 l1) as (l2 & E2 & H2').
  exists (l1 ++ l2). unfold bind. rewrite E1, E2. cbn.
  rewrite app_assoc, transmissions_app, H1, H2'. split; reflexivity.
Qed.

Lemma emits_send (data : bytes) (tag : string) (w : World) (port : Z) :
  py_int (port_entry (vars w)) = Some port ->
  emits (send_command_immediately data tag) w [(now w, data)].
Proof.
  intros Hport. eexists. split; [apply send_command_immediately_run |].
  rewrite transmissions_send_trace, Hport. reflexivity.
Qed.

Lemma emits_send_live (data : bytes) (w : World) (port : Z) :
  py_int (port_entry (vars w)) = Some port ->
  emits (send_live_command data) w [(now w, data)].
Proof. intros Hport. exact (emits_send data "[Live Keystroke]" w port Hport). Qed.

Lemma emits_guarded_send (o : outcome bytes) (code : bytes) (tag : string)
    (w : World) (port : Z) :
  py_int (port_entry (vars w)) = Some port ->
  o = Returned code ->
  emits (command <- lift o ;;
         when (nonempty command) (send_command_immediately command tag))
        w (at_time (now w) (sent code)).
Proof.
  intros Hport ->. run_monad. unfold sent.
  destruct (nonempty code); [apply (emits_send _ _ _ _ Hport) | apply emits_ret].
Qed.






Lemma get_reset : get "Reset (Clear Print Buffer)" [] = Returned [x18].
Proof. vm_compute. reflexivity. Qed.

Lemma get_call_skip (n : Z) : get_call "Skip Over Perforation" n = skip_over_perforation n.
Proof. reflexivity. Qed.

Lemma emits_var {A : Type} (field : TkVars -> A) (k : A -> M unit)
    (w : World) (T : list (Z * bytes)) :
  emits (k (field (vars w))) w T -> emits (x <- var field ;; k x) w T.
Proof. intros (l & E & H). exists l. split; [exact E | exact H]. Qed.


Lemma emits_apply_font (w : World) (port : Z) (code : bytes) :
  py_int (port_entry (vars w)) = Some port ->
  font_command (font_var (vars w)) = Returned code ->
  emits apply_font w (at_time (now w) (sent code)).
Proof.
  intros Hport Hcode. unfold apply_font. apply emits_var.
  apply (emits_guarded_send _ _ _ _ _ Hport Hcode).
Qed.

Lemma emits_apply_cpi (w : World) (port : Z) (code : bytes) :
  py_int (port_entry (vars w)) = Some port ->
  cpi_command (cpi_var (vars w)) = Returned code ->
  emits apply_cpi w (at_time (now w) (sent code)).
Proof.
  intros Hport Hcode. unfold apply_cpi. apply emits_var.
  destruct (negb (cpi_var (vars w) =? "Double Wide")%string) eqn:Hdw.
  - apply (emits_guarded_send _ _ _ _ _ Hport Hcode).
  - apply negb_false_iff, String.eqb_eq in Hdw. rewrite Hdw in Hcode.
    vm_compute in Hcode. injection Hcode as <-. apply emits_ret.
Qed.

Lemma emits_apply_spacing (w : World) (port : Z) (code : bytes) :
  py_int (port_entry (vars w)) = Some port ->
  spacing_command (spacing_var (vars w)) (spacing_n (vars w)) = Returned code ->
  emits apply_spacing w (at_time (now w) (sent code)).
Proof.
  intros Hport Hcode. unfold apply_spacing.
  apply emits_var. apply (emits_var spacing_n).
  apply (emits_guarded_send _ _ _ _ _ Hport Hcode).
Qed.

Lemma emits_apply_quality (w : World) (port : Z) (code : bytes) :
  py_int (port_entry (vars w)) = Some port ->
  quality_command (quality_var (vars w)) = Returned code ->
  emits apply_quality w (at_time (now w) (sent code)).
Proof.
  intros Hport Hcode. unfold apply_quality. apply emits_var.
  apply (emits_guarded_send _ _ _ _ _ Hport Hcode).
Qed.

Lemma emits_apply_speed (w : World) (port : Z) (code : bytes) :
  py_int (port_entry (vars w)) = Some port ->
  speed_command (speed_var (vars w)) = Returned code ->
  emits apply_speed w (at_time (now w) (sent code)).
Proof.
  intros Hport Hcode. unfold apply_speed. apply emits_var.
  apply (emits_guarded_send _ _ _ _ _ Hport Hcode).
Qed.




(** ** C10: the debug log records attempts *)

(** C10, as the code has it.  With debug mode on, the first thing
    [send_command_immediately] and [send_live_command] add to the journal is
    the decimal-byte debug line; only after it come the error box of a port
    entry that is no integer (and then no connection at all), or the
    connection, followed by the error line when the connection failed.
    [restore_defaults] does it the other way round: it reads the port first,
    and for a port entry that is no integer it shows the error box and
    writes no debug line; for one that is, it builds the commands next (a
    skip value that fits no byte raises here, with nothing logged or sent),
    and only then comes its debug line, before the connection; a failed
    connection leaves the line in the log and shows an error box. *)
Theorem debug_line_precedes_port_check_and_connection
    (command_bytes : bytes) (tag : string) (w : World) :
  debug_mode (vars w) = true ->
  let line (tag : string) : Z * event :=
    (now w, DebugInsert (tag +:+ " " +:+ dec_str command_bytes +:+ nl)) in
  let outcome_of (tag : string) (rest : list (Z * event)) : Prop :=
    match py_int (port_entry (vars w)) with
    | None => rest = [(now w, ShowError "Error" "Invalid port number.")]
    | Some port =>
        let error :=
          network w (journal w ++ [line tag]) (ip_entry (vars w)) port command_bytes in
        rest = (now w, SocketSend (ip_entry (vars w)) port command_bytes error)
               :: match error with
                  | None => []
                  | Some e => [(now w, DebugInsert (tag +:+ " Error: " +:+ e +:+ nl))]
                  end
    end in
  (exists rest,
      send_command_immediately command_bytes tag w
      = (Returned tt, set_journal (journal w ++ line tag :: rest) w)
      /\ outcome_of tag rest)
  /\ (exists rest,
      send_live_command command_bytes w
      = (Returned tt, set_journal (journal w ++ line "[Live Keystroke]" :: rest) w)
      /\ outcome_of "[Live Keystroke]" rest)
  /\ match py_int (port_entry (vars w)) with
     | None =>
         restore_defaults w
         = (Returned tt,
            set_journal (journal w ++ [(now w, ShowError "Error" "Invalid port number.")]) w)
     | Some port =>
         exists cpi_cmd,
           cpi_command (cpi_var (vars w)) = Returned cpi_cmd
           /\ match skip_over_perforation (skip_perforation (vars w)) with
              | Raised e => restore_defaults w = (Raised e, w)
              | Returned skip_cmd =>
                  let full_cmd := ([x18] ++ cpi_cmd) ++ skip_cmd in
                  let first : Z * event :=
                    (now w,
                     DebugInsert ("[Restore Defaults] " +:+ dec_str full_cmd +:+ nl)) in
                  let error :=
                    network w (journal w ++ [first]) (ip_entry (vars w)) port full_cmd in
                  restore_defaults w
                  = (Returned tt,
                     set_journal
                       (journal w
                        ++ first
                        :: (now w, SocketSend (ip_entry (vars w)) port full_cmd error)
                        :: match error with
                           | None => []
                           | Some e =>
                               [(now w,
                                 ShowError "Error"
                                   ("Failed to send default commands: " +:+ e))]
                           end) w)
              end
     end.
Proof.
  intros Hdebug line outcome_of.
  assert (forall tag, exists rest,
      send_command_immediately command_bytes tag w
      = (Returned tt, set_journal (journal w ++ line tag :: rest) w)
      /\ outcome_of tag rest) as H.
  { intros t. rewrite send_command_immediately_run.
    unfold send_trace, outcome_of, line. rewrite Hdebug.
    destruct (py_int (port_entry (vars w))) as [port |]; cbn [stamp map app].
    - eexists. split; [reflexivity |]. cbv zeta.
      destruct (network w _ _ _ _); reflexivity.
    - eexists. split; reflexivity. }
  split; [apply H |].
  split; [rewrite send_live_command_run; apply (H "[Live Keystroke]") |].
  clear H line outcome_of. unfold restore_defaults. run_monad.
  destruct (py_int (port_entry (vars w))) as [port |]; [| reflexivity].
  destruct (cpi_command_returned (cpi_var (vars w))) as (cpi_cmd & Hcpi & _).
  exists cpi_cmd. split; [exact Hcpi |].
  rewrite get_reset, Hcpi.
  change (get_call "Skip Over Perforation" (skip_perforation (vars w)))
    with (skip_over_perforation (skip_perforation (vars w))).
  destruct (skip_over_perforation (skip_perforation (vars w))) as [skip_cmd | e];
    [| reflexivity].
  rewrite Hdebug. run_monad. cbn [app].
  match goal with |- context [network w ?j ?h ?p ?d] =>
    destruct (network w j h p d) end; run_monad; rewrite <- ?app_assoc; reflexivity.
Qed.

Lemma debug_line_precedes_port_check_and_connection_witness :
  (* an invalid port: the line is logged, then the transmission is given up *)
  journal (send_live_command [x0d]
             (set_vars (vars_with_port "91oo") (initial_world reachable))).2
  = [(0, DebugInsert ("[Live Keystroke] 13" +:+ nl));
     (0, ShowError "Error" "Invalid port number.")]
  (* a refused connection: the line is logged all the same *)
  /\ journal (send_live_command [x0d] (initial_world unreachable)).2
     = [(0, DebugInsert ("[Live Keystroke] 13" +:+ nl));
        (0, SocketSend "192.168.4.28" 9100 [x0d] (Some "[Errno 111] Connection refused"));
        (0, DebugInsert ("[Live Keystroke] Error: [Errno 111] Connection refused" +:+ nl))]
  (* the defaults, refused: their line is logged before the connection *)
  /\ journal (restore_defaults (initial_world unreachable)).2
     = [(0, DebugInsert ("[Restore Defaults] 24 30 27 37 83 48" +:+ nl));
        (0, SocketSend "192.168.4.28" 9100 [x18; x1e; x1b; x25; x53; x30]
              (Some "[Errno 111] Connection refused"));
        (0, ShowError "Error"
              "Failed to send default commands: [Errno 111] Connection refused")].
Proof.
  split; [| split].
  - destruct (debug_line_precedes_port_check_and_connection [x0d] "[CPI]"
                (set_vars (vars_with_port "91oo") (initial_world reachable)) eq_refl)
      as (_ & (rest & -> & Hrest) & _).
    vm_compute in Hrest. rewrite Hrest. vm_compute. reflexivity.
  - destruct (debug_line_precedes_port_check_and_connection [x0d] "[CPI]"
                (initial_world unreachable) eq_refl)
      as (_ & (rest & -> & Hrest) & _).
    vm_compute in Hrest. rewrite Hrest. vm_compute. reflexivity.
  - destruct (debug_line_precedes_port_check_and_connection [x0d] "[CPI]"
                (initial_world unreachable) eq_refl) as (_ & _ & Hrestore).
    change (py_int (port_entry (vars (initial_world unreachable)))) with (Some 9100)
      in Hrestore.
    destruct Hrestore as (cpi_cmd & Hcpi & Hrestore).
    vm_compute in Hcpi. injection Hcpi as <-.
    change (skip_over_perforation (skip_perforation (vars (initial_world unreachable))))
      with (Returned [x1b; x25; x53; x30]) in Hrestore.
    cbv beta iota zeta in Hrestore. rewrite Hrestore. vm_compute. reflexivity.
Defined.

(** The defaults with a port entry that is no integer, debug mode on: the
    error box, and no debug line before it or after it. *)
Lemma restore_defaults_logs_nothing_for_a_bad_port :
  debug_mode (vars (set_vars (vars_with_port "91oo") (initial_world reachable))) = true
  /\ journal (restore_defaults
                (set_vars (vars_with_port "91oo") (initial_world reachable))).2
     = [(0, ShowError "Error" "Invalid port number.")]
  /\ forall text,
       (0, DebugInsert text)
       ∉ journal (restore_defaults
                    (set_vars (vars_with_port "91oo") (initial_world reachable))).2.
Proof.
  split; [reflexivity |].
  assert (journal (restore_defaults
                     (set_vars (vars_with_port "91oo") (initial_world reachable))).2
          = [(0, ShowError "Error" "Invalid port number.")]) as E
    by (vm_compute; reflexivity).
  split; [exact E |].
  intros text Hin. rewrite E in Hin. apply list_elem_of_singleton in Hin. discriminate Hin.
Qed.

(** ** C2: Send Defaults *)





(** ** C1: the commit sequence of Return *)

(** Refreshing the label touches the label only. *)
Lemma update_line_length_display_frame (w : World) :
  exists r len bg,
    update_line_length_display w = (r, set_shown_bg bg (set_shown_length len w)).
Proof.
  unfold update_line_length_display.
  destruct (LineMetrics_compute _ _ _ _ _) as [[len bg] | e].
  - eauto.
  - exists (Raised e), (shown_length w), (shown_bg w). destruct w. reflexivity.
Qed.

Lemma get_cr : get "Carriage Return" [x0d] = Returned [x0d].
Proof. vm_compute. reflexivity. Qed.

Lemma get_lf : get "Line Feed" [x0a] = Returned [x0a].
Proof. vm_compute. reflexivity. Qed.

Lemma get_ht : get "Horizontal Tab" [x09] = Returned [x09].
Proof. vm_compute. reflexivity. Qed.

Lemma handle_return_line_by_line (w : World) :
  mode_var (vars w) = "Line-by-Line" ->
  handle_return w = update_line_length_display (committed w).
Proof.
  intros Hmode. unfold handle_return. run_monad. rewrite Hmode.
  change ("Line-by-Line" =? "Line-by-Line")%string with true. cbv iota.
  run_monad. rewrite get_cr. run_monad. rewrite get_lf. run_monad.
  rewrite send_live_command_run, send_command_immediately_run. run_monad.
  reflexivity.
Qed.

Lemma emits_send_left_margin (w : World) (port : Z) :
  py_int (port_entry (vars w)) = Some port ->
  emits send_left_margin w
    (replicate (Z.to_nat (left_margin_count (vars w))) (now w, [x09])).
Proof.
  intros Hport. unfold send_left_margin. apply emits_var.
  generalize (Z.to_nat (left_margin_count (vars w))) as n.
  intros n. revert w Hport. induction n as [| n IH]; intros w Hport.
  - apply emits_ret.
  - cbn [for_range replicate].
    change ((now w, [x09]) :: replicate n (now w, [x09]))
      with ([(now w, [x09])] ++ replicate n (now w, [x09])).
    apply emits_bind.
    + rewrite get_ht. run_monad. apply (emits_send_live _ _ _ Hport).
    + intros l. apply (IH (set_journal (journal w ++ l) w) Hport).
Qed.

Lemma emits_send_line_text (line_text : str) (encoded : bytes) (w : World) (port : Z) :
  py_int (port_entry (vars w)) = Some port ->
  encode_utf8 line_text = Returned encoded ->
  emits (run_callback (SendLineText line_text)) w [(now w, encoded)].
Proof.
  intros Hport Henc. cbn [run_callback]. rewrite Henc. run_monad.
  apply (emits_send_live _ _ _ Hport).
Qed.

(** A timer whose callback only transmits. *)
Lemma fire_next_emits (w : World) (due : Z) (cb : callback) (ts : list (Z * callback))
    (T : list (Z * bytes)) :
  timers w = (due, cb) :: ts ->
  emits (run_callback cb) (set_timers (Z.max (now w) due) ts w) T ->
  exists l,
    fire_next w = Some (set_journal (journal w ++ l) (set_timers (Z.max (now w) due) ts w))
    /\ transmissions l = T.
Proof.
  intros Htimers (l & E & H). exists l. unfold fire_next. rewrite Htimers, E.
  split; [reflexivity | exact H].
Qed.

(** *** The line the insert mark is in *)

Lemma takewhile_dropwhile {A : Type} (p : A -> bool) (l : list A) :
  l = takewhile p l ++ dropwhile p l.
Proof.
  induction l as [| x l IH]; cbn [takewhile dropwhile]; [reflexivity |].
  destruct (p x); [cbn; f_equal; exact IH | reflexivity].
Qed.

Lemma dropwhile_head {A : Type} (p : A -> bool) (l : list A) :
  dropwhile p l = [] \/ exists x rest, dropwhile p l = x :: rest /\ p x = false.
Proof.
  induction l as [| x l IH]; cbn [dropwhile]; [left; reflexivity |].
  destruct (p x) eqn:Hx; [exact IH | right; eauto].
Qed.

Lemma takewhile_Forall {A : Type} (p : A -> bool) (l : list A) :
  Forall (fun x => p x = true) (takewhile p l).
Proof.
  induction l as [| x l IH]; cbn [takewhile]; [constructor |].
  destruct (p x) eqn:Hx; constructor; assumption.
Qed.

Lemma current_line_no_newline (t : str) (i : nat) : 10 ∉ current_line t i.
Proof.
  unfold current_line. intros Hin. apply elem_of_app in Hin as [Hin | Hin].
  - apply list_elem_of_In in Hin. rewrite <- in_rev in Hin. apply list_elem_of_In in Hin.
    pose proof (takewhile_Forall (fun c => negb (is_newline c)) (rev (take i t))) as Hall.
    rewrite Forall_forall in Hall. specialize (Hall 10 Hin). discriminate Hall.
  - pose proof (takewhile_Forall (fun c => negb (is_newline c)) (drop i t)) as Hall.
    rewrite Forall_forall in Hall. specialize (Hall 10 Hin). discriminate Hall.
Qed.

Lemma not_newline_false (x : Z) : negb (is_newline x) = false -> x = 10.
Proof. unfold is_newline. intros H. apply negb_false_iff in H. lia. Qed.

(** The current line lies in the text between two newlines, or the ends of
    the text, and the insert mark is in it or at one of its ends. *)
Lemma current_line_in_text (t : str) (i : nat) :
  exists pre post,
    t = pre ++ current_line t i ++ post
    /\ (pre = [] \/ last pre = Some 10)
    /\ (post = [] \/ head post = Some 10)
    /\ (length pre <= Nat.min i (length t) <= length pre + length (current_line t i))%nat.
Proof.
  set (nn := fun c : Z => negb (is_newline c)).
  exists (rev (dropwhile nn (rev (take i t)))), (dropwhile nn (drop i t)).
  assert (take i t = rev (dropwhile nn (rev (take i t)))
                     ++ rev (takewhile nn (rev (take i t)))) as Hleft.
  { rewrite <- rev_app_distr, <- takewhile_dropwhile. symmetry. apply rev_involutive. }
  unfold current_line. fold nn.
  split; [| split; [| split]].
  - rewrite <- (take_drop i t) at 1. rewrite Hleft at 1.
    rewrite (takewhile_dropwhile nn (drop i t)) at 1.
    rewrite <- !app_assoc. reflexivity.
  - destruct (dropwhile_head nn (rev (take i t))) as [-> | (x & rest & -> & Hx)].
    + left. reflexivity.
    + right. cbn [rev]. rewrite last_snoc. f_equal. exact (not_newline_false x Hx).
  - destruct (dropwhile_head nn (drop i t)) as [-> | (x & rest & -> & Hx)].
    + left. reflexivity.
    + right. cbn [head]. f_equal. exact (not_newline_false x Hx).
  - pose proof (f_equal length Hleft) as Hlen.
    rewrite length_take, length_app in Hlen. rewrite length_app. lia.
Qed.

(** *** Timers that join the queue *)

Lemma enqueue_past (due : Z) (cb : callback) (front rest : list (Z * callback)) :
  Forall (fun t => t.1 <= due) front ->
  enqueue due cb (front ++ rest) = front ++ enqueue due cb rest.
Proof.
  induction front as [| [d c] front IH]; intros Hfront; [reflexivity |].
  apply Forall_cons in Hfront as [Hd Hfront]. cbn [fst] in Hd. cbn [app enqueue].
  rewrite (proj2 (Z.leb_le d due) Hd). f_equal. apply IH, Hfront.
Qed.

Lemma enqueue_split (due : Z) (cb : callback) (ts : list (Z * callback)) :
  exists front back,
    ts = front ++ back
    /\ enqueue due cb ts = front ++ (due, cb) :: back
    /\ Forall (fun t => t.1 <= due) front.
Proof.
  induction ts as [| [d c] ts (front & back & Hts & Hen & Hfront)]; cbn [enqueue].
  - exists [], []. repeat split. apply Forall_nil. exact I.
  - destruct (Z.leb_spec d due) as [Hd | Hd].
    + exists ((d, c) :: front), back. rewrite Hen, Hts at 1.
      repeat split. apply Forall_cons. split; [exact Hd | exact Hfront].
    + exists [], ((d, c) :: ts). repeat split. apply Forall_nil. exact I.
Qed.

(** Three timers with due times in order join a queue in that order, each
    behind the timers that are due no later, and the timers that were
    waiting keep their places among themselves. *)
Lemma enqueue_three (d1 d2 d3 : Z) (c1 c2 c3 : callback) (ts : list (Z * callback)) :
  d1 <= d2 -> d2 <= d3 ->
  exists q0 q1 q2 q3,
    ts = q0 ++ q1 ++ q2 ++ q3
    /\ enqueue d3 c3 (enqueue d2 c2 (enqueue d1 c1 ts))
       = q0 ++ [(d1, c1)] ++ q1 ++ [(d2, c2)] ++ q2 ++ [(d3, c3)] ++ q3.
Proof.
  intros H12 H23.
  destruct (enqueue_split d1 c1 ts) as (q0 & b0 & -> & -> & Hq0).
  destruct (enqueue_split d2 c2 b0) as (q1 & b1 & -> & Hen1 & Hq1).
  destruct (enqueue_split d3 c3 b1) as (q2 & q3 & -> & Hen2 & Hq2).
  exists q0, q1, q2, q3. split; [reflexivity |].
  assert (Forall (fun t : Z * callback => t.1 <= d2) (q0 ++ [(d1, c1)])) as Hpast2.
  { apply Forall_app. split.
    - eapply Forall_impl; [exact Hq0 |]. cbn. intros t Ht. lia.
    - apply Forall_cons. split; [exact H12 | apply Forall_nil; exact I]. }
  change (q0 ++ (d1, c1) :: q1 ++ q2 ++ q3) with (q0 ++ [(d1, c1)] ++ (q1 ++ q2 ++ q3)).
  rewrite app_assoc, (enqueue_past d2 c2 _ _ Hpast2), Hen1.
  assert (Forall (fun t : Z * callback => t.1 <= d3) ((q0 ++ [(d1, c1)]) ++ q1 ++ [(d2, c2)]))
    as Hpast3.
  { apply Forall_app. split; [| apply Forall_app; split].
    - eapply Forall_impl; [exact Hpast2 |]. cbn. intros t Ht. lia.
    - eapply Forall_impl; [exact Hq1 |]. cbn. intros t Ht. lia.
    - apply Forall_cons. split; [exact H23 | apply Forall_nil; exact I]. }
  replace ((q0 ++ [(d1, c1)]) ++ q1 ++ (d2, c2) :: q2 ++ q3)
    with (((q0 ++ [(d1, c1)]) ++ q1 ++ [(d2, c2)]) ++ q2 ++ q3)
    by (rewrite <- !app_assoc; reflexivity).
  rewrite (enqueue_past d3 c3 _ _ Hpast3), Hen2.
  rewrite <- !app_assoc. reflexivity.
Qed.

(** *** What the senders do for any port *)

Lemma through_port_app (w : World) (T1 T2 : list (Z * bytes)) :
  through_port w (T1 ++ T2) = through_port w T1 ++ through_port w T2.
Proof. unfold through_port. destruct (py_int _); reflexivity. Qed.

Lemma emits_send_live_any (data : bytes) (w : World) :
  emits (send_live_command data) w (through_port w [(now w, data)]).
Proof.
  eexists. split; [rewrite send_live_command_run; apply send_command_immediately_run |].
  rewrite transmissions_send_trace. reflexivity.
Qed.

Lemma emits_send_left_margin_any (w : World) :
  emits send_left_margin w
    (through_port w (replicate (Z.to_nat (left_margin_count (vars w))) (now w, [x09]))).
Proof.
  unfold send_left_margin. apply emits_var.
  generalize (Z.to_nat (left_margin_count (vars w))) as n.
  intros n. revert w. induction n as [| n IH]; intros w.
  - cbn [for_range replicate].
    replace (through_port w []) with (@nil (Z * bytes))
      by (unfold through_port; destruct (py_int _); reflexivity).
    apply emits_ret.
  - cbn [for_range replicate].
    change ((now w, [x09]) :: replicate n (now w, [x09]))
      with ([(now w, [x09])] ++ replicate n (now w, [x09])).
    rewrite through_port_app. apply emits_bind.
    + rewrite get_ht. run_monad. apply emits_send_live_any.
    + intros l. apply (IH (set_journal (journal w ++ l) w)).
Qed.

(** A timer whose callback raises: the exception is reported and the loop
    goes on. *)
Lemma fire_next_raises (w : World) (due : Z) (cb : callback) (ts : list (Z * callback))
    (e : exn) :
  timers w = (due, cb) :: ts ->
  run_callback cb (set_timers (Z.max (now w) due) ts w)
  = (Raised e, set_timers (Z.max (now w) due) ts w) ->
  fire_next w
  = Some (set_journal (journal w ++ [(Z.max (now w) due, Traceback e)])
            (set_timers (Z.max (now w) due) ts w)).
Proof. intros Htimers E. unfold fire_next. rewrite Htimers, E. reflexivity. Qed.

(** C1. In Line-by-Line mode, for every Return: the text captured is the
    line of the buffer the insert mark is in, from the newline before it (or
    the start of the text) to the newline after it (or the end), read before
    the newline of the Return goes into the widget at the insert mark.
    Carriage Return is handed to the live sender at once, and exactly three
    timers join the queue, in this order and with nothing else moved: Line
    Feed at +10 ms, the left margin at +20 ms, the captured text at +30 ms.
    When they fire, the first sends Line Feed, the second one Horizontal Tab
    per unit of the left margin then set, the third the UTF-8 encoding of
    the captured text in one piece.  With nothing else pending they fire in
    that order and the connections made are CR at +0, LF at +10, the tabs at
    +20 and the text at +30 (none at all while the port entry is no
    integer, and no text when the line cannot be encoded). *)
Theorem return_commit_sequence (w : World) :
  mode_var (vars w) = "Line-by-Line" ->
  let w1 := (handle_return w).2 in
  exists pre line post,
    text w = pre ++ line ++ post
    /\ (10 ∉ line)
    /\ (pre = [] \/ last pre = Some 10)
    /\ (post = [] \/ head post = Some 10)
    /\ (length pre <= Nat.min (insert_mark w) (length (text w))
        <= length pre + length line)%nat
    /\ text w1 = take (insert_mark w) (text w) ++ [10] ++ drop (insert_mark w) (text w)
    /\ added w w1 = stamp (now w) (send_trace "[Live Keystroke]" [x0d] w)
    /\ (exists q0 q1 q2 q3,
           timers w = q0 ++ q1 ++ q2 ++ q3
           /\ timers w1 = q0 ++ [(now w + 10, SendLive [x0a])]
                          ++ q1 ++ [(now w + 20, SendLeftMargin)]
                          ++ q2 ++ [(now w + 30, SendLineText line)] ++ q3)
    /\ (forall w', emits (run_callback (SendLive [x0a])) w'
                     (through_port w' [(now w', [x0a])]))
    /\ (forall w', emits (run_callback SendLeftMargin) w'
                     (through_port w'
                        (replicate (Z.to_nat (left_margin_count (vars w'))) (now w', [x09]))))
    /\ (forall w',
           match encode_utf8 line with
           | Returned encoded =>
               emits (run_callback (SendLineText line)) w'
                 (through_port w' [(now w', encoded)])
           | Raised e => run_callback (SendLineText line) w' = (Raised e, w')
           end)
    /\ (timers w = [] ->
        timers (run_timers 3 w1) = []
        /\ transmissions (added w (run_timers 3 w1))
           = through_port w
               ([(now w, [x0d]); (now w + 10, [x0a])]
                ++ replicate (Z.to_nat (left_margin_count (vars w))) (now w + 20, [x09])
                ++ match encode_utf8 line with
                   | Returned encoded => [(now w + 30, encoded)]
                   | Raised _ => []
                   end)).
Proof.
  intros Hmode w1.
  destruct (current_line_in_text (text w) (insert_mark w))
    as (pre & post & Htext & Hpre & Hpost & Hmark).
  exists pre, (current_line (text w) (insert_mark w)), post.
  assert (forall w',
             match encode_utf8 (current_line (text w) (insert_mark w)) with
             | Returned encoded =>
                 emits (run_callback (SendLineText (current_line (text w) (insert_mark w)))) w'
                   (through_port w' [(now w', encoded)])
             | Raised e =>
                 run_callback (SendLineText (current_line (text w) (insert_mark w))) w'
                 = (Raised e, w')
             end) as Htext_fires.
  { intros w'. cbn [run_callback].
    destruct (encode_utf8 (current_line (text w) (insert_mark w))) as [encoded | e].
    - run_monad. apply emits_send_live_any.
    - reflexivity. }
  subst w1. rewrite (handle_return_line_by_line w Hmode).
  destruct (update_line_length_display_frame (committed w)) as (r & len & bg & ->).
  cbn [snd]. set (w1 := set_shown_bg bg (set_shown_length len (committed w))).
  assert (journal w1 = journal w ++ stamp (now w) (send_trace "[Live Keystroke]" [x0d] w))
    as Hj1 by reflexivity.
  split; [exact Htext |]. split; [apply current_line_no_newline |].
  split; [exact Hpre |]. split; [exact Hpost |]. split; [exact Hmark |].
  split; [reflexivity |].
  split; [unfold added; rewrite Hj1; apply drop_app_length |].
  split.
  { destruct (enqueue_three (now w + 10) (now w + 20) (now w + 30) (SendLive [x0a])
                SendLeftMargin (SendLineText (current_line (text w) (insert_mark w)))
                (timers w) ltac:(lia) ltac:(lia)) as (q0 & q1 & q2 & q3 & Hq & Hen).
    exists q0, q1, q2, q3. split; [exact Hq | exact Hen]. }
  split; [intros w'; apply emits_send_live_any |].
  split; [intros w'; apply emits_send_left_margin_any |].
  split; [exact Htext_fires |].
  intros Htimers.
  assert (timers w1 = [(now w + 10, SendLive [x0a]);
                       (now w + 20, SendLeftMargin);
                       (now w + 30, SendLineText (current_line (text w) (insert_mark w)))])
    as Ht1.
  { subst w1. unfold committed. cbn. rewrite Htimers. cbn [enqueue].
    rewrite (proj2 (Z.leb_le (now w + 10) (now w + 20))) by lia. cbn [enqueue].
    rewrite (proj2 (Z.leb_le (now w + 10) (now w + 30))) by lia. cbn [enqueue].
    rewrite (proj2 (Z.leb_le (now w + 20) (now w + 30))) by lia. reflexivity. }
  (* Line Feed fires *)
  destruct (fire_next_emits w1 _ _ _ (through_port w [(now w + 10, [x0a])]) Ht1)
    as (l1 & F1 & T1).
  { replace (Z.max (now w1) (now w + 10)) with (now w + 10) by (subst w1; cbn; lia).
    exact (emits_send_live_any [x0a] (set_timers (now w + 10) _ w1)). }
  replace (Z.max (now w1) (now w + 10)) with (now w + 10) in F1 by (subst w1; cbn; lia).
  set (w2 := set_journal (journal w1 ++ l1) (set_timers (now w + 10) _ w1)) in F1.
  (* the left margin fires *)
  destruct (fire_next_emits w2 (now w + 20) SendLeftMargin
              [(now w + 30, SendLineText (current_line (text w) (insert_mark w)))]
              (through_port w
                 (replicate (Z.to_nat (left_margin_count (vars w))) (now w + 20, [x09])))
              eq_refl) as (l2 & F2 & T2).
  { replace (Z.max (now w2) (now w + 20)) with (now w + 20) by (subst w2 w1; cbn; lia).
    exact (emits_send_left_margin_any (set_timers (now w + 20) _ w2)). }
  replace (Z.max (now w2) (now w + 20)) with (now w + 20) in F2
    by (subst w2 w1; cbn; lia).
  set (w3 := set_journal (journal w2 ++ l2) (set_timers (now w + 20) _ w2)) in F2.
  (* the line text fires *)
  assert (Z.max (now w3) (now w + 30) = now w + 30) as Hmax3
    by (subst w3 w2 w1; cbn; lia).
  pose proof (Htext_fires (set_timers (now w + 30) [] w3)) as Hfire3.
  cbn [run_timers]. rewrite F1, F2.
  rewrite !through_port_app.
  destruct (encode_utf8 (current_line (text w) (insert_mark w))) as [encoded | e].
  - destruct (fire_next_emits w3 (now w + 30)
                (SendLineText (current_line (text w) (insert_mark w))) []
                (through_port w [(now w + 30, encoded)]) eq_refl) as (l3 & F3 & T3).
    { rewrite Hmax3. exact Hfire3. }
    rewrite Hmax3 in F3. rewrite F3.
    split; [reflexivity |].
    unfold added. cbn [journal set_journal]. subst w3 w2. cbn [journal set_journal set_timers].
    rewrite Hj1, <- !app_assoc, drop_app_length, !transmissions_app.
    rewrite transmissions_send_trace, T1, T2, T3.
    unfold through_port. destruct (py_int _); reflexivity.
  - rewrite (fire_next_raises w3 (now w + 30) _ [] e eq_refl)
      by (rewrite Hmax3; exact Hfire3).
    split; [reflexivity |].
    unfold added. cbn [journal set_journal]. subst w3 w2. cbn [journal set_journal set_timers].
    rewrite Hj1, <- !app_assoc, drop_app_length, !transmissions_app.
    rewrite transmissions_send_trace, T1, T2.
    unfold through_port. destruct (py_int _); cbn; rewrite ?app_nil_r; reflexivity.
Qed.

Lemma return_commit_sequence_witness :
  timers (handle_return page_world).2
  = [(1010, SendLive [x0a]); (1020, SendLeftMargin);
     (1030, SendLineText (str_of_string "HELLO"))]
  /\ transmissions (added page_world (run_timers 3 (handle_return page_world).2))
     = [(1000, [x0d]); (1010, [x0a]); (1020, [x09]); (1020, [x09]);
        (1030, [x48; x45; x4c; x4c; x4f])].
Proof.
  destruct (return_commit_sequence page_world eq_refl)
    as (pre & line & post & _ & _ & _ & _ & _ & _ & _ & Hqueue & _ & _ & _ & Hrun).
  destruct Hqueue as (q0 & q1 & q2 & q3 & Hq & Htimers).
  symmetry in Hq. apply app_eq_nil in Hq as [-> Hq]. apply app_eq_nil in Hq as [-> Hq].
  apply app_eq_nil in Hq as [-> ->].
  assert (line = str_of_string "HELLO") as ->.
  { vm_compute in Htimers. injection Htimers as <-. reflexivity. }
  split; [exact Htimers |]. exact (proj2 (Hrun eq_refl)).
Defined.

(** ** Float arithmetic: signs and ranges *)

Module FloatFacts.

Lemma digits_log2 (p : positive) : Zdigits2 (Zpos p) = Z.log2 (Zpos p) + 1.
Proof.
  assert (forall q, Zpos (digits2_pos q) = Zpos (Pos.size q)) as Hsize.
  { induction q as [q IH | q IH |]; cbn; [| | reflexivity];
      rewrite !Pos2Z.inj_succ, IH; reflexivity. }
  cbn [Zdigits2]. rewrite Hsize. destruct p; cbn [Z.log2 Pos.size]; lia.
Qed.

Lemma digits_nonneg (m : Z) : 0 <= Zdigits2 m.
Proof. destruct m; cbn; lia. Qed.

Lemma digits_mono (a b : Z) : 0 <= a <= b -> Zdigits2 a <= Zdigits2 b.
Proof.
  intros [Ha Hab]. destruct a as [| p |]; [apply digits_nonneg | | lia].
  destruct b as [| q |]; [lia | | lia].
  rewrite !digits_log2. pose proof (Z.log2_le_mono (Zpos p) (Zpos q) Hab). lia.
Qed.

Lemma digits_succ (a : Z) : 0 <= a -> Zdigits2 (a + 1) <= Zdigits2 a + 1.
Proof.
  intros Ha. destruct a as [| p |]; [change (1 <= 0 + 1); lia | | lia].
  replace (Zpos p + 1) with (Zpos (p + 1)) by lia.
  rewrite !digits_log2.
  pose proof (Z.log2_succ_le (Zpos p)).
  replace (Z.succ (Zpos p)) with (Zpos (p + 1)) in * by lia. lia.
Qed.

Lemma digits_below (a k : Z) : 0 <= k -> 0 <= a < 2 ^ k -> Zdigits2 a <= k.
Proof.
  intros Hk [Ha Hlt]. destruct a as [| p |]; [cbn; lia | | lia].
  rewrite digits_log2.
  assert (Z.log2 (Zpos p) < k) by (apply Z.log2_lt_pow2; lia). lia.
Qed.

Lemma digits_iter_xO (p d : positive) :
  Zdigits2 (Zpos (Pos.iter xO p d)) = Zdigits2 (Zpos p) + Zpos d.
Proof.
  induction d as [| d IH] using Pos.peano_ind.
  - cbn. lia.
  - rewrite Pos.iter_succ. cbn [Zdigits2 digits2_pos] in *. lia.
Qed.

Lemma shr_1_bounds (r : shr_record) :
  0 <= shr_m r -> 0 <= shr_m (shr_1 r) <= shr_m r.
Proof. destruct r as [[| [p | p |] | p] rb sb]; cbn; lia. Qed.

Lemma iter_shr_1_bounds (p : positive) (r : shr_record) :
  0 <= shr_m r -> 0 <= shr_m (SpecFloat.iter_pos shr_1 p r) <= shr_m r.
Proof.
  revert r. induction p as [p IH | p IH |]; intros r Hr; cbn [SpecFloat.iter_pos].
  - pose proof (shr_1_bounds r Hr) as H1.
    pose proof (IH _ (proj1 H1)) as H2. pose proof (IH _ (proj1 H2)). lia.
  - pose proof (IH r Hr) as H1. pose proof (IH _ (proj1 H1)). lia.
  - apply shr_1_bounds, Hr.
Qed.

Lemma shr_bounds (r : shr_record) (e k : Z) :
  0 <= shr_m r ->
  0 <= shr_m (shr r e k).1 <= shr_m r /\ (shr r e k).2 = e + Z.max 0 k.
Proof.
  intros Hr. destruct k as [| p | p]; cbn [shr fst snd]; try lia.
  split; [apply iter_shr_1_bounds, Hr | lia].
Qed.

Lemma shr_fexp_bounds (m e : Z) (l : location) :
  0 <= m ->
  0 <= shr_m (shr_fexp prec emax m e l).1 <= m
  /\ (shr_fexp prec emax m e l).2 = Z.max e (fexp prec emax (Zdigits2 m + e)).
Proof.
  intros Hm. unfold shr_fexp.
  assert (shr_m (shr_record_of_loc m l) = m) as Hrec by (destruct l as [| []]; reflexivity).
  pose proof (shr_bounds (shr_record_of_loc m l) e
                (fexp prec emax (Zdigits2 m + e) - e)) as H.
  rewrite Hrec in H. specialize (H Hm). lia.
Qed.

Lemma round_nearest_even_bounds (m : Z) (l : location) :
  m <= round_nearest_even m l <= m + 1.
Proof. destruct l as [| []]; cbn; try lia. destruct (Z.even m); lia. Qed.

Lemma fexp_mono (x y : Z) : x <= y -> fexp prec emax x <= fexp prec emax y.
Proof. unfold fexp. lia. Qed.

(** Rounding a non-negative mantissa keeps the sign, never gives a NaN, and
    overflows only when the exponent bound below is out of range. *)
Lemma binary_round_aux_shape (s : bool) (m e : Z) (l : location) :
  0 <= m ->
  match binary_round_aux prec emax s m e l with
  | S754_zero s' => s' = s
  | S754_finite s' _ _ => s' = s
  | S754_infinity s' =>
      s' = s
      /\ emax - prec
         < Z.max (Z.max e (fexp prec emax (Zdigits2 m + e)))
                 (fexp prec emax
                    (Zdigits2 m + 1 + Z.max e (fexp prec emax (Zdigits2 m + e))))
  | S754_nan => False
  end.
Proof.
  intros Hm. unfold binary_round_aux.
  pose proof (shr_fexp_bounds m e l Hm) as [H1m H1e].
  destruct (shr_fexp prec emax m e l) as [r1 e1]. cbn [fst snd] in H1m, H1e.
  pose proof (round_nearest_even_bounds (shr_m r1) (loc_of_shr_record r1)) as Hr.
  set (m2 := round_nearest_even (shr_m r1) (loc_of_shr_record r1)) in *.
  assert (0 <= m2) as Hm2 by lia.
  pose proof (shr_fexp_bounds m2 e1 loc_Exact Hm2) as [H2m H2e].
  destruct (shr_fexp prec emax m2 e1 loc_Exact) as [r2 e2]. cbn [fst snd] in H2m, H2e.
  destruct (shr_m r2) as [| p | p]; [reflexivity | | lia].
  destruct (e2 <=? emax - prec) eqn:Hle; [reflexivity |].
  split; [reflexivity |]. apply Z.leb_gt in Hle.
  assert (Zdigits2 m2 <= Zdigits2 m + 1) as Hd.
  { pose proof (digits_mono m2 (m + 1) ltac:(lia)).
    pose proof (digits_succ m Hm). lia. }
  pose proof (fexp_mono (Zdigits2 m2 + e1) (Zdigits2 m + 1 + e1) ltac:(lia)).
  subst e1. lia.
Qed.

(** An integer below 2^63 in absolute value rounds to a zero or a finite
    float of its sign. *)
Lemma float_round_int_shape (n : Z) :
  Z.abs n < 2 ^ 63 ->
  match float_round_int n with
  | S754_zero s | S754_finite s _ _ => s = (n <? 0)
  | _ => False
  end.
Proof.
  intros Hn. unfold float_round_int, binary_normalize.
  destruct n as [| p | p]; [reflexivity | |].
  all: unfold binary_round, shl_align.
  all: pose proof (digits_below (Zpos p) 63 ltac:(lia) ltac:(lia)) as Hd.
  all: pose proof (digits_log2 p) as Hlog; pose proof (Z.log2_nonneg (Zpos p)) as Hl0.
  all: change (Zpos (digits2_pos p)) with (Zdigits2 (Zpos p)).
  all: destruct (fexp prec emax (Zdigits2 (Zpos p) + 0) - 0) as [| d | d] eqn:Hsh.
  all: match goal with
       | |- context [binary_round_aux prec emax ?s (Zpos ?mz) ?ez ?l] =>
           pose proof (binary_round_aux_shape s (Zpos mz) ez l ltac:(lia)) as Hshape;
           destruct (binary_round_aux prec emax s (Zpos mz) ez l);
           try exact Hshape; try contradiction
       end.
  all: destruct Hshape as [_ Hover]; revert Hover;
       rewrite ?digits_iter_xO; unfold fexp, emin, prec, emax in *; lia.
Qed.

Lemma float_of_int_returns (n : Z) :
  Z.abs n < 2 ^ 63 ->
  exists x, float_of_int n = Returned x
            /\ match x with
               | S754_zero s | S754_finite s _ _ => s = (n <? 0)
               | _ => False
               end.
Proof.
  intros Hn. pose proof (float_round_int_shape n Hn) as H. unfold float_of_int.
  destruct (float_round_int n) as [s | s | | s m e]; try contradiction; eauto.
Qed.

Lemma plus_signed_ge_zero (x : float) : plus_signed x = true -> fle fzero x = true.
Proof. destruct x as [[] | [] | | [] m e]; cbn; congruence. Qed.

Lemma binary_round_aux_plus (m e : Z) (l : location) :
  0 <= m -> plus_signed (binary_round_aux prec emax false m e l) = true.
Proof.
  intros Hm. pose proof (binary_round_aux_shape false m e l Hm) as H.
  destruct (binary_round_aux prec emax false m e l) as [s | s | | s m' e'].
  - subst s. reflexivity.
  - destruct H as [-> _]. reflexivity.
  - contradiction.
  - subst s. reflexivity.
Qed.

Lemma f_eight_value : f_eight = S754_finite false 4503599627370496 (-49).
Proof. vm_compute. reflexivity. Qed.

Lemma f_two_value : f_two = S754_finite false 4503599627370496 (-51).
Proof. vm_compute. reflexivity. Qed.

Lemma plus_signed_fmul_eight (x : float) :
  plus_signed x = true -> plus_signed (fmul f_eight x) = true.
Proof.
  rewrite f_eight_value. destruct x as [[] | [] | | [] m e]; cbn; try congruence.
  intros _. apply binary_round_aux_plus. lia.
Qed.

(** A quotient of plus-signed floats is plus-signed, unless it is 0/0 or
    inf/inf. *)
Lemma plus_signed_fdiv (x y : float) :
  plus_signed x = true ->
  plus_signed y = true ->
  feq y fzero = false ->
  (forall s, x <> S754_infinity s) \/ (forall s, y <> S754_infinity s) ->
  plus_signed (fdiv x y) = true.
Proof.
  destruct x as [[] | [] | | [] mx ex], y as [[] | [] | | [] my ey]; cbn;
    try congruence; intros _ _ _ Hinf.
  - destruct Hinf as [H | H]; exfalso; eapply H; reflexivity.
  - unfold SFdiv_core_binary.
    set (m' := match _ - _ - _ with Z0 => Zpos mx | Zpos _ => _ | Zneg _ => 0 end).
    assert (0 <= m') as Hm'.
    { subst m'. destruct (_ - _ - _) as [| d | d]; [lia | | lia].
      apply Z.shiftl_nonneg. lia. }
    pose proof (Z.div_pos m' (Zpos my) Hm' ltac:(lia)) as Hq.
    unfold Z.div in Hq. destruct (Z.div_eucl m' (Zpos my)) as [q r].
    apply binary_round_aux_plus, Hq.
Qed.

Lemma plus_signed_fadd (x y : float) :
  plus_signed x = true -> plus_signed y = true -> plus_signed (fadd x y) = true.
Proof.
  destruct x as [[] | [] | | [] mx ex], y as [[] | [] | | [] my ey]; cbn;
    try congruence; intros _ _.
  match goal with |- context [Zpos ?a + Zpos ?b] =>
    change (Zpos a + Zpos b) with (Zpos (a + b)) end.
  cbn [binary_normalize]. unfold binary_round.
  match goal with |- context [shl_align ?a ?b ?c] =>
    destruct (shl_align a b c) as [mz ez] end.
  apply binary_round_aux_plus. lia.
Qed.

(** [x < y] excludes [y <= x]. *)
Lemma flt_not_fle (x y : float) : flt x y = true -> fle y x = false.
Proof.
  unfold flt, fle, SFltb, SFleb.
  destruct x as [sx | sx | | sx mx ex], y as [sy | sy | | sy my ey];
    cbn; try destruct sx; try destruct sy; try congruence.
  all: rewrite (Z.compare_antisym ex ey);
       destruct (ex ?= ey) eqn:He; cbn; try congruence.
  all: change (Pos.compare_cont Eq my mx) with (my ?= mx)%positive;
       change (Pos.compare_cont Eq mx my) with (mx ?= my)%positive;
       rewrite (Pos.compare_antisym mx my);
       destruct (mx ?= my)%positive; cbn; intros H;
       first [discriminate H | reflexivity].
Qed.

(** A float below zero is below one half. *)
Lemma f_half_value : f_half = S754_finite false 4503599627370496 (-53).
Proof. vm_compute. reflexivity. Qed.

Lemma negative_not_above_half (x : float) : flt x fzero = true -> fle f_half x = false.
Proof.
  rewrite f_half_value.
  destruct x as [[] | [] | | [] m e]; cbn; intros H; first [discriminate H | reflexivity].
Qed.

End FloatFacts.

(** ** C3, C4, C5: line metrics *)

Lemma float_of_int_value (n : Z) (x : float) :
  float_of_int n = Returned x -> x = float_round_int n.
Proof.
  unfold float_of_int. destruct (float_round_int n); intros H;
    first [discriminate H | injection H as <-; reflexivity].
Qed.

(** The length computed, once both integers have been converted. *)
Lemma line_length_cases (char_count left_margin : Z) (c eff m k : float) :
  float_of_int left_margin = Returned m ->
  float_of_int char_count = Returned k ->
  line_length char_count left_margin c eff
  = Returned (if feq c fzero then fzero
              else if feq eff fzero then fzero
              else fadd (fdiv (fmul f_eight m) c) (fdiv k eff)).
Proof.
  intros Hm Hk. unfold line_length, line_length_expr.
  rewrite Hm. cbn [obind]. unfold py_truediv.
  destruct (feq c fzero); [reflexivity |]. cbn [obind]. rewrite Hk. cbn [obind].
  destruct (feq eff fzero); reflexivity.
Qed.

Lemma positive_not_zero (c : float) : flt fzero c = true -> feq c fzero = false.
Proof. destruct c as [[] | [] | | [] m e]; cbn; intros H; first [discriminate H | reflexivity]. Qed.

(** C3, as the code has it.  For [numericCpi > 0] whose effective CPI is not
    zero, and integers that fit a float, the length is the stated formula
    and the background follows the gap: OK (green) when [gap >= 0.5], WARN
    (yellow) when [0 <= gap < 0.5], OVER (red) when [gap < 0]. *)
Theorem line_metrics_formula (charCount leftMarginTabs : Z) (numericCpi : float)
    (doubleWide : bool) (rightMarginInches : float) :
  flt fzero numericCpi = true ->
  feq (effective_cpi numericCpi doubleWide) fzero = false ->
  Z.abs leftMarginTabs < 2 ^ 63 ->
  Z.abs charCount < 2 ^ 63 ->
  let length := stated_length charCount leftMarginTabs numericCpi doubleWide in
  let gap := fsub rightMarginInches length in
  exists bg,
    LineMetrics_compute charCount leftMarginTabs (Some numericCpi) doubleWide
      (Some rightMarginInches) = Returned (length, bg)
    /\ (fle f_half gap = true -> bg = green)
    /\ (fle fzero gap = true -> flt gap f_half = true -> bg = yellow)
    /\ (flt gap fzero = true -> bg = red).
Proof.
  intros Hpos Heff Htabs Hcount length gap.
  destruct (FloatFacts.float_of_int_returns leftMarginTabs Htabs) as (m & Hm & _).
  destruct (FloatFacts.float_of_int_returns charCount Hcount) as (k & Hk & _).
  unfold LineMetrics_compute. cbn [from_option id].
  rewrite (line_length_cases _ _ _ _ m k Hm Hk), (positive_not_zero _ Hpos), Heff.
  cbn [obind].
  rewrite (float_of_int_value _ _ Hm), (float_of_int_value _ _ Hk).
  change (fadd _ _) with length. fold gap.
  eexists. split; [reflexivity |]. unfold bg_of_gap.
  split; [intros ->; reflexivity |]. split.
  - intros H0 Hhalf. rewrite (FloatFacts.flt_not_fle _ _ Hhalf), H0, Hhalf. reflexivity.
  - intros Hneg.
    rewrite (FloatFacts.negative_not_above_half _ Hneg), (FloatFacts.flt_not_fle _ _ Hneg).
    reflexivity.
Qed.

Lemma line_metrics_formula_witness :
  LineMetrics_compute 80 0 (Some f_ten) true (Some f_seven_half)
  = Returned (float_lit "16.0", red)
  /\ LineMetrics_compute 40 0 (Some f_ten) false (Some f_seven_half)
     = Returned (float_lit "4.0", green).
Proof.
  split.
  - destruct (line_metrics_formula 80 0 f_ten true f_seven_half
                eq_refl eq_refl ltac:(vm_compute; reflexivity) ltac:(vm_compute; reflexivity))
      as (bg & -> & _ & _ & Hred).
    rewrite (Hred ltac:(vm_compute; reflexivity)). vm_compute. reflexivity.
  - destruct (line_metrics_formula 40 0 f_ten false f_seven_half
                eq_refl eq_refl ltac:(vm_compute; reflexivity) ltac:(vm_compute; reflexivity))
      as (bg & -> & Hgreen & _ & _).
    rewrite (Hgreen ltac:(vm_compute; reflexivity)). vm_compute. reflexivity.
Defined.

(** The smallest positive float as CPI, with Double Wide: halving it gives
    0.0, the division by it is caught, and the length shown is 0.0 (OK),
    where the stated formula gives +inf (OVER). *)
Lemma halved_smallest_cpi_gives_zero_length :
  parse_cpi "5e-324 cpi" = Some (S754_finite false 1 (-1074))
  /\ flt fzero (S754_finite false 1 (-1074)) = true
  /\ LineMetrics_compute 80 0 (Some (S754_finite false 1 (-1074))) true (Some f_seven_half)
     = Returned (fzero, green)
  /\ stated_length 80 0 (S754_finite false 1 (-1074)) true = S754_infinity false
  /\ LineMetrics_compute 80 0 (Some (S754_finite false 1 (-1074))) true (Some f_seven_half)
     <> Returned (stated_length 80 0 (S754_finite false 1 (-1074)) true, red).
Proof. vm_compute. repeat split; discriminate. Qed.

Lemma LineMetrics_compute_cases (charCount leftMarginTabs : Z) (numericCpi : option float)
    (doubleWide : bool) (rightMarginInches : option float) (m k : float) :
  float_of_int leftMarginTabs = Returned m ->
  float_of_int charCount = Returned k ->
  let c := default f_ten numericCpi in
  let eff := effective_cpi c doubleWide in
  let length :=
    if feq c fzero then fzero
    else if feq eff fzero then fzero
    else fadd (fdiv (fmul f_eight m) c) (fdiv k eff) in
  LineMetrics_compute charCount leftMarginTabs numericCpi doubleWide rightMarginInches
  = Returned (length, bg_of_gap (fsub (default f_seven_half rightMarginInches) length)).
Proof.
  intros Hm Hk c eff length. unfold LineMetrics_compute.
  fold c. fold eff. rewrite (line_length_cases _ _ c eff m k Hm Hk). reflexivity.
Qed.

(** C4, as the code has it.  An unparsable CPI is replaced by 10.0 before
    the length is computed, and the result is the stated formula at 10.0.  A
    CPI of zero is not replaced: the division by it is caught and the length
    is 0.0.  Neither case raises, for integers that fit a float. *)
Theorem unparsable_cpi_is_ten_zero_cpi_is_guarded (charCount leftMarginTabs : Z)
    (doubleWide : bool) (rightMarginInches : option float) :
  Z.abs leftMarginTabs < 2 ^ 63 ->
  Z.abs charCount < 2 ^ 63 ->
  LineMetrics_compute charCount leftMarginTabs None doubleWide rightMarginInches
  = LineMetrics_compute charCount leftMarginTabs (Some f_ten) doubleWide rightMarginInches
  /\ (exists bg,
        LineMetrics_compute charCount leftMarginTabs None doubleWide rightMarginInches
        = Returned (stated_length charCount leftMarginTabs f_ten doubleWide, bg))
  /\ (forall zero, feq zero fzero = true ->
        LineMetrics_compute charCount leftMarginTabs (Some zero) doubleWide rightMarginInches
        = Returned (fzero, bg_of_gap (fsub (default f_seven_half rightMarginInches) fzero))).
Proof.
  intros Htabs Hcount.
  destruct (FloatFacts.float_of_int_returns leftMarginTabs Htabs) as (m & Hm & _).
  destruct (FloatFacts.float_of_int_returns charCount Hcount) as (k & Hk & _).
  split; [reflexivity |]. split.
  - rewrite (LineMetrics_compute_cases _ _ None _ _ m k Hm Hk). cbn [from_option id].
    change (feq f_ten fzero) with false. cbv iota.
    assert (feq (effective_cpi f_ten doubleWide) fzero = false) as ->
      by (destruct doubleWide; vm_compute; reflexivity).
    rewrite (float_of_int_value _ _ Hm), (float_of_int_value _ _ Hk).
    eexists. reflexivity.
  - intros zero Hzero.
    rewrite (LineMetrics_compute_cases _ _ (Some zero) _ _ m k Hm Hk). cbn [from_option id].
    rewrite Hzero. reflexivity.
Qed.

Lemma unparsable_cpi_is_ten_zero_cpi_is_guarded_witness :
  LineMetrics_compute 10 1 (parse_cpi "Double Wide") false (Some f_seven_half)
  = Returned (float_lit "1.8", green)
  /\ LineMetrics_compute 10 1 (parse_cpi "0 cpi") false (Some f_seven_half)
     = Returned (fzero, green).
Proof.
  destruct (unparsable_cpi_is_ten_zero_cpi_is_guarded 10 1 false (Some f_seven_half)
              ltac:(vm_compute; reflexivity) ltac:(vm_compute; reflexivity))
    as (_ & (bg & Hnone) & Hzero).
  split.
  - change (parse_cpi "Double Wide") with (@None float). rewrite Hnone.
    vm_compute in Hnone. injection Hnone as <-. vm_compute. reflexivity.
  - change (parse_cpi "0 cpi") with (Some fzero). rewrite (Hzero fzero eq_refl).
    vm_compute. reflexivity.
Defined.

(** With a CPI of 0 the code does not compute with 10.0: ten characters
    behind one tab stop show a length of 0.0, where 10.0 would give 1.8. *)
Lemma zero_cpi_is_not_replaced_by_ten :
  parse_cpi "0 cpi" = Some fzero
  /\ LineMetrics_compute 10 1 (Some fzero) false (Some f_seven_half)
     = Returned (fzero, green)
  /\ LineMetrics_compute 10 1 (Some f_ten) false (Some f_seven_half)
     = Returned (float_lit "1.8", green)
  /\ LineMetrics_compute 10 1 (Some fzero) false (Some f_seven_half)
     <> LineMetrics_compute 10 1 (Some f_ten) false (Some f_seven_half).
Proof. vm_compute. repeat split; discriminate. Qed.

(** C5, as the code has it.  For integers that fit a float the computation
    never raises, whatever the CPI and the right margin are.  The length is
    not below zero when the left margin is not negative and the CPI is
    unparsable or a finite number that is not negative; and a CPI of zero
    gives the length 0.0. *)
Theorem line_metrics_total (charCount leftMarginTabs : Z) (numericCpi : option float)
    (doubleWide : bool) (rightMarginInches : option float) :
  Z.abs leftMarginTabs < 2 ^ 63 ->
  0 <= charCount < 2 ^ 63 ->
  exists length bg,
    LineMetrics_compute charCount leftMarginTabs numericCpi doubleWide rightMarginInches
    = Returned (length, bg)
    /\ (0 <= leftMarginTabs ->
        match numericCpi with
        | Some c => nonneg_finite c = true
        | None => True
        end ->
        fle fzero length = true)
    /\ (forall c, numericCpi = Some c -> feq c fzero = true -> length = fzero).
Proof.
  intros Htabs Hcount.
  destruct (FloatFacts.float_of_int_returns leftMarginTabs Htabs) as (m & Hm & Hms).
  destruct (FloatFacts.float_of_int_returns charCount ltac:(lia)) as (k & Hk & Hks).
  rewrite (LineMetrics_compute_cases _ _ numericCpi doubleWide rightMarginInches m k Hm Hk).
  set (c := default f_ten numericCpi).
  set (eff := effective_cpi c doubleWide).
  eexists. eexists. split; [reflexivity |]. split.
  - intros Hnonneg Hcpi.
    destruct (feq c fzero) eqn:Hc0; [reflexivity |].
    destruct (feq eff fzero) eqn:He0; [reflexivity |].
    apply FloatFacts.plus_signed_ge_zero.
    assert (plus_signed m = true) as Hmp.
    { destruct m as [s | s | | s mm me]; try contradiction;
        rewrite Hms, (proj2 (Z.ltb_ge _ _) Hnonneg); reflexivity. }
    assert (plus_signed k = true /\ forall s, k <> S754_infinity s) as [Hkp Hkf].
    { destruct k as [s | s | | s km ke]; try contradiction;
        rewrite Hks, (proj2 (Z.ltb_ge _ _) (proj1 Hcount)); split;
        first [reflexivity | discriminate]. }
    assert (plus_signed c = true /\ forall s, c <> S754_infinity s) as [Hcp Hcf].
    { subst c. destruct numericCpi as [c |]; cbn [from_option id] in *.
      - destruct c as [[] | [] | | [] cm ce]; try discriminate Hcpi; try discriminate Hc0;
          split; first [reflexivity | discriminate].
      - split; [vm_compute; reflexivity | intros s; vm_compute; discriminate]. }
    assert (plus_signed eff = true) as Hep.
    { subst eff. unfold effective_cpi. destruct doubleWide; [| exact Hcp].
      apply FloatFacts.plus_signed_fdiv;
        [exact Hcp | vm_compute; reflexivity | vm_compute; reflexivity | left; exact Hcf]. }
    apply FloatFacts.plus_signed_fadd.
    + apply FloatFacts.plus_signed_fdiv;
        [apply FloatFacts.plus_signed_fmul_eight, Hmp | exact Hcp | exact Hc0
        | right; exact Hcf].
    + apply FloatFacts.plus_signed_fdiv; [exact Hkp | exact Hep | exact He0 | left; exact Hkf].
  - intros c' -> Hzero. subst c. cbn [from_option id]. rewrite Hzero. reflexivity.
Qed.

Lemma line_metrics_total_witness :
  exists length bg,
    LineMetrics_compute 40 20 (parse_cpi "20 cpi") true (Some f_seven_half)
    = Returned (length, bg)
    /\ fle fzero length = true.
Proof.
  destruct (line_metrics_total 40 20 (parse_cpi "20 cpi") true (Some f_seven_half)
              ltac:(vm_compute; reflexivity)
              ltac:(split; [discriminate | vm_compute; reflexivity]))
    as (length & bg & Hcomp & Hge & _).
  exists length, bg. split; [exact Hcomp |].
  apply Hge; [discriminate | vm_compute; reflexivity].
Defined.

(** The length is below zero for a negative CPI, and not a number for the
    CPI text [nan], which [float] accepts. *)
Lemma negative_or_nan_cpi_length_not_above_zero :
  (parse_cpi "-10 cpi" = Some (float_lit "-10.0")
   /\ LineMetrics_compute 40 0 (Some (float_lit "-10.0")) false (Some f_seven_half)
      = Returned (float_lit "-4.0", green)
   /\ fle fzero (float_lit "-4.0") = false)
  /\ (parse_cpi "nan cpi" = Some S754_nan
      /\ LineMetrics_compute 40 0 (Some S754_nan) false (Some f_seven_half)
         = Returned (S754_nan, red)
      /\ fle fzero S754_nan = false).
Proof. vm_compute. repeat split. Qed.

(** An integer beyond the float range does raise: the conversion of the
    left margin fails with [OverflowError], which no handler catches. *)
Example huge_left_margin_overflows :
  LineMetrics_compute 0 (2 ^ 1024) (Some f_ten) false (Some f_seven_half)
  = Raised OverflowError.
Proof. vm_compute. reflexivity. Qed.


(** * Further properties of the code *)

(** ** Computations that stay within a relation *)

Section Respects.
Context (R : World -> World -> Prop) `{!PreOrder R}.

Lemma respects_ret {A : Type} (a : A) : respects R (ret a).
Proof. intros w. reflexivity. Qed.

Lemma respects_lift {A : Type} (o : outcome A) : respects R (lift o).
Proof. intros w. reflexivity. Qed.

Lemma respects_var {A : Type} (field : TkVars -> A) : respects R (var field).
Proof. intros w. reflexivity. Qed.

Lemma respects_bind {A B : Type} (m : M A) (k : A -> M B) :
  respects R m -> (forall a, respects R (k a)) -> respects R (bind m k).
Proof.
  intros Hm Hk w. unfold bind. specialize (Hm w).
  destruct (m w) as [[a | e] w']; cbn [snd] in *; [| exact Hm].
  etransitivity; [exact Hm | apply Hk].
Qed.

Lemma respects_when (b : bool) (m : M unit) : respects R m -> respects R (when b m).
Proof. intros Hm. destruct b; [exact Hm | apply respects_ret]. Qed.

Lemma respects_for_range (count : nat) (body : M unit) :
  respects R body -> respects R (for_range count body).
Proof.
  intros Hbody. induction count as [| n IH]; cbn [for_range].
  - apply respects_ret.
  - apply respects_bind; [exact Hbody | intros _; exact IH].
Qed.

Lemma respects_handle_keys (evs : list KeyEvent) :
  (forall ev, respects R (handle_key ev)) -> respects R (handle_keys evs).
Proof.
  intros Hkey. induction evs as [| ev evs IH]; cbn [handle_keys].
  - apply respects_ret.
  - apply respects_bind; [apply Hkey | intros _; exact IH].
Qed.
End Respects.

#[local] Instance logged_preorder : PreOrder logged.
Proof.
  split.
  - intros w. unfold logged. repeat split; reflexivity.
  - intros w1 w2 w3 (Hv & Ht & Hi & Hn & Htm & Hnet & Hj)
      (Hv' & Ht' & Hi' & Hn' & Htm' & Hnet' & Hj').
    unfold logged. repeat split; try congruence. etransitivity; eassumption.
Qed.

#[local] Instance muted_preorder : PreOrder muted.
Proof.
  split.
  - intros w. split; [reflexivity | intros _; reflexivity].
  - intros w1 w2 w3 (Hv & Hj) (Hv' & Hj'). split; [congruence |].
    intros Hport. rewrite Hj', Hj; [reflexivity | exact Hport |]. rewrite Hv. exact Hport.
Qed.

(** Takes a computation apart along its binds and branches, down to the
    computations the hypotheses speak of. *)
Ltac respects_tac :=
  repeat match goal with
    | |- respects _ (ret _) => apply respects_ret; tc_solve
    | |- respects _ (lift _) => apply respects_lift; tc_solve
    | |- respects _ (var _) => apply respects_var; tc_solve
    | |- respects _ (when _ _) => apply respects_when; [tc_solve |]
    | |- respects _ (for_range _ _) => apply respects_for_range; [tc_solve |]
    | |- respects _ (bind _ _) => apply respects_bind; [tc_solve | | intros ?]
    | |- respects _ (if ?b then _ else _) => destruct b
    | |- respects _ (match ?x with _ => _ end) => destruct x
    | H : respects ?R ?m |- respects ?R ?m => exact H
    | H : forall x, respects ?R (?f x) |- respects ?R (?f _) => apply H
    | H : forall x y, respects ?R (?f x y) |- respects ?R (?f _ _) => apply H
    | H : forall x y z, respects ?R (?f x y z) |- respects ?R (?f _ _ _) => apply H
    end.

(** What the senders and the refresh of the label respect, every handler
    bound to a control or to a key other than Return respects. *)
Section Handlers.
Context (R : World -> World -> Prop) `{!PreOrder R}.
Hypothesis R_send_command_immediately :
  forall data tag, respects R (send_command_immediately data tag).
Hypothesis R_send_live_command : forall data, respects R (send_live_command data).
Hypothesis R_restore_defaults : respects R restore_defaults.
Hypothesis R_update_line_length_display : respects R update_line_length_display.

Lemma respects_apply_cpi : respects R apply_cpi.
Proof. unfold apply_cpi. respects_tac. Qed.

Lemma respects_send_all_defaults : respects R send_all_defaults.
Proof.
  pose proof respects_apply_cpi.
  unfold send_all_defaults, apply_font, apply_spacing, apply_quality, apply_speed,
    apply_double_height, apply_proportional, apply_skip_over_perforation.
  respects_tac.
Qed.

Lemma respects_control_commands : Forall (respects R) control_commands.
Proof.
  pose proof respects_apply_cpi. pose proof respects_send_all_defaults.
  unfold control_commands, manual_buttons. cbn [map app].
  repeat (apply Forall_cons; split;
          [first [assumption
                 | unfold toggle_italic, toggle_emphasized, apply_underline,
                     apply_unidirectional, toggle_enhanced, apply_double_height,
                     apply_proportional, toggle_double_wide, apply_zero, apply_font,
                     apply_spacing, apply_quality, apply_speed,
                     apply_skip_over_perforation, send_manual_command, send_shift;
                   respects_tac] |]).
  apply Forall_nil. exact I.
Qed.

Lemma respects_handle_key (ev : KeyEvent) : respects R (handle_key ev).
Proof. unfold handle_key. respects_tac. Qed.

Lemma respects_send_left_margin : respects R send_left_margin.
Proof. unfold send_left_margin. respects_tac. Qed.

Lemma respects_run_callback (cb : callback) : respects R (run_callback cb).
Proof.
  pose proof respects_send_left_margin. pose proof respects_send_all_defaults.
  destruct cb; cbn [run_callback]; respects_tac.
Qed.

Hypothesis R_after : forall ms cb, respects R (after ms cb).
Hypothesis R_insert_newline : respects R insert_newline.

Lemma respects_handle_return : respects R handle_return.
Proof.
  unfold handle_return. respects_tac; intros w; reflexivity.
Qed.
End Handlers.

(** *** The journal only grows *)

Lemma logged_emit (e : event) : respects logged (emit e).
Proof.
  intros w. unfold logged. cbn. repeat split; try reflexivity. apply prefix_app_r. reflexivity.
Qed.

Lemma logged_connect_and_send (ip : string) (port : Z) (data : bytes) :
  respects logged (connect_and_send ip port data).
Proof.
  intros w. unfold logged. cbn. repeat split; try reflexivity. apply prefix_app_r. reflexivity.
Qed.

Lemma logged_update_line_length_display : respects logged update_line_length_display.
Proof.
  intros w. destruct (update_line_length_display_frame w) as (r & len & bg & ->).
  unfold logged. cbn. repeat split; reflexivity.
Qed.

Lemma logged_send_command_immediately (data : bytes) (tag : string) :
  respects logged (send_command_immediately data tag).
Proof.
  pose proof logged_emit. pose proof logged_connect_and_send.
  unfold send_command_immediately. respects_tac.
Qed.

Lemma logged_send_live_command (data : bytes) : respects logged (send_live_command data).
Proof. exact (logged_send_command_immediately data "[Live Keystroke]"). Qed.

Lemma logged_restore_defaults : respects logged restore_defaults.
Proof.
  pose proof logged_emit. pose proof logged_connect_and_send.
  unfold restore_defaults. respects_tac.
Qed.

(** *** The event loop *)

Lemma fire_next_logged (w : World) (due : Z) (cb : callback) (ts : list (Z * callback)) :
  timers w = (due, cb) :: ts ->
  exists w', fire_next w = Some w'
    /\ timers w' = ts /\ now w' = Z.max (now w) due
    /\ vars w' = vars w /\ text w' = text w /\ insert_mark w' = insert_mark w
    /\ journal w `prefix_of` journal w'.
Proof.
  intros Htimers. unfold fire_next. rewrite Htimers.
  pose proof (logged_send_command_immediately) as H1.
  pose proof (logged_send_live_command) as H2.
  pose proof (logged_restore_defaults) as H3.
  pose proof (logged_update_line_length_display) as H4.
  pose proof (respects_run_callback logged H1 H2 H3 cb
                (set_timers (Z.max (now w) due) ts w)) as Hcb.
  destruct (run_callback cb _) as [[[] | e] w']; cbn [snd] in Hcb;
    destruct Hcb as (Hv & Ht & Hi & Hn & Htm & _ & Hj); cbn in Hv, Ht, Hi, Hn, Htm, Hj;
    eexists; (split; [reflexivity |]); cbn; repeat split; try assumption.
  etransitivity; [exact Hj | apply prefix_app_r; reflexivity].
Qed.

(** X3. The callbacks schedule nothing: after as many firings as there are
    waiting timers the queue is empty, and more turns of the loop change
    nothing.  Meanwhile the Tk variables and the text are as they were, the
    clock has not gone back and the journal has kept all its entries. *)
Theorem event_loop_drains_the_queue (w : World) (more : nat) :
  let w' := run_timers (length (timers w) + more) w in
  timers w' = []
  /\ w' = run_timers (length (timers w)) w
  /\ vars w' = vars w /\ text w' = text w /\ insert_mark w' = insert_mark w
  /\ now w <= now w'
  /\ journal w `prefix_of` journal w'.
Proof.
  cbv zeta. remember (length (timers w)) as n eqn:Hn. revert w Hn.
  induction n as [| n IH]; intros w Hn.
  - destruct (timers w) as [| t ts] eqn:Htimers; [| discriminate Hn].
    assert (run_timers (0 + more) w = w) as ->.
    { destruct more as [| more]; [reflexivity |]. cbn [Nat.add run_timers].
      unfold fire_next. rewrite Htimers. reflexivity. }
    cbn [run_timers]. repeat split; first [exact Htimers | reflexivity | lia].
  - destruct (timers w) as [| [due cb] ts] eqn:Htimers; [discriminate Hn |].
    destruct (fire_next_logged w due cb ts Htimers)
      as (w1 & Hfire & Htm & Hnow & Hv & Ht & Hi & Hj).
    cbn [Nat.add run_timers]. rewrite Hfire.
    assert (n = length (timers w1)) as Hn1 by (rewrite Htm; cbn in Hn; lia).
    destruct (IH w1 Hn1) as (G1 & G2 & G3 & G4 & G5 & G6 & G7).
    repeat split; try congruence; [lia |]. etransitivity; eassumption.
Qed.

(** *** A port entry that is not an integer *)

Lemma muted_same_journal (w w' : World) :
  vars w' = vars w -> journal w' = journal w -> muted w w'.
Proof. intros Hv Hj. split; [exact Hv | intros _; rewrite Hj; reflexivity]. Qed.

Lemma muted_send_command_immediately (data : bytes) (tag : string) :
  respects muted (send_command_immediately data tag).
Proof.
  intros w. rewrite send_command_immediately_run. cbn [snd]. split; [reflexivity |].
  intros Hport. cbn [journal set_journal].
  rewrite transmissions_app, transmissions_send_trace, Hport. apply app_nil_r.
Qed.

Lemma muted_send_live_command (data : bytes) : respects muted (send_live_command data).
Proof. exact (muted_send_command_immediately data "[Live Keystroke]"). Qed.

Lemma muted_restore_defaults : respects muted restore_defaults.
Proof.
  intros w. split; [apply logged_restore_defaults |].
  intros Hport. unfold restore_defaults. run_monad. rewrite Hport. run_monad.
  rewrite transmissions_app. apply app_nil_r.
Qed.

Lemma muted_update_line_length_display : respects muted update_line_length_display.
Proof.
  intros w. destruct (update_line_length_display_frame w) as (r & len & bg & ->).
  apply muted_same_journal; reflexivity.
Qed.

Lemma muted_after (ms : Z) (cb : callback) : respects muted (after ms cb).
Proof. intros w. apply muted_same_journal; reflexivity. Qed.

Lemma muted_insert_newline : respects muted insert_newline.
Proof. intros w. apply muted_same_journal; reflexivity. Qed.

Lemma muted_fire_next (w w' : World) : fire_next w = Some w' -> muted w w'.
Proof.
  unfold fire_next. destruct (timers w) as [| [due cb] ts]; [discriminate |].
  pose proof (respects_run_callback muted muted_send_command_immediately
                muted_send_live_command muted_restore_defaults cb
                (set_timers (Z.max (now w) due) ts w)) as [Hv Hj].
  destruct (run_callback cb _) as [[[] | e] w1]; cbn [snd] in Hv, Hj;
    intros [= <-]; (split; [exact Hv |]); intros Hport; specialize (Hj Hport).
  - exact Hj.
  - cbn [journal set_journal]. rewrite transmissions_app, Hj. apply app_nil_r.
Qed.

Lemma muted_run_timers (fuel : nat) (w : World) : muted w (run_timers fuel w).
Proof.
  revert w. induction fuel as [| fuel IH]; intros w; cbn [run_timers]; [reflexivity |].
  destruct (fire_next w) as [w' |] eqn:Hfire; [| reflexivity].
  etransitivity; [apply muted_fire_next; exact Hfire | apply IH].
Qed.

(** X4. While the port entry is not an integer, nothing reaches the printer:
    no control, no key (Return included) and no timer makes a connection. *)
Theorem invalid_port_never_connects (w : World) :
  py_int (port_entry (vars w)) = None ->
  (forall m, m ∈ control_commands ->
             transmissions (journal (m w).2) = transmissions (journal w))
  /\ (forall ev, transmissions (journal (handle_key ev w).2) = transmissions (journal w))
  /\ transmissions (journal (handle_return w).2) = transmissions (journal w)
  /\ (forall fuel, transmissions (journal (run_timers fuel w)) = transmissions (journal w)).
Proof.
  intros Hport.
  pose proof muted_send_command_immediately as H1.
  pose proof muted_send_live_command as H2.
  pose proof muted_restore_defaults as H3.
  pose proof muted_update_line_length_display as H4.
  split; [| split; [| split]].
  - intros m Hm.
    pose proof (respects_control_commands muted H1 H2 H3 H4) as Hall.
    rewrite Forall_forall in Hall. apply (Hall m Hm w), Hport.
  - intros ev. apply (respects_handle_key muted H2 ev w), Hport.
  - apply (respects_handle_return muted H2 H4 muted_after muted_insert_newline w), Hport.
  - intros fuel. apply (muted_run_timers fuel w), Hport.
Qed.

Lemma invalid_port_never_connects_witness :
  py_int (port_entry (vars (set_vars (vars_with_port "91oo") (initial_world reachable)))) = None
  /\ transmissions
       (journal (run_timers 1 (set_vars (vars_with_port "91oo") (initial_world reachable))))
     = [].
Proof.
  split; [reflexivity |].
  exact (proj2 (proj2 (proj2
    (invalid_port_never_connects
       (set_vars (vars_with_port "91oo") (initial_world reachable)) eq_refl))) 1%nat).
Defined.

(** ** Return outside Line-by-Line mode *)

Lemma handle_return_other_mode (w : World) :
  mode_var (vars w) <> "Line-by-Line" ->
  handle_return w
  = update_line_length_display
      (set_timers (now w)
         (enqueue (now w + 20) SendLeftMargin
            (enqueue (now w + 10) (SendLive [x0a]) (timers w)))
         (set_journal
            (journal w ++ stamp (now w) (send_trace "[Live Keystroke]" [x0d] w)) w)).
Proof.
  intros Hmode. unfold handle_return. run_monad.
  destruct (String.eqb_spec (mode_var (vars w)) "Line-by-Line") as [E | _];
    [contradiction |].
  run_monad. rewrite get_cr. run_monad. rewrite get_lf. run_monad.
  rewrite send_live_command_run, send_command_immediately_run. run_monad.
  reflexivity.
Qed.

(** X5. In any mode but Line-by-Line, Return leaves the text widget as it is
    and queues no text: Carriage Return is transmitted at once, Line Feed
    after 10 ms and one Horizontal Tab per unit of the left margin after
    20 ms, and with nothing else pending that is all the printer gets. *)
Theorem return_outside_line_by_line_mode (w : World) (port : Z) :
  mode_var (vars w) <> "Line-by-Line" ->
  py_int (port_entry (vars w)) = Some port ->
  timers w = [] ->
  let w1 := (handle_return w).2 in
  let w2 := run_timers 2 w1 in
  text w1 = text w /\ insert_mark w1 = insert_mark w
  /\ transmissions (added w w1) = [(now w, [x0d])]
  /\ timers w1 = [(now w + 10, SendLive [x0a]); (now w + 20, SendLeftMargin)]
  /\ timers w2 = []
  /\ transmissions (added w w2)
     = [(now w, [x0d]); (now w + 10, [x0a])]
       ++ replicate (Z.to_nat (left_margin_count (vars w))) (now w + 20, [x09]).
Proof.
  intros Hmode Hport Htimers w1 w2.
  subst w2 w1. rewrite (handle_return_other_mode w Hmode), Htimers. cbn [enqueue].
  rewrite (proj2 (Z.leb_le (now w + 10) (now w + 20))) by lia. cbn [enqueue].
  match goal with |- context [update_line_length_display ?w0] =>
    destruct (update_line_length_display_frame w0) as (r & len & bg & ->);
    set (w1 := set_shown_bg bg (set_shown_length len w0))
  end.
  cbn [snd].
  assert (journal w1 = journal w ++ stamp (now w) (send_trace "[Live Keystroke]" [x0d] w))
    as Hj1 by reflexivity.
  assert (timers w1 = [(now w + 10, SendLive [x0a]); (now w + 20, SendLeftMargin)])
    as Ht1 by reflexivity.
  split; [reflexivity |]. split; [reflexivity |].
  split.
  { unfold added. rewrite Hj1, drop_app_length, transmissions_send_trace, Hport.
    reflexivity. }
  split; [exact Ht1 |].
  destruct (fire_next_emits w1 _ _ _ [(now w + 10, [x0a])] Ht1) as (l1 & F1 & T1).
  { replace (Z.max (now w1) (now w + 10)) with (now w + 10) by (subst w1; cbn; lia).
    refine (emits_send_live [x0a] (set_timers (now w + 10) _ w1) port Hport). }
  replace (Z.max (now w1) (now w + 10)) with (now w + 10) in F1 by (subst w1; cbn; lia).
  set (v2 := set_journal (journal w1 ++ l1) (set_timers (now w + 10) _ w1)) in F1.
  destruct (fire_next_emits v2 (now w + 20) SendLeftMargin []
              (replicate (Z.to_nat (left_margin_count (vars w))) (now w + 20, [x09]))
              eq_refl) as (l2 & F2 & T2).
  { replace (Z.max (now v2) (now w + 20)) with (now w + 20) by (subst v2 w1; cbn; lia).
    refine (emits_send_left_margin (set_timers (now w + 20) _ v2) port Hport). }
  replace (Z.max (now v2) (now w + 20)) with (now w + 20) in F2
    by (subst v2 w1; cbn; lia).
  cbn [run_timers]. rewrite F1, F2.
  split; [reflexivity |].
  unfold added. cbn [journal set_journal]. subst v2. cbn [journal set_journal set_timers].
  rewrite Hj1, <- !app_assoc, drop_app_length, !transmissions_app.
  rewrite transmissions_send_trace, Hport, T1, T2. reflexivity.
Qed.

Lemma return_outside_line_by_line_mode_witness :
  text (handle_return live_world).2 = str_of_string "HELLO"
  /\ transmissions (added live_world (run_timers 2 (handle_return live_world).2))
     = [(1000, [x0d]); (1010, [x0a]); (1020, [x09]); (1020, [x09])].
Proof.
  destruct (return_outside_line_by_line_mode live_world 9100
              ltac:(discriminate) eq_refl eq_refl) as (Ht & _ & _ & _ & _ & Hsent).
  split; [exact Ht | exact Hsent].
Defined.

(** ** Keys *)

Lemma typing_key_true (ev : KeyEvent) :
  typing_key ev = true ->
  String.eqb (keysym ev) "Return" = false
  /\ String.eqb (keysym ev) "Tab" = false
  /\ String.eqb (keysym ev) "BackSpace" = false.
Proof.
  unfold typing_key. rewrite !andb_true_iff, !negb_true_iff. tauto.
Qed.

(** X6. A key transmits nothing, logs nothing and raises nothing when it is
    Return, when the mode is not Live, or when it is a key other than Tab
    and BackSpace whose character is empty or a control character. *)
Theorem handle_key_silent (ev : KeyEvent) (w : World) :
  keysym ev = "Return"
  \/ mode_var (vars w) <> "Live"
  \/ (typing_key ev = true /\ forall c, char ev = Some c -> c < 32) ->
  handle_key ev w = (Returned tt, w).
Proof.
  intros H. unfold handle_key.
  destruct (String.eqb_spec (keysym ev) "Return") as [| Hret]; [reflexivity |].
  run_monad.
  destruct (String.eqb_spec (mode_var (vars w)) "Live") as [Hlive |]; [| reflexivity].
  destruct H as [H | [H | [Hkey Hchar]]]; [contradiction | contradiction |].
  destruct (typing_key_true ev Hkey) as (_ & -> & ->).
  destruct (char ev) as [c |]; [| reflexivity].
  specialize (Hchar c eq_refl).
  rewrite (proj2 (Z.leb_gt 32 c)) by lia. reflexivity.
Qed.

Lemma handle_key_silent_witness :
  handle_key {| keysym := "Escape"; char := Some 27 |} live_world = (Returned tt, live_world)
  /\ handle_key {| keysym := "a"; char := Some 97 |} hello_world = (Returned tt, hello_world).
Proof.
  split.
  - apply handle_key_silent. right. right. split; [reflexivity |].
    intros c [= <-]. lia.
  - apply handle_key_silent. right. left. discriminate.
Defined.

Lemma get_bs : get "Backspace" [x08] = Returned [x08].
Proof. vm_compute. reflexivity. Qed.

(** X7. In Live mode Tab transmits Horizontal Tab (09) and BackSpace transmits
    Backspace (08), one connection each, whatever character the key event
    carries. *)
Theorem live_tab_and_backspace (ev : KeyEvent) (w : World) (port : Z) :
  mode_var (vars w) = "Live" ->
  py_int (port_entry (vars w)) = Some port ->
  keysym ev = "Tab" \/ keysym ev = "BackSpace" ->
  emits (handle_key ev) w
    [(now w, if String.eqb (keysym ev) "Tab" then [x09] else [x08])].
Proof.
  intros Hmode Hport Hkey. unfold handle_key.
  destruct Hkey as [Hkey | Hkey]; rewrite Hkey;
    cbn [String.eqb Ascii.eqb Bool.eqb andb]; apply emits_var; rewrite Hmode;
    cbn [String.eqb Ascii.eqb Bool.eqb andb]; run_monad;
    rewrite ?get_ht, ?get_bs; run_monad; cbn [nonempty];
    apply (emits_send_live _ _ _ Hport).
Qed.

Lemma live_tab_and_backspace_witness :
  emits (handle_key {| keysym := "Tab"; char := Some 9 |}) live_world [(1000, [x09])]
  /\ emits (handle_key {| keysym := "BackSpace"; char := Some 8 |}) live_world
       [(1000, [x08])].
Proof.
  split.
  - exact (live_tab_and_backspace {| keysym := "Tab"; char := Some 9 |} live_world 9100
             eq_refl eq_refl (or_introl eq_refl)).
  - exact (live_tab_and_backspace {| keysym := "BackSpace"; char := Some 8 |} live_world
             9100 eq_refl eq_refl (or_intror eq_refl)).
Defined.

Lemma utf8_char_nonempty (c : Z) (encoded : bytes) :
  utf8_char c = Returned encoded -> nonempty encoded = true.
Proof.
  unfold utf8_char.
  repeat match goal with
         | |- context [if ?b then _ else _] => destruct b
         end; intros [= <-]; reflexivity.
Qed.

Lemma emits_typing_key (ev : KeyEvent) (c : Z) (encoded : bytes) (w : World) (port : Z) :
  mode_var (vars w) = "Live" ->
  py_int (port_entry (vars w)) = Some port ->
  typing_key ev = true ->
  char ev = Some c ->
  32 <= c ->
  utf8_char c = Returned encoded ->
  emits (handle_key ev) w [(now w, encoded)].
Proof.
  intros Hmode Hport Hkey Hchar Hc Henc. unfold handle_key.
  destruct (typing_key_true ev Hkey) as (-> & -> & ->).
  apply emits_var. rewrite Hmode. cbn [String.eqb Ascii.eqb Bool.eqb andb].
  rewrite Hchar, (proj2 (Z.leb_le 32 c)) by lia.
  cbn [encode_utf8]. rewrite Henc, app_nil_r. run_monad.
  rewrite (utf8_char_nonempty c encoded Henc).
  apply (emits_send_live _ _ _ Hport).
Qed.

(** X8. In Live mode a key other than Return, Tab and BackSpace whose character
    is not a control character transmits the UTF-8 encoding of that
    character, at once and in one connection. *)
Theorem live_key_sends_its_utf8 (ev : KeyEvent) (c : Z) (encoded : bytes)
    (w : World) (port : Z) :
  mode_var (vars w) = "Live" ->
  py_int (port_entry (vars w)) = Some port ->
  typing_key ev = true ->
  char ev = Some c ->
  32 <= c ->
  utf8_char c = Returned encoded ->
  emits (handle_key ev) w [(now w, encoded)]
  /\ (1 <= length encoded <= 4)%nat.
Proof.
  intros Hmode Hport Hkey Hchar Hc Henc.
  split; [exact (emits_typing_key ev c encoded w port Hmode Hport Hkey Hchar Hc Henc) |].
  revert Henc. unfold utf8_char.
  repeat match goal with
         | |- context [if ?b then _ else _] => destruct b
         end; intros [= <-]; cbn [length]; lia.
Qed.

Lemma live_key_sends_its_utf8_witness :
  emits (handle_key {| keysym := "eacute"; char := Some 233 |}) live_world
    [(1000, [xc3; xa9])].
Proof.
  exact (proj1 (live_key_sends_its_utf8 {| keysym := "eacute"; char := Some 233 |} 233
                  [xc3; xa9] live_world 9100 eq_refl eq_refl eq_refl eq_refl
                  ltac:(lia) eq_refl)).
Defined.

(** *** Typing a line key by key *)

Lemma encode_utf8_chars (s : str) (encoded : bytes) :
  encode_utf8 s = Returned encoded ->
  exists bs, Forall2 (fun c b => utf8_char c = Returned b) s bs /\ concat bs = encoded.
Proof.
  revert encoded. induction s as [| c s IH]; intros encoded; cbn [encode_utf8].
  - intros [= <-]. exists []. split; [constructor | reflexivity].
  - destruct (utf8_char c) as [b |] eqn:Hc; [| discriminate].
    destruct (encode_utf8 s) as [rest |]; [| discriminate].
    intros [= <-]. destruct (IH rest eq_refl) as (bs & Hbs & <-).
    exists (b :: bs). split; [constructor; assumption | reflexivity].
Qed.

Lemma emits_handle_keys (evs : list KeyEvent) (bs : list bytes) (w : World) (port : Z) :
  mode_var (vars w) = "Live" ->
  py_int (port_entry (vars w)) = Some port ->
  Forall2 (fun ev b => typing_key ev = true
                       /\ exists c, char ev = Some c /\ 32 <= c
                                    /\ utf8_char c = Returned b) evs bs ->
  emits (handle_keys evs) w (at_time (now w) bs).
Proof.
  intros Hmode Hport Hall. revert w Hmode Hport.
  induction Hall as [| ev b evs bs (Hkey & c & Hchar & Hc & Henc) _ IH];
    intros w Hmode Hport; cbn [handle_keys].
  - apply emits_ret.
  - change (at_time (now w) (b :: bs)) with ([(now w, b)] ++ at_time (now w) bs).
    apply emits_bind.
    + exact (emits_typing_key ev c b w port Hmode Hport Hkey Hchar Hc Henc).
    + intros l. apply (IH (set_journal (journal w ++ l) w) Hmode Hport).
Qed.

(** X9. Typed key by key in Live mode, a line of characters none of which is a
    control character makes one connection per key, all at the time of
    typing, and the bytes transmitted, put end to end, are the UTF-8
    encoding of the line: what Line-by-Line mode sends for it in one
    piece. *)
Theorem live_typing_sends_the_encoded_line (evs : list KeyEvent) (s : str)
    (encoded : bytes) (w : World) (port : Z) :
  mode_var (vars w) = "Live" ->
  py_int (port_entry (vars w)) = Some port ->
  Forall2 (fun ev c => typing_key ev = true /\ char ev = Some c /\ 32 <= c) evs s ->
  encode_utf8 s = Returned encoded ->
  exists bs,
    emits (handle_keys evs) w (at_time (now w) bs)
    /\ length bs = length evs
    /\ concat bs = encoded.
Proof.
  intros Hmode Hport Hkeys Henc.
  destruct (encode_utf8_chars s encoded Henc) as (bs & Hbs & Hcat).
  exists bs. split; [| split; [| exact Hcat]].
  - apply (emits_handle_keys evs bs w port Hmode Hport).
    clear Henc Hcat. revert bs Hbs.
    induction Hkeys as [| ev c evs s (Hkey & Hchar & Hc) _ IH]; intros bs Hbs.
    + apply Forall2_nil_inv_l in Hbs as ->. constructor.
    + apply Forall2_cons_inv_l in Hbs as (b & bs' & Hb & Hbs' & ->).
      constructor; [| apply IH, Hbs'].
      split; [exact Hkey |]. exists c. auto.
  - rewrite <- (Forall2_length _ _ _ Hbs). symmetry. exact (Forall2_length _ _ _ Hkeys).
Qed.

Lemma live_typing_sends_the_encoded_line_witness :
  exists bs,
    emits (handle_keys [ {| keysym := "H"; char := Some 72 |};
                         {| keysym := "eacute"; char := Some 233 |} ])
          live_world (at_time 1000 bs)
    /\ length bs = 2%nat
    /\ concat bs = [x48; xc3; xa9].
Proof.
  apply (live_typing_sends_the_encoded_line
           [ {| keysym := "H"; char := Some 72 |};
             {| keysym := "eacute"; char := Some 233 |} ]
           [72; 233] [x48; xc3; xa9] live_world 9100 eq_refl eq_refl).
  - repeat constructor; lia.
  - reflexivity.
Defined.

(** ** Parameters out of range and ports that are no numbers *)

Lemma bytes_of_int_out_of_range (n : Z) :
  ~ (0 <= n <= 255) -> bytes_of_int n = Raised ValueError.
Proof.
  intros Hn. unfold bytes_of_int.
  destruct (0 <=? n) eqn:H0; [| reflexivity].
  destruct (n <? 256) eqn:H1; [| reflexivity]. lia.
Qed.

Lemma bytes_of_int_in_range (n : Z) :
  0 <= n <= 255 ->
  bytes_of_int n = Returned [byte_of_int n] /\ int_of_byte (byte_of_int n) = n.
Proof.
  intros Hn. unfold bytes_of_int, byte_of_int, int_of_byte.
  rewrite (proj2 (Z.leb_le 0 n)), (proj2 (Z.ltb_lt n 256)) by lia. cbn [andb].
  destruct (Byte.of_N (Z.to_N n)) as [b |] eqn:E.
  - cbn. split; [reflexivity |]. apply Byte.to_of_N in E. rewrite E. lia.
  - apply Byte.of_N_None_iff in E. lia.
Qed.

(** X10. With a port entry that is not an integer [restore_defaults] shows the
    error box and does nothing else: no debug line is written, debug mode
    or not, and no command is built, so that nothing is raised whatever the
    skip value. *)
Theorem restore_defaults_checks_the_port_first (w : World) :
  py_int (port_entry (vars w)) = None ->
  restore_defaults w
  = (Returned tt,
     set_journal (journal w ++ [(now w, ShowError "Error" "Invalid port number.")]) w).
Proof.
  intros Hport. unfold restore_defaults. run_monad. rewrite Hport. reflexivity.
Qed.

Lemma restore_defaults_checks_the_port_first_witness :
  added (set_vars (vars_with_port "91oo") (initial_world reachable))
        (restore_defaults (set_vars (vars_with_port "91oo") (initial_world reachable))).2
  = [(0, ShowError "Error" "Invalid port number.")].
Proof.
  rewrite (restore_defaults_checks_the_port_first
             (set_vars (vars_with_port "91oo") (initial_world reachable)) eq_refl).
  reflexivity.
Defined.

(** X11. With a skip value outside 0..255 the skip command cannot be built:
    [apply_skip_over_perforation] raises [ValueError] before it logs or
    sends anything, and with a numeric port so does [restore_defaults], so
    that Send Defaults transmits nothing at all, not even the settings that
    are in order. *)
Theorem out_of_range_skip_stops_send_defaults (w : World) (port : Z) :
  py_int (port_entry (vars w)) = Some port ->
  ~ (0 <= skip_perforation (vars w) <= 255) ->
  apply_skip_over_perforation w = (Raised ValueError, w)
  /\ restore_defaults w = (Raised ValueError, w)
  /\ send_all_defaults w = (Raised ValueError, w).
Proof.
  intros Hport Hskip.
  assert (skip_over_perforation (skip_perforation (vars w)) = Raised ValueError) as Hraise.
  { unfold skip_over_perforation.
    destruct (Z.eqb_spec (skip_perforation (vars w)) 0) as [E |]; [lia |].
    rewrite (bytes_of_int_out_of_range _ Hskip). reflexivity. }
  assert (restore_defaults w = (Raised ValueError, w)) as Hrestore.
  { unfold restore_defaults. run_monad. rewrite Hport. run_monad.
    rewrite get_reset. run_monad.
    destruct (cpi_command_returned (cpi_var (vars w))) as (code & -> & _). run_monad.
    rewrite get_call_skip, Hraise. reflexivity. }
  split; [| split; [exact Hrestore |]].
  - unfold apply_skip_over_perforation. run_monad. rewrite get_call_skip, Hraise.
    reflexivity.
  - unfold send_all_defaults. unfold bind at 1. rewrite Hrestore. reflexivity.
Qed.

Lemma out_of_range_skip_stops_send_defaults_witness :
  send_all_defaults (set_vars (vars_with_numbers "1/6" 9 256) (initial_world reachable))
  = (Raised ValueError, set_vars (vars_with_numbers "1/6" 9 256) (initial_world reachable)).
Proof.
  apply (out_of_range_skip_stops_send_defaults
           (set_vars (vars_with_numbers "1/6" 9 256) (initial_world reachable)) 9100
           eq_refl).
  cbn. lia.
Defined.

Lemma get_call_spacing (n : Z) : get_call "Set Spacing to n/144" n = set_spacing_n144 n.
Proof. reflexivity. Qed.

(** X12. With the spacing n/144 selected, [apply_spacing] sends 1B 25 39 followed
    by the byte [n] when [n] is within 0..255, a byte that reads back as
    [n]; for any other [n] it raises [ValueError] and nothing is logged or
    sent. *)
Theorem apply_spacing_n144 (w : World) :
  spacing_var (vars w) = "n/144" ->
  let n := spacing_n (vars w) in
  apply_spacing w
  = (if (0 <=? n) && (n <=? 255)
     then send_command_immediately [x1b; x25; x39; byte_of_int n] "[Spacing]" w
     else (Raised ValueError, w))
  /\ (0 <= n <= 255 -> int_of_byte (byte_of_int n) = n).
Proof.
  intros Hspacing n. split.
  - unfold apply_spacing, spacing_command. run_monad. rewrite Hspacing.
    cbn [String.eqb Ascii.eqb Bool.eqb andb]. rewrite get_call_spacing.
    fold n. unfold set_spacing_n144.
    destruct ((0 <=? n) && (n <=? 255)) eqn:Hn.
    + rewrite (proj1 (bytes_of_int_in_range n ltac:(lia))). reflexivity.
    + rewrite (bytes_of_int_out_of_range n) by lia. reflexivity.
  - intros Hn. apply (bytes_of_int_in_range n Hn).
Qed.

Lemma apply_spacing_n144_witness :
  payloads (added (set_vars (vars_with_numbers "n/144" 9 0) (initial_world reachable))
              (apply_spacing
                 (set_vars (vars_with_numbers "n/144" 9 0) (initial_world reachable))).2)
  = [[x1b; x25; x39; x09]]
  /\ apply_spacing (set_vars (vars_with_numbers "n/144" 300 0) (initial_world reachable))
     = (Raised ValueError,
        set_vars (vars_with_numbers "n/144" 300 0) (initial_world reachable)).
Proof.
  split.
  - rewrite (proj1 (apply_spacing_n144
                      (set_vars (vars_with_numbers "n/144" 9 0) (initial_world reachable))
                      eq_refl)).
    vm_compute. reflexivity.
  - exact (proj1 (apply_spacing_n144
                    (set_vars (vars_with_numbers "n/144" 300 0) (initial_world reachable))
                    eq_refl)).
Defined.

(** ** The dictionary and the controls *)

Lemma fixed_entry_nonempty (name : string) (code : bytes) :
  OKIDATA_COMMANDS !! name = Some (Fixed code) -> nonempty code = true.
Proof. intros H. entries H; cbn in H; simplify_eq; reflexivity. Qed.

(** X13. A name the dictionary maps to a byte sequence is never held back by
    the [if command:] guard: that sequence is not empty, and the manual
    command of the name transmits it as it is, in one connection. *)
Theorem known_command_is_sent_as_it_is (name : string) (code : bytes)
    (w : World) (port : Z) :
  OKIDATA_COMMANDS !! name = Some (Fixed code) ->
  py_int (port_entry (vars w)) = Some port ->
  code <> [] /\ emits (send_manual_command name) w [(now w, code)].
Proof.
  intros Hname Hport. pose proof (fixed_entry_nonempty name code Hname) as Hne.
  split; [intros ->; discriminate Hne |].
  unfold send_manual_command, get, commands_get. rewrite Hname.
  cbn [from_option id]. run_monad. rewrite Hne.
  apply (emits_send_live _ _ _ Hport).
Qed.

Lemma known_command_is_sent_as_it_is_witness :
  emits (send_manual_command "Form Feed") (initial_world reachable) [(0, [x0c])].
Proof.
  exact (proj2 (known_command_is_sent_as_it_is "Form Feed" [x0c]
                  (initial_world reachable) 9100 eq_refl eq_refl)).
Defined.

(** X14. Every button of the Manual Commands frame names a byte sequence of the
    dictionary, so each of them transmits exactly one connection, and no
    two of them transmit the same bytes. *)
Theorem manual_buttons_are_all_wired (w : World) (port : Z) :
  py_int (port_entry (vars w)) = Some port ->
  exists codes,
    Forall2 (fun name code => OKIDATA_COMMANDS !! name = Some (Fixed code)
                              /\ emits (send_manual_command name) w [(now w, code)])
            manual_buttons codes
    /\ NoDup codes.
Proof.
  intros Hport.
  exists [[x0a]; [x0d]; [x0c]; [x09]; [x08]; [x0b]; [x1b; x0a]; [x18]].
  split.
  - unfold manual_buttons.
    repeat (apply Forall2_cons; split;
            [ match goal with
              | |- OKIDATA_COMMANDS !! ?name = Some (Fixed ?code) /\ _ =>
                  assert (OKIDATA_COMMANDS !! name = Some (Fixed code)) as Hname
                    by (vm_compute; reflexivity);
                  split; [exact Hname |];
                  unfold send_manual_command, get, commands_get; rewrite Hname;
                  cbn [from_option id]; run_monad; cbn [nonempty];
                  apply (emits_send_live _ _ _ Hport)
              end |]).
    apply Forall2_nil. exact I.
  - repeat (apply NoDup_cons; split;
            [rewrite ?elem_of_cons, elem_of_nil; intros H;
             repeat (destruct H as [H | H]; [discriminate H |]); exact H |]).
    apply NoDup_nil. exact I.
Qed.

Lemma manual_buttons_are_all_wired_witness :
  exists codes,
    Forall2 (fun name code =>
               OKIDATA_COMMANDS !! name = Some (Fixed code)
               /\ emits (send_manual_command name) (initial_world reachable) [(0, code)])
            manual_buttons codes
    /\ NoDup codes.
Proof. exact (manual_buttons_are_all_wired (initial_world reachable) 9100 eq_refl). Defined.

Lemma emits_checkbox (field : TkVars -> bool) (o_on o_off : outcome bytes)
    (on off : bytes) (tag : string) (w : World) (port : Z) :
  py_int (port_entry (vars w)) = Some port ->
  o_on = Returned on -> o_off = Returned off ->
  nonempty on = true -> nonempty off = true ->
  emits (ticked <- var field ;;
         command <- lift (if ticked then o_on else o_off) ;;
         when (nonempty command) (send_command_immediately command tag))
        w [(now w, if field (vars w) then on else off)].
Proof.
  intros Hport -> -> Hon Hoff. apply emits_var.
  destruct (field (vars w)); run_monad; rewrite ?Hon, ?Hoff;
    apply (emits_send _ _ _ _ Hport).
Qed.

(** X15. Each of the format checkboxes has two byte sequences, different from
    each other and neither empty, and its callable transmits the one when
    the box is ticked and the other when it is not: exactly one connection,
    whose bytes depend on nothing but the state of that box. *)
Theorem checkboxes_send_one_of_two_codes :
  Forall (fun '((m, field) : M unit * (TkVars -> bool)) =>
            exists on off : bytes,
              on <> off /\ on <> [] /\ off <> []
              /\ forall (w : World) (port : Z),
                   py_int (port_entry (vars w)) = Some port ->
                   emits m w [(now w, if field (vars w) then on else off)])
         checkboxes.
Proof.
  unfold checkboxes.
  repeat (apply Forall_cons; split;
          [ match goal with
            | |- context [emits toggle_italic] =>
                exists [x1b; x21; x2f], [x1b; x21; x2a]
            | |- context [emits toggle_emphasized] =>
                exists [x1b; x54], [x1b; x49]
            | |- context [emits apply_underline] =>
                exists [x1b; x2d; x01], [x1b; x2d; x00]
            | |- context [emits apply_unidirectional] =>
                exists [x1b; x2d; x02], [x1b; x2d; x00]
            | |- context [emits toggle_enhanced] =>
                exists [x1b; x48], [x1b; x49]
            | |- context [emits apply_double_height] =>
                exists [x1b; x1f; x31], [x1b; x1f; x30]
            | |- context [emits apply_proportional] =>
                exists [x1b; x59], [x1b; x5a]
            | |- context [emits send_shift] =>
                exists [x0f], [x0e]
            end;
            (split; [discriminate |]); (split; [discriminate |]); (split; [discriminate |]);
            intros w port Hport |]);
    [ .. | apply Forall_nil; exact I ].
  - unfold toggle_italic. apply emits_var.
    destruct (option_italic (vars w)); cbn [nonempty when];
      apply (emits_send _ _ _ _ Hport).
  - apply (emits_checkbox option_emphasized _ _ _ _ _ w port Hport);
      vm_compute; reflexivity.
  - apply (emits_checkbox underline_printing _ _ _ _ _ w port Hport);
      vm_compute; reflexivity.
  - apply (emits_checkbox unidirectional _ _ _ _ _ w port Hport);
      vm_compute; reflexivity.
  - apply (emits_checkbox enhanced_state _ _ _ _ _ w port Hport);
      vm_compute; reflexivity.
  - unfold apply_double_height, double_height_command.
    apply (emits_checkbox double_height _ _ _ _ _ w port Hport);
      vm_compute; reflexivity.
  - unfold apply_proportional, proportional_command.
    apply (emits_checkbox proportional _ _ _ _ _ w port Hport);
      vm_compute; reflexivity.
  - unfold send_shift. apply emits_var.
    destruct (shift_state (vars w)); run_monad;
      [change (get "Shift In" []) with (Returned [x0f])
      | change (get "Shift Out" []) with (Returned [x0e])];
      cbn [nonempty]; apply (emits_send_live _ _ _ Hport).
Qed.

(** Takes the code a radio group selects from the value of its variable and
    hands it to the lemma of the group's callable. *)
Ltac radio_code Hvalue o lemma :=
  let code := fresh "code" in
  let Hcode := fresh "Hcode" in
  let Hne := fresh "Hne" in
  let Hem := fresh "Hem" in
  assert (exists code, o = Returned code /\ nonempty code = true)
    as (code & Hcode & Hne)
    by (eexists; split; [rewrite Hvalue; vm_compute; reflexivity | reflexivity]);
  exists code; split; [intros ->; discriminate Hne |];
  pose proof (lemma code Hcode) as Hem; unfold sent in Hem; rewrite Hne in Hem;
  exact Hem.

(** X16. With each radio group on one of the values its buttons offer (and a
    byte in the entry next to n/144 when that spacing is selected), the
    callable of every group transmits exactly one connection, with bytes
    that are not empty: no radio button is without a command. *)
Theorem radio_buttons_send_one_code_each (w : World) (port : Z) :
  py_int (port_entry (vars w)) = Some port ->
  cpi_var (vars w) ∈ cpi_values ->
  font_var (vars w) ∈ font_values ->
  quality_var (vars w) ∈ quality_values ->
  speed_var (vars w) ∈ speed_values ->
  spacing_var (vars w) ∈ spacing_values ->
  (spacing_var (vars w) = "n/144" -> 0 <= spacing_n (vars w) <= 255) ->
  Forall (fun m => exists code, code <> [] /\ emits m w [(now w, code)])
         [apply_cpi; apply_font; apply_quality; apply_speed; apply_spacing; apply_zero].
Proof.
  intros Hport Hcpi Hfont Hquality Hspeed Hspacing Hn.
  unfold cpi_values in Hcpi. unfold font_values in Hfont.
  unfold quality_values in Hquality. unfold speed_values in Hspeed.
  unfold spacing_values in Hspacing.
  repeat (apply Forall_cons; split); [.. | apply Forall_nil; exact I].
  - repeat (apply elem_of_cons in Hcpi as [Hcpi | Hcpi]);
      [.. | by apply elem_of_nil in Hcpi];
      radio_code Hcpi (cpi_command (cpi_var (vars w)))
        (fun code => emits_apply_cpi w port code Hport).
  - repeat (apply elem_of_cons in Hfont as [Hfont | Hfont]);
      [.. | by apply elem_of_nil in Hfont];
      radio_code Hfont (font_command (font_var (vars w)))
        (fun code => emits_apply_font w port code Hport).
  - repeat (apply elem_of_cons in Hquality as [Hquality | Hquality]);
      [.. | by apply elem_of_nil in Hquality];
      radio_code Hquality (quality_command (quality_var (vars w)))
        (fun code => emits_apply_quality w port code Hport).
  - repeat (apply elem_of_cons in Hspeed as [Hspeed | Hspeed]);
      [.. | by apply elem_of_nil in Hspeed];
      radio_code Hspeed (speed_command (speed_var (vars w)))
        (fun code => emits_apply_speed w port code Hport).
  - repeat (apply elem_of_cons in Hspacing as [Hspacing | Hspacing]);
      [.. | by apply elem_of_nil in Hspacing].
    + radio_code Hspacing (spacing_command (spacing_var (vars w)) (spacing_n (vars w)))
        (fun code => emits_apply_spacing w port code Hport).
    + radio_code Hspacing (spacing_command (spacing_var (vars w)) (spacing_n (vars w)))
        (fun code => emits_apply_spacing w port code Hport).
    + exists [x1b; x25; x39; byte_of_int (spacing_n (vars w))].
      split; [discriminate |].
      refine (emits_apply_spacing w port
                [x1b; x25; x39; byte_of_int (spacing_n (vars w))] Hport _).
      rewrite Hspacing. unfold spacing_command. cbn [String.eqb Ascii.eqb Bool.eqb andb].
      rewrite get_call_spacing. unfold set_spacing_n144.
      rewrite (proj1 (bytes_of_int_in_range _ (Hn Hspacing))). reflexivity.
  - destruct (String.eqb (zero_mode (vars w)) "Slashed Zero") eqn:Hzero.
    + exists [x1b; x21; x40]. split; [discriminate |].
      unfold apply_zero. apply emits_var. rewrite Hzero.
      refine (emits_guarded_send _ [x1b; x21; x40] _ w port Hport _).
      vm_compute. reflexivity.
    + exists [x1b; x21; x41]. split; [discriminate |].
      unfold apply_zero. apply emits_var. rewrite Hzero.
      refine (emits_guarded_send _ [x1b; x21; x41] _ w port Hport _).
      vm_compute. reflexivity.
Qed.

Lemma radio_buttons_send_one_code_each_witness :
  Forall (fun m => exists code,
                     code <> [] /\ emits m (initial_world reachable) [(0, code)])
         [apply_cpi; apply_font; apply_quality; apply_speed; apply_spacing; apply_zero].
Proof.
  apply (radio_buttons_send_one_code_each (initial_world reachable) 9100 eq_refl);
    try apply list_elem_of_here.
  intros H. discriminate H.
Defined.

Lemma fixed_entries_checked :
  forallb (fun e1 : string * command =>
    forallb (fun e2 : string * command =>
      match e1.2, e2.2 with
      | Fixed c1, Fixed c2 =>
          implb (bool_decide (c1 = c2) && negb (String.eqb e1.1 e2.1))
                (bool_decide
                   ((e1.1, e2.1) ∈ [("Standard Character Set", "Double Width Off");
                                    ("Emphasized Printing Off", "Enhanced Printing Off");
                                    ("Underline Printing Off", "Unidirectional Printing Off")]
                    \/ (e2.1, e1.1) ∈ [("Standard Character Set", "Double Width Off");
                                       ("Emphasized Printing Off", "Enhanced Printing Off");
                                       ("Underline Printing Off",
                                        "Unidirectional Printing Off")]))
      | _, _ => true
      end) (map_to_list OKIDATA_COMMANDS)) (map_to_list OKIDATA_COMMANDS) = true.
Proof. vm_compute. reflexivity. Qed.

(** X17. Two different names of the dictionary that stand for the same byte
    sequence are one of three pairs; whatever else the dictionary names,
    the printer can tell apart. *)
Theorem only_three_codes_are_shared (n1 n2 : string) (code : bytes) :
  n1 <> n2 ->
  OKIDATA_COMMANDS !! n1 = Some (Fixed code) ->
  OKIDATA_COMMANDS !! n2 = Some (Fixed code) ->
  let shared := [("Standard Character Set", "Double Width Off");
                 ("Emphasized Printing Off", "Enhanced Printing Off");
                 ("Underline Printing Off", "Unidirectional Printing Off")] in
  (n1, n2) ∈ shared \/ (n2, n1) ∈ shared.
Proof.
  intros Hne H1 H2 shared. subst shared.
  apply commands_lookup_listed, list_elem_of_In in H1.
  apply commands_lookup_listed, list_elem_of_In in H2.
  pose proof fixed_entries_checked as Hall.
  rewrite forallb_forall in Hall. specialize (Hall _ H1).
  rewrite forallb_forall in Hall. specialize (Hall _ H2).
  cbn [fst snd] in Hall. clear H1 H2.
  destruct (bool_decide (code = code)) eqn:Hsame;
    [| apply bool_decide_eq_false_1 in Hsame; contradiction].
  destruct (String.eqb n1 n2) eqn:Hnames; [apply String.eqb_eq in Hnames; contradiction |].
  cbn [negb andb implb] in Hall. apply bool_decide_eq_true_1 in Hall. exact Hall.
Qed.

Lemma only_three_codes_are_shared_witness :
  ("Emphasized Printing Off", "Enhanced Printing Off")
    ∈ [("Standard Character Set", "Double Width Off");
       ("Emphasized Printing Off", "Enhanced Printing Off");
       ("Underline Printing Off", "Unidirectional Printing Off")]
  \/ ("Enhanced Printing Off", "Emphasized Printing Off")
       ∈ [("Standard Character Set", "Double Width Off");
          ("Emphasized Printing Off", "Enhanced Printing Off");
          ("Underline Printing Off", "Unidirectional Printing Off")].
Proof.
  apply (only_three_codes_are_shared "Emphasized Printing Off" "Enhanced Printing Off"
           [x1b; x49]).
  - discriminate.
  - vm_compute. reflexivity.
  - vm_compute. reflexivity.
Defined.

(** X18. [FORMAT_COMMANDS], which no handler reads, agrees with the handlers:
    the pair it lists for a format of the Okidata emulation is what the
    checkbox of that format transmits, its first sequence when the box is
    ticked and its second when it is not. *)
Theorem toggles_agree_with_FORMAT_COMMANDS (on off : bytes) (w : World) (port : Z) :
  py_int (port_entry (vars w)) = Some port ->
  (FORMAT_COMMANDS !! "Okidata" ≫= (.!! "italic") = Some (on, off) ->
   emits toggle_italic w [(now w, if option_italic (vars w) then on else off)])
  /\ (FORMAT_COMMANDS !! "Okidata" ≫= (.!! "emphasized") = Some (on, off) ->
      emits toggle_emphasized w [(now w, if option_emphasized (vars w) then on else off)]).
Proof.
  intros Hport.
  split; intros Hpair; vm_compute in Hpair; injection Hpair as <- <-.
  - unfold toggle_italic. apply emits_var.
    destruct (option_italic (vars w)); cbn [nonempty when];
      apply (emits_send _ _ _ _ Hport).
  - apply (emits_checkbox option_emphasized _ _ _ _ _ w port Hport);
      vm_compute; reflexivity.
Qed.

Lemma toggles_agree_with_FORMAT_COMMANDS_witness :
  emits toggle_italic (initial_world reachable) [(0, [x1b; x21; x2a])]
  /\ emits toggle_emphasized (initial_world reachable) [(0, [x1b; x49])].
Proof.
  split.
  - exact (proj1 (toggles_agree_with_FORMAT_COMMANDS [x1b; x21; x2f] [x1b; x21; x2a]
                    (initial_world reachable) 9100 eq_refl) eq_refl).
  - exact (proj2 (toggles_agree_with_FORMAT_COMMANDS [x1b; x54] [x1b; x49]
                    (initial_world reachable) 9100 eq_refl) eq_refl).
Defined.

(** ** The line Return captures and the line it leaves *)

Lemma enqueue_elem (due : Z) (cb : callback) (ts : list (Z * callback)) :
  (due, cb) ∈ enqueue due cb ts.
Proof.
  induction ts as [| [d c] ts IH]; cbn [enqueue].
  - apply list_elem_of_here.
  - destruct (d <=? due); [apply list_elem_of_further, IH | apply list_elem_of_here].
Qed.

Lemma takewhile_rev_newline (l : str) :
  takewhile (fun c => negb (is_newline c)) (rev (l ++ [10])) = [].
Proof. rewrite rev_app_distr. reflexivity. Qed.

Lemma split_at_mark (t : str) (i : nat) :
  take (S i) (take i t ++ [10] ++ drop i t) = take i t ++ [10]
  /\ drop (S i) (take i t ++ [10] ++ drop i t) = drop i t.
Proof.
  destruct (decide (i <= length t)%nat) as [Hi | Hi].
  - assert (length (take i t) = i) as Hlen by (rewrite length_take; lia).
    split.
    + rewrite app_assoc.
      rewrite (take_app_length' (take i t ++ [10]) (drop i t) (S i));
        [reflexivity | rewrite length_app, Hlen; cbn; lia].
    + rewrite app_assoc.
      rewrite (drop_app_length' (take i t ++ [10]) (drop i t) (S i));
        [reflexivity | rewrite length_app, Hlen; cbn; lia].
  - rewrite (take_ge t i), (drop_ge t i) by lia. rewrite app_nil_r. split.
    + apply take_ge. rewrite length_app. cbn. lia.
    + apply drop_ge. rewrite length_app. cbn. lia.
Qed.

(** X19. In Line-by-Line mode Return queues the whole current line, the text
    before the insert mark and the text after it up to the end of the line;
    the newline goes in at the insert mark, so that what was after the mark
    is the current line afterwards and will be queued again by the next
    Return. *)
Theorem return_sends_the_whole_line_and_keeps_its_tail (w : World) :
  mode_var (vars w) = "Line-by-Line" ->
  let w1 := (handle_return w).2 in
  let tail := takewhile (fun c => negb (is_newline c)) (drop (insert_mark w) (text w)) in
  (exists head,
      current_line (text w) (insert_mark w) = head ++ tail
      /\ (now w + 30, SendLineText (head ++ tail)) ∈ timers w1)
  /\ current_line (text w1) (insert_mark w1) = tail.
Proof.
  intros Hmode w1 tail. subst w1.
  rewrite (handle_return_line_by_line w Hmode).
  destruct (update_line_length_display_frame (committed w)) as (r & len & bg & ->).
  cbn [snd]. split.
  - eexists. split; [reflexivity |]. cbn. apply enqueue_elem.
  - cbn. unfold current_line.
    destruct (split_at_mark (text w) (insert_mark w)) as [Htake Hdrop].
    cbn [app] in Htake, Hdrop. rewrite Htake, Hdrop, takewhile_rev_newline. reflexivity.
Qed.

Lemma return_sends_the_whole_line_and_keeps_its_tail_witness :
  current_line (text (handle_return (set_text (str_of_string "HELLO") 2 hello_world)).2)
    (insert_mark (handle_return (set_text (str_of_string "HELLO") 2 hello_world)).2)
  = str_of_string "LLO".
Proof.
  exact (proj2 (return_sends_the_whole_line_and_keeps_its_tail
                  (set_text (str_of_string "HELLO") 2 hello_world) eq_refl)).
Defined.

(** ** Bytes of the UTF-8 encoding *)

Lemma int_of_byte_of_int (z : Z) : 0 <= z < 256 -> int_of_byte (byte_of_int z) = z.
Proof. intros Hz. apply (bytes_of_int_in_range z). lia. Qed.

Lemma lor_continuation_checked :
  forallb (fun y => forallb (fun k => (128 <=? Z.lor k y) && (Z.lor k y <? 256))
                      [0x80; 0xC0; 0xE0; 0xF0])
          (map Z.of_nat (seq 0 64)) = true.
Proof. vm_compute. reflexivity. Qed.

Lemma lor_continuation (k y : Z) :
  k ∈ [0x80; 0xC0; 0xE0; 0xF0] -> 0 <= y < 64 ->
  128 <= int_of_byte (byte_of_int (Z.lor k y)).
Proof.
  intros Hk Hy. pose proof lor_continuation_checked as Hall.
  rewrite forallb_forall in Hall. specialize (Hall y).
  rewrite forallb_forall in Hall. specialize (Hall ltac:(
    apply in_map_iff; exists (Z.to_nat y); split; [lia | apply in_seq; lia]) k
    ltac:(apply list_elem_of_In; exact Hk)).
  apply andb_true_iff in Hall as [Hlow Hhigh].
  rewrite int_of_byte_of_int; lia.
Qed.

Lemma land_63_bounds (x : Z) : 0 <= Z.land x 0x3F < 64.
Proof.
  change 0x3F with (Z.ones 6). rewrite Z.land_ones by lia.
  apply Z.mod_pos_bound. reflexivity.
Qed.

Lemma shiftr_bounds (c k bound : Z) :
  0 <= k -> 0 <= c < bound * 2 ^ k -> 0 <= Z.shiftr c k < bound.
Proof.
  intros Hk Hc. rewrite Z.shiftr_div_pow2 by lia.
  assert (0 < 2 ^ k) by (apply Z.pow_pos_nonneg; lia).
  split; [apply Z.div_pos; lia | apply Z.div_lt_upper_bound; lia].
Qed.

(** A byte of the encoding of a code point is that code point itself or is
    128 or more. *)
Lemma utf8_char_bytes (c : Z) (encoded : bytes) :
  utf8_char c = Returned encoded ->
  Forall (fun b => int_of_byte b = c \/ 128 <= int_of_byte b) encoded.
Proof.
  unfold utf8_char.
  destruct (Z.ltb_spec c 0); [discriminate |].
  destruct (Z.ltb_spec c 0x80).
  { intros [= <-]. apply Forall_cons. split; [| apply Forall_nil; exact I].
    left. apply int_of_byte_of_int. lia. }
  pose proof (land_63_bounds c) as Hland0.
  pose proof (land_63_bounds (Z.shiftr c 6)) as Hland6.
  pose proof (land_63_bounds (Z.shiftr c 12)) as Hland12.
  assert (forall k y, k ∈ [0x80; 0xC0; 0xE0; 0xF0] -> 0 <= y < 64 ->
                      int_of_byte (byte_of_int (Z.lor k y)) = c
                      \/ 128 <= int_of_byte (byte_of_int (Z.lor k y))) as Hhigh
    by (intros k y Hk Hy; right; apply lor_continuation; assumption).
  destruct (Z.ltb_spec c 0x800).
  { pose proof (shiftr_bounds c 6 32).
    intros [= <-].
    repeat (apply Forall_cons; split;
            [apply Hhigh;
             [repeat first [apply list_elem_of_here | apply list_elem_of_further] | lia] |]).
    apply Forall_nil. exact I. }
  destruct (Z.ltb_spec c 0x10000).
  { destruct ((0xD800 <=? c) && (c <=? 0xDFFF)); [discriminate |].
    pose proof (shiftr_bounds c 12 16).
    intros [= <-].
    repeat (apply Forall_cons; split;
            [apply Hhigh;
             [repeat first [apply list_elem_of_here | apply list_elem_of_further] | lia] |]).
    apply Forall_nil. exact I. }
  destruct (Z.ltb_spec c 0x110000); [| discriminate].
  pose proof (shiftr_bounds c 18 5).
  intros [= <-].
  repeat (apply Forall_cons; split;
            [apply Hhigh;
             [repeat first [apply list_elem_of_here | apply list_elem_of_further] | lia] |]).
  apply Forall_nil. exact I.
Qed.

Lemma encode_utf8_bytes (s : str) (encoded : bytes) :
  encode_utf8 s = Returned encoded ->
  Forall (fun b => int_of_byte b ∈ s \/ 128 <= int_of_byte b) encoded.
Proof.
  intros Henc. destruct (encode_utf8_chars s encoded Henc) as (bs & Hbs & <-).
  clear Henc. induction Hbs as [| c b s bs Hc _ IH]; cbn [concat].
  - constructor.
  - apply Forall_app. split.
    + eapply Forall_impl; [exact (utf8_char_bytes c b Hc) |].
      intros x [-> | Hx]; [left; apply list_elem_of_here | right; exact Hx].
    + eapply Forall_impl; [exact IH |].
      intros x [Hx | Hx]; [left; apply list_elem_of_further, Hx | right; exact Hx].
Qed.

(** X20. The text Return queues in Line-by-Line mode holds no line feed once it
    is encoded: the byte 0A reaches the printer through the Line Feed
    command only, never inside the text of a line. *)
Theorem line_text_holds_no_line_feed (w : World) (encoded : bytes) :
  encode_utf8 (current_line (text w) (insert_mark w)) = Returned encoded ->
  x0a ∉ encoded.
Proof.
  intros Henc Hin. pose proof (encode_utf8_bytes _ _ Henc) as Hall.
  rewrite Forall_forall in Hall. destruct (Hall x0a Hin) as [H | H].
  - exact (current_line_no_newline _ _ H).
  - vm_compute in H. apply H. reflexivity.
Qed.

Lemma line_text_holds_no_line_feed_witness : x0a ∉ [x48; x45; x4c; x4c; x4f].
Proof. exact (line_text_holds_no_line_feed hello_world [x48; x45; x4c; x4c; x4f] eq_refl). Defined.

(** X21. A key other than Return, Tab and BackSpace never transmits a control
    byte: whatever the mode, the port and the character of the key, every
    byte of every connection it makes is 32 or more, so that typing cannot
    start an escape sequence. *)
Theorem typing_never_sends_a_control_byte (ev : KeyEvent) (w : World) (data : bytes) :
  typing_key ev = true ->
  data ∈ payloads (added w (handle_key ev w).2) ->
  Forall (fun b => 32 <= int_of_byte b) data.
Proof.
  intros Hkey. unfold handle_key.
  destruct (typing_key_true ev Hkey) as (-> & -> & ->). run_monad.
  destruct (String.eqb (mode_var (vars w)) "Live");
    [| rewrite added_refl; intros Hnone; by apply elem_of_nil in Hnone].
  destruct (char ev) as [c |];
    [| rewrite added_refl; intros Hnone; by apply elem_of_nil in Hnone].
  destruct (Z.leb_spec 32 c) as [Hc |];
    [| rewrite added_refl; intros Hnone; by apply elem_of_nil in Hnone].
  cbn [encode_utf8].
  destruct (utf8_char c) as [encoded | e] eqn:Henc;
    [| rewrite added_refl; intros Hnone; by apply elem_of_nil in Hnone].
  rewrite app_nil_r, (utf8_char_nonempty c encoded Henc).
  rewrite send_live_command_run, send_command_immediately_run. cbn [snd].
  rewrite added_set_journal. unfold payloads. rewrite transmissions_send_trace.
  destruct (py_int (port_entry (vars w))); cbn [map snd];
    [| intros Hnone; by apply elem_of_nil in Hnone].
  intros Hdata. apply list_elem_of_singleton in Hdata as ->.
  eapply Forall_impl; [exact (utf8_char_bytes c encoded Henc) |].
  intros b [-> | Hb]; lia.
Qed.

Lemma typing_never_sends_a_control_byte_witness :
  Forall (fun b => 32 <= int_of_byte b) [xc3; xa9].
Proof.
  apply (typing_never_sends_a_control_byte {| keysym := "eacute"; char := Some 233 |}
           live_world [xc3; xa9] eq_refl).
  vm_compute. apply list_elem_of_here.
Defined.

Lemma checkboxes_send_one_of_two_codes_witness :
  exists on off : bytes,
    on <> off /\ emits toggle_enhanced (initial_world reachable) [(0, off)].
Proof.
  pose proof checkboxes_send_one_of_two_codes as Hall.
  rewrite Forall_forall in Hall.
  destruct (Hall (toggle_enhanced, enhanced_state)
              ltac:(repeat first [apply list_elem_of_here | apply list_elem_of_further]))
    as (on & off & Hne & _ & _ & Hem).
  exists on, off. split; [exact Hne |].
  exact (Hem (initial_world reachable) 9100 eq_refl).
Defined.

(** ** What the debug log calls a command, and what a CPI button sends *)

(** X22. The Shift In/Out checkbox transmits through the live sender: its debug
    line and its error line carry the tag of a live keystroke, and the tags
    [send_shift] prepares for Shift In and Shift Out appear nowhere. *)
Theorem send_shift_logs_as_live_keystroke (w : World) :
  send_shift w
  = send_command_immediately (if shift_state (vars w) then [x0f] else [x0e])
      "[Live Keystroke]" w.
Proof.
  unfold send_shift. run_monad.
  destruct (shift_state (vars w));
    [change (get "Shift In" []) with (Returned [x0f])
    | change (get "Shift Out" []) with (Returned [x0e])];
    reflexivity.
Qed.

(** X23. Whatever the CPI variable holds and whether Double Wide is ticked or
    not, what [apply_cpi] transmits is the dictionary's entry for that CPI
    and nothing else: never Double Width On (1F), so that a CPI button
    pressed while Double Wide is ticked does not renew the double width. *)
Theorem apply_cpi_never_sends_double_width (w : World) (data : bytes) :
  data ∈ payloads (added w (apply_cpi w).2) ->
  OKIDATA_COMMANDS !! ("Select " +:+ cpi_var (vars w)) = Some (Fixed data)
  /\ data <> [x1f].
Proof.
  unfold apply_cpi, cpi_command, get, commands_get. run_monad.
  destruct (negb _); [| rewrite added_refl; intros Hnone; by apply elem_of_nil in Hnone].
  destruct (OKIDATA_COMMANDS !! ("Select " +:+ cpi_var (vars w))) as [c |] eqn:Hentry;
    cbn [from_option id];
    [| cbn [nonempty]; rewrite added_refl; intros Hnone; by apply elem_of_nil in Hnone].
  pose proof Hentry as Hcode. apply select_entry in Hcode as (code & -> & Hne & _).
  destruct code as [| b code]; [contradiction |]. cbn [nonempty].
  rewrite send_command_immediately_run. cbn [snd].
  rewrite added_set_journal. unfold payloads. rewrite transmissions_send_trace.
  destruct (py_int (port_entry (vars w))); cbn [map snd];
    [| intros Hnone; by apply elem_of_nil in Hnone].
  intros Hdata. apply list_elem_of_singleton in Hdata as ->.
  split; [reflexivity |].
  intros Heq. rewrite Heq in Hentry. clear - Hentry.
  entries Hentry; cbn in Hentry; simplify_eq.
Qed.

Lemma apply_cpi_never_sends_double_width_witness :
  OKIDATA_COMMANDS !! ("Select " +:+ cpi_var (vars (initial_world reachable)))
  = Some (Fixed [x1e])
  /\ [x1e] <> [x1f].
Proof.
  apply (apply_cpi_never_sends_double_width (initial_world reachable) [x1e]).
  vm_compute. apply list_elem_of_here.
Defined.

(** ** Connections that carry nothing *)

#[local] Instance filled_preorder : PreOrder filled.
Proof.
  split.
  - intros w. split; [reflexivity |]. exists []. split; [symmetry; apply app_nil_r |].
    apply Forall_nil. exact I.
  - intros w1 w2 w3 (Hv & l & Hj & Hl) (Hv' & l' & Hj' & Hl'). split; [congruence |].
    exists (l ++ l'). split; [rewrite Hj', Hj; symmetry; apply app_assoc |].
    rewrite transmissions_app. apply Forall_app. split; assumption.
Qed.

Lemma filled_same_journal (w w' : World) :
  vars w' = vars w -> journal w' = journal w -> filled w w'.
Proof.
  intros Hv Hj. split; [exact Hv |]. exists []. split; [rewrite Hj; symmetry; apply app_nil_r |].
  apply Forall_nil. exact I.
Qed.

Lemma filled_send_command_immediately (data : bytes) (tag : string) :
  nonempty data = true -> respects filled (send_command_immediately data tag).
Proof.
  intros Hne w. rewrite send_command_immediately_run. cbn [snd]. split; [reflexivity |].
  eexists. split; [reflexivity |]. rewrite transmissions_send_trace.
  destruct (py_int (port_entry (vars w))); [| apply Forall_nil; exact I].
  apply Forall_cons. split; [| apply Forall_nil; exact I].
  cbn [snd]. intros ->. discriminate Hne.
Qed.

Lemma filled_send_live_command (data : bytes) :
  nonempty data = true -> respects filled (send_live_command data).
Proof. exact (filled_send_command_immediately data "[Live Keystroke]"). Qed.

Lemma filled_update_line_length_display : respects filled update_line_length_display.
Proof.
  intros w. destruct (update_line_length_display_frame w) as (r & len & bg & ->).
  apply filled_same_journal; reflexivity.
Qed.

Lemma filled_after (ms : Z) (cb : callback) : respects filled (after ms cb).
Proof. intros w. apply filled_same_journal; reflexivity. Qed.

Lemma filled_insert_newline : respects filled insert_newline.
Proof. intros w. apply filled_same_journal; reflexivity. Qed.

Lemma filled_emit (e : event) :
  transmissions [(0, e)] = [] -> respects filled (emit e).
Proof.
  intros He w. split; [reflexivity |]. eexists. split; [reflexivity |].
  destruct e; try discriminate He; apply Forall_nil; exact I.
Qed.

Lemma filled_connect_and_send (ip : string) (port : Z) (data : bytes) :
  nonempty data = true -> respects filled (connect_and_send ip port data).
Proof.
  intros Hne w. split; [reflexivity |]. eexists. split; [reflexivity |].
  apply Forall_cons. split; [| apply Forall_nil; exact I].
  cbn [snd]. intros ->. discriminate Hne.
Qed.

Lemma respects_lift_returned (R : World -> World -> Prop) {A B : Type} (a : A)
    (k : A -> M B) :
  respects R (k a) -> respects R (bind (lift (Returned a)) k).
Proof. intros H. exact H. Qed.

Lemma skip_over_perforation_nonempty (n : Z) (code : bytes) :
  skip_over_perforation n = Returned code -> nonempty code = true.
Proof.
  unfold skip_over_perforation. destruct (n =? 0); [intros [= <-]; reflexivity |].
  destruct (bytes_of_int n) as [b | e]; [| discriminate]. intros [= <-]. reflexivity.
Qed.

Lemma filled_restore_defaults : respects filled restore_defaults.
Proof.
  unfold restore_defaults.
  apply respects_bind; [tc_solve | apply respects_var; tc_solve | intros ip].
  apply respects_bind; [tc_solve | apply respects_var; tc_solve | intros port_text].
  destruct (py_int port_text) as [port |]; [| apply filled_emit; reflexivity].
  rewrite get_reset. apply respects_lift_returned.
  apply respects_bind; [tc_solve | apply respects_var; tc_solve | intros cpi].
  apply respects_bind; [tc_solve | apply respects_lift; tc_solve | intros cpi_cmd].
  apply respects_bind; [tc_solve | apply respects_var; tc_solve | intros skip_val].
  apply respects_bind; [tc_solve | apply respects_lift; tc_solve | intros skip_cmd].
  cbv zeta.
  apply respects_bind; [tc_solve | apply respects_var; tc_solve | intros debug].
  apply respects_bind;
    [tc_solve | apply respects_when; [tc_solve | apply filled_emit; reflexivity] | intros _].
  apply respects_bind; [tc_solve | apply filled_connect_and_send; reflexivity | intros error].
  destruct error; [apply filled_emit; reflexivity | apply respects_ret; tc_solve].
Qed.

Lemma filled_apply_skip_over_perforation : respects filled apply_skip_over_perforation.
Proof.
  unfold apply_skip_over_perforation.
  apply respects_bind; [tc_solve | apply respects_var; tc_solve | intros value].
  rewrite get_call_skip.
  destruct (skip_over_perforation value) as [code | e] eqn:Hcode.
  - apply respects_lift_returned, filled_send_command_immediately.
    exact (skip_over_perforation_nonempty value code Hcode).
  - intros w. reflexivity.
Qed.

(** As [respects_tac], for computations that send under the guard
    [if command:]. *)
Ltac guarded_tac :=
  repeat match goal with
    | |- respects _ (ret _) => apply respects_ret; tc_solve
    | |- respects _ (lift _) => apply respects_lift; tc_solve
    | |- respects _ (var _) => apply respects_var; tc_solve
    | |- respects _ (when (nonempty ?c) _) =>
        let Hne := fresh "Hne" in
        destruct (nonempty c) eqn:Hne; unfold when
    | |- respects _ (for_range _ _) => apply respects_for_range; [tc_solve |]
    | |- respects _ (bind (lift (Returned _)) _) => apply respects_lift_returned
    | |- respects _ (bind _ _) => apply respects_bind; [tc_solve | | intros ?]
    | |- respects _ (if ?b then _ else _) => destruct b
    | |- respects _ (match ?x with _ => _ end) => destruct x
    | H : nonempty ?c = true |- respects filled (send_command_immediately ?c _) =>
        exact (filled_send_command_immediately c _ H)
    | H : nonempty ?c = true |- respects filled (send_live_command ?c) =>
        exact (filled_send_live_command c H)
    | |- respects filled (send_live_command (_ :: _)) =>
        apply filled_send_live_command; reflexivity
    | |- respects filled (send_command_immediately (_ :: _) _) =>
        apply filled_send_command_immediately; reflexivity
    | H : respects ?R ?m |- respects ?R ?m => exact H
    end.

Lemma filled_apply_cpi : respects filled apply_cpi.
Proof. unfold apply_cpi. guarded_tac. Qed.

Lemma filled_send_all_defaults : respects filled send_all_defaults.
Proof.
  pose proof filled_restore_defaults. pose proof filled_apply_cpi.
  pose proof filled_apply_skip_over_perforation.
  unfold send_all_defaults, apply_font, apply_spacing, apply_quality, apply_speed,
    apply_double_height, apply_proportional.
  guarded_tac.
Qed.

(** X24. No control and no key opens a connection to send nothing: whatever the
    user operates, presses or types, Return included, every connection made
    by the handler carries at least one byte.  So do the tabs of the left
    margin. *)
Theorem handlers_never_send_an_empty_payload :
  Forall (respects filled) control_commands
  /\ (forall ev, respects filled (handle_key ev))
  /\ respects filled handle_return
  /\ respects filled send_left_margin.
Proof.
  pose proof filled_apply_cpi. pose proof filled_send_all_defaults.
  pose proof filled_apply_skip_over_perforation.
  pose proof filled_update_line_length_display.
  split; [| split; [| split]].
  - unfold control_commands, manual_buttons. cbn [map app].
    repeat (apply Forall_cons; split;
            [first [assumption
                   | unfold toggle_italic, toggle_emphasized, apply_underline,
                       apply_unidirectional, toggle_enhanced, apply_double_height,
                       apply_proportional, toggle_double_wide, apply_zero, apply_font,
                       apply_spacing, apply_quality, apply_speed, send_manual_command,
                       send_shift;
                     guarded_tac] |]).
    apply Forall_nil. exact I.
  - intros ev. unfold handle_key. guarded_tac.
  - unfold handle_return. rewrite get_cr, get_lf.
    pose proof filled_after. pose proof filled_insert_newline.
    guarded_tac; first [apply filled_after | intros w; reflexivity].
  - unfold send_left_margin. rewrite get_ht. guarded_tac.
Qed.

(** X25. The text of the line is the one thing sent without the guard: Return on
    an empty line in Line-by-Line mode queues the callback of the empty
    text, and that callback, when it fires, makes a connection that carries
    no byte. *)
Theorem empty_line_is_sent_as_an_empty_payload (w : World) :
  mode_var (vars w) = "Line-by-Line" ->
  current_line (text w) (insert_mark w) = [] ->
  (now w + 30, SendLineText []) ∈ timers (handle_return w).2
  /\ forall (w' : World) (port : Z),
       py_int (port_entry (vars w')) = Some port ->
       emits (run_callback (SendLineText [])) w' [(now w', [])].
Proof.
  intros Hmode Hline. split.
  - rewrite (handle_return_line_by_line w Hmode).
    destruct (update_line_length_display_frame (committed w)) as (r & len & bg & ->).
    cbn. rewrite Hline. apply enqueue_elem.
  - intros w' port Hport. exact (emits_send_line_text [] [] w' port Hport eq_refl).
Qed.

Lemma empty_line_is_sent_as_an_empty_payload_witness :
  (30, SendLineText []) ∈ timers (handle_return (initial_world reachable)).2
  /\ emits (run_callback (SendLineText [])) (initial_world reachable) [(0, [])].
Proof.
  destruct (empty_line_is_sent_as_an_empty_payload (initial_world reachable)
              eq_refl eq_refl) as [Htimer Hsend].
  split; [exact Htimer | exact (Hsend (initial_world reachable) 9100 eq_refl)].
Defined.

(** X26. In Live mode a key whose character is a surrogate has no UTF-8
    encoding: the handler raises [UnicodeEncodeError] before it logs or
    sends anything. *)
Theorem live_key_with_a_surrogate_raises (ev : KeyEvent) (c : Z) (w : World) :
  mode_var (vars w) = "Live" ->
  typing_key ev = true ->
  char ev = Some c ->
  0xD800 <= c <= 0xDFFF ->
  handle_key ev w = (Raised UnicodeEncodeError, w).
Proof.
  intros Hmode Hkey Hchar Hc. unfold handle_key.
  destruct (typing_key_true ev Hkey) as (-> & -> & ->). run_monad.
  rewrite Hmode. cbn [String.eqb Ascii.eqb Bool.eqb andb].
  rewrite Hchar, (proj2 (Z.leb_le 32 c)) by lia. cbn [encode_utf8].
  unfold utf8_char.
  rewrite (proj2 (Z.ltb_ge c 0)), (proj2 (Z.ltb_ge c 0x80)), (proj2 (Z.ltb_ge c 0x800)),
    (proj2 (Z.ltb_lt c 0x10000)), (proj2 (Z.leb_le 0xD800 c)), (proj2 (Z.leb_le c 0xDFFF))
    by lia.
  reflexivity.
Qed.

Lemma live_key_with_a_surrogate_raises_witness :
  handle_key {| keysym := "??"; char := Some 0xD83D |} live_world
  = (Raised UnicodeEncodeError, live_world).
Proof.
  apply (live_key_with_a_surrogate_raises {| keysym := "??"; char := Some 0xD83D |} 0xD83D
           live_world eq_refl eq_refl eq_refl).
  lia.
Defined.
